(** * Taichi Vulkan backend: a model of [taichi/backends/vulkan/vulkan_api.cpp]

    The file is host code that drives the Vulkan API.  Every function of the
    source is embedded as a function that threads
    - the object whose member function is running ([Self]), and
    - the trace of API calls and log lines issued so far ([Trace]),
    and that ends normally, by a C++ exception, or in [std::terminate].

    What the Vulkan driver answers (status codes, written handles, enumerated
    layers, devices, queue families and extensions) is a parameter of the
    whole development: the record [Driver]. *)

From Stdlib Require Import ZArith List String Bool Lia.
Import ListNotations.
Local Open Scope string_scope.
Local Open Scope list_scope.
Local Open Scope Z_scope.

(** ** Constants of [vulkan_core.h] used by the source *)

Module Vk.

Definition VK_NULL_HANDLE : Z := 0.
Definition VK_SUCCESS : Z := 0.
Definition VK_ERROR_EXTENSION_NOT_PRESENT : Z := -7.
Definition VK_FALSE : Z := 0.
Definition VK_WHOLE_SIZE : Z := 2 ^ 64 - 1.

(* VK_MAKE_VERSION(major, minor, patch) *)
Definition VK_MAKE_VERSION (major minor patch : Z) : Z :=
  Z.lor (Z.lor (Z.shiftl major 22) (Z.shiftl minor 12)) patch.

(* VkQueueFlagBits *)
Definition VK_QUEUE_GRAPHICS_BIT : Z := 1.
Definition VK_QUEUE_COMPUTE_BIT : Z := 2.
Definition VK_QUEUE_TRANSFER_BIT : Z := 4.
Definition VK_QUEUE_SPARSE_BINDING_BIT : Z := 8.

(* VkDebugUtilsMessageTypeFlagBitsEXT *)
Definition VK_DEBUG_UTILS_MESSAGE_TYPE_GENERAL_BIT_EXT : Z := 1.
Definition VK_DEBUG_UTILS_MESSAGE_TYPE_VALIDATION_BIT_EXT : Z := 2.
Definition VK_DEBUG_UTILS_MESSAGE_TYPE_PERFORMANCE_BIT_EXT : Z := 4.

(* VkAccessFlagBits *)
Definition VK_ACCESS_SHADER_READ_BIT : Z := 32.
Definition VK_ACCESS_SHADER_WRITE_BIT : Z := 64.
Definition VK_ACCESS_TRANSFER_READ_BIT : Z := 2048.
Definition VK_ACCESS_TRANSFER_WRITE_BIT : Z := 4096.

(* VkPipelineStageFlagBits *)
Definition VK_PIPELINE_STAGE_COMPUTE_SHADER_BIT : Z := 2048.
Definition VK_PIPELINE_STAGE_TRANSFER_BIT : Z := 4096.

Definition VK_SHADER_STAGE_COMPUTE_BIT : Z := 32.
Definition VK_DESCRIPTOR_TYPE_STORAGE_BUFFER : Z := 7.
Definition VK_PIPELINE_BIND_POINT_COMPUTE : Z := 1.
Definition VK_COMMAND_BUFFER_LEVEL_PRIMARY : Z := 0.
Definition VK_COMMAND_BUFFER_USAGE_SIMULTANEOUS_USE_BIT : Z := 4.

(* extension and layer names *)
Definition VK_EXT_DEBUG_UTILS_EXTENSION_NAME := "VK_EXT_debug_utils".
Definition VK_KHR_SURFACE_EXTENSION_NAME := "VK_KHR_surface".
Definition VK_KHR_SWAPCHAIN_EXTENSION_NAME := "VK_KHR_swapchain".
Definition VK_EXT_SHADER_ATOMIC_FLOAT_EXTENSION_NAME := "VK_EXT_shader_atomic_float".
Definition VK_KHR_SHADER_ATOMIC_INT64_EXTENSION_NAME := "VK_KHR_shader_atomic_int64".
Definition VK_KHR_SYNCHRONIZATION_2_EXTENSION_NAME := "VK_KHR_synchronization2".
Definition VK_NV_EXTERNAL_MEMORY_CAPABILITIES_EXTENSION_NAME :=
  "VK_NV_external_memory_capabilities".
Definition VK_KHR_VARIABLE_POINTERS_EXTENSION_NAME := "VK_KHR_variable_pointers".

(** [VkDebugUtilsMessageSeverityFlagBitsEXT]: a C enumeration; the callback
    receives one of its enumerators. *)
Inductive VkDebugUtilsMessageSeverityFlagBitsEXT :=
| VK_DEBUG_UTILS_MESSAGE_SEVERITY_VERBOSE_BIT_EXT
| VK_DEBUG_UTILS_MESSAGE_SEVERITY_INFO_BIT_EXT
| VK_DEBUG_UTILS_MESSAGE_SEVERITY_WARNING_BIT_EXT
| VK_DEBUG_UTILS_MESSAGE_SEVERITY_ERROR_BIT_EXT
| VK_DEBUG_UTILS_MESSAGE_SEVERITY_FLAG_BITS_MAX_ENUM_EXT.

(* the enumerators' integer values *)
Definition severity_value (s : VkDebugUtilsMessageSeverityFlagBitsEXT) : Z :=
  match s with
  | VK_DEBUG_UTILS_MESSAGE_SEVERITY_VERBOSE_BIT_EXT => 1
  | VK_DEBUG_UTILS_MESSAGE_SEVERITY_INFO_BIT_EXT => 16
  | VK_DEBUG_UTILS_MESSAGE_SEVERITY_WARNING_BIT_EXT => 256
  | VK_DEBUG_UTILS_MESSAGE_SEVERITY_ERROR_BIT_EXT => 4096
  | VK_DEBUG_UTILS_MESSAGE_SEVERITY_FLAG_BITS_MAX_ENUM_EXT => 2147483647
  end.

End Vk.
Import Vk.

(** ** Handles and plain structures *)

(* Every Vulkan handle (dispatchable or not) is an integer; 0 is the null handle. *)
Definition Handle := Z.
Definition VkResult := Z.

Record VkQueueFamilyProperties := {
  queueFlags : Z;   (* VkQueueFlags, uint32_t *)
  queueCount : Z
}.

Record VkExtensionProperties := {
  extensionName : string;
  specVersion : Z
}.

Record VkDebugUtilsMessengerCallbackDataEXT := {
  pMessage : string
}.

(** Modelled from the spec: [VulkanQueueFamilyIndices] of [vulkan_api.h],
    which is not among the sources: "optional index identifying which hardware
    queue family supports compute dispatch".  The source reads it through
    [compute_family.value()] and [is_complete()]. *)
Record VulkanQueueFamilyIndices := {
  compute_family : option Z
}.

Definition is_complete (indices : VulkanQueueFamilyIndices) : bool :=
  match compute_family indices with Some _ => true | None => false end.

(** ** Integer conversions of the C++ source *)

(* value of a 32-bit unsigned quantity after conversion to [uint32_t] *)
Definition to_uint32 (x : Z) : Z := x mod 2 ^ 32.

(* [(int)x] for a [uint32_t] x: two's complement reading *)
Definition to_int (x : Z) : Z :=
  let m := x mod 2 ^ 32 in if m <? 2 ^ 31 then m else m - 2 ^ 32.

(* a C condition: an integer is true when it is not zero *)
Definition truthy (x : Z) : bool := negb (x =? 0).

(** [for (int i = lo; i < hi; ++i) body], with [return] from inside the body:
    [body i s] is [inl s'] to go on with state [s'] and [inr r] to return [r].
    The loop makes at most [hi - lo] turns, which is the fuel it is given. *)
Fixpoint for_int_from {S R : Type} (fuel : nat) (i hi : Z)
    (body : Z -> S -> S + R) (s : S) : S + R :=
  match fuel with
  | O => inl s
  | Datatypes.S fuel' =>
      if i <? hi then
        match body i s with
        | inl s' => for_int_from fuel' (i + 1) hi body s'
        | inr r => inr r
        end
      else inl s
  end.

Definition for_int {S R : Type} (hi : Z) (body : Z -> S -> S + R) (s : S) : S + R :=
  for_int_from (Z.to_nat hi) 0 hi body s.

(** ** [find_queue_families] *)

(* constexpr VkQueueFlags kFlagMask =
     (~(VK_QUEUE_TRANSFER_BIT | VK_QUEUE_SPARSE_BINDING_BIT)); *)
Definition kFlagMask : Z :=
  to_uint32 (Z.lnot (Z.lor VK_QUEUE_TRANSFER_BIT VK_QUEUE_SPARSE_BINDING_BIT)).

Definition empty_queue_family : VkQueueFamilyProperties :=
  {| queueFlags := 0; queueCount := 0 |}.

(* queue_families[i] *)
Definition queue_family_at (queue_families : list VkQueueFamilyProperties) (i : Z)
  : VkQueueFamilyProperties :=
  nth (Z.to_nat i) queue_families empty_queue_family.

(* body of the first loop: a queue that has just the compute bit set *)
Definition compute_only_step (queue_families : list VkQueueFamilyProperties)
    (i : Z) (indices : VulkanQueueFamilyIndices)
  : VulkanQueueFamilyIndices + VulkanQueueFamilyIndices :=
  let masked_flags := Z.land kFlagMask (queueFlags (queue_family_at queue_families i)) in
  let indices :=
    if truthy (Z.land masked_flags VK_QUEUE_COMPUTE_BIT)
       && negb (truthy (Z.land masked_flags VK_QUEUE_GRAPHICS_BIT))
    then {| compute_family := Some i |} else indices in
  if is_complete indices then inr indices else inl indices.

(* body of the second loop: any queue that will work *)
Definition any_compute_step (queue_families : list VkQueueFamilyProperties)
    (i : Z) (indices : VulkanQueueFamilyIndices)
  : VulkanQueueFamilyIndices + VulkanQueueFamilyIndices :=
  let masked_flags := Z.land kFlagMask (queueFlags (queue_family_at queue_families i)) in
  let indices :=
    if truthy (Z.land masked_flags VK_QUEUE_COMPUTE_BIT)
    then {| compute_family := Some i |} else indices in
  if is_complete indices then inr indices else inl indices.

(** The function after its two calls of [vkGetPhysicalDeviceQueueFamilyProperties]:
    [queue_family_count] is the [uint32_t] the driver wrote and
    [queue_families] the vector of that many entries it filled. *)
Definition find_queue_families_in (queue_families : list VkQueueFamilyProperties)
  : VulkanQueueFamilyIndices :=
  let indices := {| compute_family := None |} in
  let queue_family_count := Z.of_nat (List.length queue_families) in
  match for_int (to_int queue_family_count) (compute_only_step queue_families) indices with
  | inr r => r
  | inl indices =>
      match for_int (to_int queue_family_count) (any_compute_step queue_families) indices with
      | inr r => r
      | inl indices => indices
      end
  end.

(** ** Structures handed to the API

    Only the members the source sets are kept; a member the source leaves at
    its zero initialiser ([= {}]) and never reads is left out.  A pointer to an
    array is the list of its elements, next to the count the source computes. *)

(** Modelled from the spec: [SpirvCodeView] of [vulkan_api.h], the kernel
    input "{byteCodePointer, byteSizeInBytes}"; the source reads [data] and
    [size]. *)
Record SpirvCodeView := {
  code_data : list Z;
  code_size : Z
}.

(* the only callback the source installs *)
Inductive DebugCallback := pfn_vk_debug_callback.

Record VkDebugUtilsMessengerCreateInfoEXT := {
  messageSeverity : Z;
  messageType : Z;
  pfnUserCallback : DebugCallback;
  pUserData : Z
}.

Record VkApplicationInfo := {
  pApplicationName : string;
  applicationVersion : Z;
  pEngineName : string;
  engineVersion : Z;
  apiVersion : Z
}.

Record VkInstanceCreateInfo := {
  pApplicationInfo : VkApplicationInfo;
  inst_pNext : option VkDebugUtilsMessengerCreateInfoEXT;
  inst_enabledLayerCount : Z;
  inst_ppEnabledLayerNames : list string;
  inst_enabledExtensionCount : Z;
  inst_ppEnabledExtensionNames : list string
}.

Record VkDeviceQueueCreateInfo := {
  queueFamilyIndex : Z;
  dq_queueCount : Z;
  pQueuePriorities : list Z   (* the single priority 1.0f is written 1 *)
}.

Record VkDeviceCreateInfo := {
  queueCreateInfoCount : Z;
  pQueueCreateInfos : list VkDeviceQueueCreateInfo;
  enabledExtensionCount : Z;
  ppEnabledExtensionNames : list string;
  enabledLayerCount : Z;
  ppEnabledLayerNames : list string
}.

Record VkCommandPoolCreateInfo := {
  pool_flags : Z;
  pool_queueFamilyIndex : Z
}.

Record VkDescriptorSetLayoutBinding := {
  binding_ : Z;
  lb_descriptorType : Z;
  lb_descriptorCount : Z;
  stageFlags : Z
}.

Record VkDescriptorSetLayoutCreateInfo := {
  bindingCount : Z;
  pBindings : list VkDescriptorSetLayoutBinding
}.

Record VkShaderModuleCreateInfo := {
  codeSize : Z;
  pCode : list Z
}.

Record VkPipelineShaderStageCreateInfo := {
  stage_ : Z;
  module_ : Handle;
  pName : string
}.

Record VkPipelineLayoutCreateInfo := {
  setLayoutCount : Z;
  pl_pSetLayouts : list Handle;
  pushConstantRangeCount : Z
}.

Record VkComputePipelineCreateInfo := {
  stage : VkPipelineShaderStageCreateInfo;
  layout : Handle
}.

Record VkDescriptorPoolSize := {
  ps_type : Z;
  ps_descriptorCount : Z
}.

Record VkDescriptorPoolCreateInfo := {
  maxSets : Z;
  poolSizeCount : Z;
  pPoolSizes : list VkDescriptorPoolSize
}.

Record VkDescriptorSetAllocateInfo := {
  descriptorPool : Handle;
  descriptorSetCount : Z;
  pSetLayouts : list Handle
}.

Record VkDescriptorBufferInfo := {
  buffer_ : Handle;
  offset : Z;
  range : Z
}.

Record VkWriteDescriptorSet := {
  dstSet : Handle;
  dstBinding : Z;
  dstArrayElement : Z;
  descriptorCount : Z;
  descriptorType : Z;
  pBufferInfo : VkDescriptorBufferInfo   (* the element pointed to *)
}.

Record VkCommandBufferAllocateInfo := {
  commandPool : Handle;
  level : Z;
  commandBufferCount : Z
}.

Record VkCommandBufferBeginInfo := {
  begin_flags : Z
}.

Record VkMemoryBarrier := {
  srcAccessMask : Z;
  dstAccessMask : Z
}.

Record VkBufferCopy := {
  srcOffset : Z;
  dstOffset : Z;
  size : Z
}.

Record VkSubmitInfo := {
  waitSemaphoreCount : Z;
  pWaitSemaphores : list Handle;
  submit_commandBufferCount : Z;
  pCommandBuffers : list Handle;
  signalSemaphoreCount : Z;
  pSignalSemaphores : list Handle
}.

(** ** The trace: API calls that act on the driver, and log lines *)

Inductive LogLevel := TRACE | WARN.

Inductive LogArg := ArgStr (s : string) | ArgInt (n : Z).

Inductive Event :=
| vkCreateInstance (pCreateInfo : VkInstanceCreateInfo)
| vkDestroyInstance (instance : Handle)
| vkCreateDebugUtilsMessengerEXT (instance : Handle)
    (pCreateInfo : VkDebugUtilsMessengerCreateInfoEXT)
| vkDestroyDebugUtilsMessengerEXT (instance messenger : Handle)
| vkCreateDevice (physicalDevice : Handle) (pCreateInfo : VkDeviceCreateInfo)
| vkDestroyDevice (device : Handle)
| vkGetDeviceQueue (device : Handle) (queueFamilyIndex queueIndex : Z)
| vkCreateCommandPool (device : Handle) (pCreateInfo : VkCommandPoolCreateInfo)
| vkDestroyCommandPool (device commandPool : Handle)
| vkCreateDescriptorSetLayout (device : Handle)
    (pCreateInfo : VkDescriptorSetLayoutCreateInfo)
| vkDestroyDescriptorSetLayout (device layout : Handle)
| vkCreateShaderModule (device : Handle) (pCreateInfo : VkShaderModuleCreateInfo)
| vkDestroyShaderModule (device shaderModule : Handle)
| vkCreatePipelineLayout (device : Handle) (pCreateInfo : VkPipelineLayoutCreateInfo)
| vkDestroyPipelineLayout (device layout : Handle)
| vkCreateComputePipelines (device pipelineCache : Handle) (createInfoCount : Z)
    (pCreateInfos : list VkComputePipelineCreateInfo)
| vkDestroyPipeline (device pipeline : Handle)
| vkCreateDescriptorPool (device : Handle) (pCreateInfo : VkDescriptorPoolCreateInfo)
| vkDestroyDescriptorPool (device pool : Handle)
| vkAllocateDescriptorSets (device : Handle) (pAllocateInfo : VkDescriptorSetAllocateInfo)
| vkUpdateDescriptorSets (device : Handle) (descriptorWriteCount : Z)
    (pDescriptorWrites : list VkWriteDescriptorSet) (descriptorCopyCount : Z)
| vkAllocateCommandBuffers (device : Handle) (pAllocateInfo : VkCommandBufferAllocateInfo)
| vkBeginCommandBuffer (commandBuffer : Handle) (pBeginInfo : VkCommandBufferBeginInfo)
| vkEndCommandBuffer (commandBuffer : Handle)
| vkCmdBindPipeline (commandBuffer : Handle) (pipelineBindPoint : Z) (pipeline : Handle)
| vkCmdBindDescriptorSets (commandBuffer : Handle) (pipelineBindPoint : Z)
    (layout : Handle) (firstSet descriptorSetCount : Z) (pDescriptorSets : list Handle)
    (dynamicOffsetCount : Z)
| vkCmdDispatch (commandBuffer : Handle) (groupCountX groupCountY groupCountZ : Z)
| vkCmdPipelineBarrier (commandBuffer : Handle) (srcStageMask dstStageMask : Z)
    (dependencyFlags : Z) (memoryBarrierCount : Z) (pMemoryBarriers : list VkMemoryBarrier)
    (bufferMemoryBarrierCount imageMemoryBarrierCount : Z)
| vkCmdCopyBuffer (commandBuffer srcBuffer dstBuffer : Handle) (regionCount : Z)
    (pRegions : list VkBufferCopy)
| vkQueueSubmit (queue : Handle) (submitCount : Z) (pSubmits : list VkSubmitInfo)
    (fence : Handle)
| vkQueueWaitIdle (queue : Handle)
| TI_LOG (lvl : LogLevel) (fmt : string) (args : list LogArg).

Definition Trace := list Event.

(** ** The driver

    Enumerations are answers of the driver that the source reads; they leave
    no mark in the trace.  The status a call returns and the handle it writes
    may depend on everything that happened before. *)
Record Driver := {
  (* layerName of each VkLayerProperties of vkEnumerateInstanceLayerProperties *)
  drv_instance_layers : list string;
  (* vkGetInstanceProcAddr(instance, name) != nullptr *)
  drv_has_proc : Handle -> string -> bool;
  (* vkEnumeratePhysicalDevices(instance) *)
  drv_physical_devices : Handle -> list Handle;
  (* vkGetPhysicalDeviceQueueFamilyProperties(device) *)
  drv_queue_families : Handle -> list VkQueueFamilyProperties;
  (* vkEnumerateDeviceExtensionProperties(physical_device, nullptr) *)
  drv_device_extensions : Handle -> list VkExtensionProperties;
  (* the VkResult of a call, given the trace before it *)
  drv_result : Trace -> Event -> VkResult;
  (* the handle a call writes through its last argument *)
  drv_handle : Trace -> Event -> Handle
}.

(** ** Outcomes and the monad of member functions *)

Inductive Outcome (A : Type) : Type :=
| Ok (a : A)               (* normal return *)
| Throw (what : string)    (* a C++ exception leaves the function *)
| Terminate.               (* std::terminate: an exception left a destructor *)
Arguments Ok {A} a.
Arguments Throw {A} what.
Arguments Terminate {A}.

(** A computation on an object of type [Self] ([unit] where no object is
    needed).  The object and the trace survive an exception. *)
Definition M (Self A : Type) : Type := Self -> Trace -> Outcome A * Self * Trace.

Definition ret {Self A} (a : A) : M Self A := fun self t => (Ok a, self, t).

Definition bind {Self A B} (m : M Self A) (k : A -> M Self B) : M Self B :=
  fun self t =>
    match m self t with
    | (Ok a, self', t') => k a self' t'
    | (Throw w, self', t') => (Throw w, self', t')
    | (Terminate, self', t') => (Terminate, self', t')
    end.

Declare Scope vk_scope.
Delimit Scope vk_scope with vk.
Notation "x <- m ;; k" := (bind m (fun x => k))
  (at level 61, m at next level, right associativity) : vk_scope.
Notation "m ;; k" := (bind m (fun _ => k))
  (at level 61, right associativity) : vk_scope.
Notation "' pat <- m ;; k" := (bind m (fun x => match x with pat => k end))
  (at level 61, pat pattern, m at next level, right associativity) : vk_scope.
Local Open Scope vk_scope.

Definition throw {Self A} (what : string) : M Self A := fun self t => (Throw what, self, t).

(* read and update the members of the object *)
Definition this {Self} : M Self Self := fun self t => (Ok self, self, t).
Definition assign {Self} (f : Self -> Self) : M Self unit := fun self t => (Ok tt, f self, t).

(* issue a call or a log line *)
Definition emit {Self} (e : Event) : M Self unit := fun self t => (Ok tt, self, t ++ [e]).

(** Modelled from the spec: [TI_ASSERT_INFO], [TI_WARN], [TI_WARN_IF] and
    [TI_TRACE] of [taichi/common/logging.h], which is not among the sources.
    A failed assertion is fatal ("fail fast"); warnings are "logged and
    execution continues". *)
Definition TI_ASSERT_INFO {Self} (cond : bool) (msg : string) : M Self unit :=
  if cond then ret tt else throw msg.
Definition TI_WARN {Self} (fmt : string) (args : list LogArg) : M Self unit :=
  emit (TI_LOG WARN fmt args).
Definition TI_WARN_IF {Self} (cond : bool) (fmt : string) : M Self unit :=
  if cond then TI_WARN fmt [] else ret tt.
Definition TI_TRACE {Self} (fmt : string) (args : list LogArg) : M Self unit :=
  emit (TI_LOG TRACE fmt args).

(** Modelled from the spec: [BAIL_ON_VK_BAD_RESULT] of
    [taichi/backends/vulkan/vulkan_common.h], which is not among the sources:
    "every failure from the underlying API is treated as fatal and aborts the
    current operation immediately". *)
Definition BAIL_ON_VK_BAD_RESULT {Self} (result : VkResult) (msg : string) : M Self unit :=
  if result =? VK_SUCCESS then ret tt else throw msg.

(** [T obj{...}]: the constructor runs on the members' initial values; an
    exception means no object, hence no destructor. *)
Definition construct {Outer Obj} (init : Obj) (ctor : M Obj unit) : M Outer Obj :=
  fun outer t =>
    match ctor init t with
    | (Ok _, obj, t') => (Ok obj, outer, t')
    | (Throw w, _, t') => (Throw w, outer, t')
    | (Terminate, _, t') => (Terminate, outer, t')
    end.

(** The rest of the block a local object lives in: [body], then the
    destructor on every way out.  Destructors are [noexcept]: an exception
    that leaves one ends the program. *)
Definition scoped {Outer Obj A} (obj : Obj) (body : M Obj A) (dtor : M Obj unit)
  : M Outer A :=
  fun outer t =>
    match body obj t with
    | (Terminate, _, t1) => (Terminate, outer, t1)
    | (r, obj1, t1) =>
        match dtor obj1 t1 with
        | (Ok _, _, t2) => (r, outer, t2)
        | (_, _, t2) => (Terminate, outer, t2)
        end
    end.

Section WithDriver.

Variable drv : Driver.

(* a call that returns a VkResult *)
Definition vk_call {Self} (e : Event) : M Self VkResult :=
  fun self t => (Ok (drv_result drv t e), self, t ++ [e]).

(* a call that returns a VkResult and writes a handle *)
Definition vk_create {Self} (e : Event) : M Self (VkResult * Handle) :=
  fun self t => (Ok (drv_result drv t e, drv_handle drv t e), self, t ++ [e]).

(* a call that writes a handle and returns nothing *)
Definition vk_get {Self} (e : Event) : M Self Handle :=
  fun self t => (Ok (drv_handle drv t e), self, t ++ [e]).

End WithDriver.

(* [opt.value()] of a std::optional *)
Definition value {Self A} (opt : option A) : M Self A :=
  match opt with
  | Some v => ret v
  | None => throw "bad optional access"
  end.

(* a range-based [for] over a vector, the loop's variables being [s] *)
Fixpoint for_each {Self A S} (l : list A) (body : A -> S -> M Self S) (s : S) : M Self S :=
  match l with
  | [] => ret s
  | x :: l' => s' <- body x s ;; for_each l' body s'
  end.

(* [v.size()] assigned to a uint32_t member *)
Definition size32 {A} (v : list A) : Z := to_uint32 (Z.of_nat (List.length v)).

(** ** The anonymous namespace: validation layers and the debug messenger *)

Definition kEnableValidationLayers : bool := true.
Definition kValidationLayers : list string := ["VK_LAYER_KHRONOS_validation"].

Section Helpers.

Variable drv : Driver.

(* [available_layer_names] is the set of the enumerated names; [count(name) == 0]
   is the failure of the membership test *)
Definition check_validation_layer_support : bool :=
  let available_layer_names := drv_instance_layers drv in
  forallb (fun name => existsb (String.eqb name) available_layer_names) kValidationLayers.

Definition vk_debug_callback {Self}
    (message_severity : VkDebugUtilsMessageSeverityFlagBitsEXT)
    (message_type : Z)
    (p_callback_data : VkDebugUtilsMessengerCallbackDataEXT)
    (p_user_data : Z) : M Self Z :=
  (if severity_value message_severity
        >? severity_value VK_DEBUG_UTILS_MESSAGE_SEVERITY_INFO_BIT_EXT
   then TI_WARN "validation layer: {}" [ArgStr (pMessage p_callback_data)]
   else ret tt) ;;
  ret VK_FALSE.

Definition populate_debug_messenger_create_info : VkDebugUtilsMessengerCreateInfoEXT :=
  {| messageSeverity :=
       Z.lor (Z.lor (severity_value VK_DEBUG_UTILS_MESSAGE_SEVERITY_VERBOSE_BIT_EXT)
                    (severity_value VK_DEBUG_UTILS_MESSAGE_SEVERITY_WARNING_BIT_EXT))
             (severity_value VK_DEBUG_UTILS_MESSAGE_SEVERITY_ERROR_BIT_EXT);
     messageType :=
       Z.lor (Z.lor VK_DEBUG_UTILS_MESSAGE_TYPE_GENERAL_BIT_EXT
                    VK_DEBUG_UTILS_MESSAGE_TYPE_VALIDATION_BIT_EXT)
             VK_DEBUG_UTILS_MESSAGE_TYPE_PERFORMANCE_BIT_EXT;
     pfnUserCallback := pfn_vk_debug_callback;
     pUserData := 0 |}.

(* returns the status and the value of [*p_debug_messenger] afterwards *)
Definition create_debug_utils_messenger_ext {Self} (instance : Handle)
    (p_create_info : VkDebugUtilsMessengerCreateInfoEXT)
    (debug_messenger : Handle) : M Self (VkResult * Handle) :=
  if drv_has_proc drv instance "vkCreateDebugUtilsMessengerEXT"
  then vk_create drv (vkCreateDebugUtilsMessengerEXT instance p_create_info)
  else ret (VK_ERROR_EXTENSION_NOT_PRESENT, debug_messenger).

Definition destroy_debug_utils_messenger_ext {Self} (instance debug_messenger : Handle)
  : M Self unit :=
  if drv_has_proc drv instance "vkDestroyDebugUtilsMessengerEXT"
  then emit (vkDestroyDebugUtilsMessengerEXT instance debug_messenger)
  else ret tt.

Definition get_required_extensions : list string :=
  if kEnableValidationLayers then [VK_EXT_DEBUG_UTILS_EXTENSION_NAME] else [].

Definition find_queue_families (device : Handle) : VulkanQueueFamilyIndices :=
  find_queue_families_in (drv_queue_families drv device).

Definition is_device_suitable (device : Handle) : bool :=
  is_complete (find_queue_families device).

Definition create_shader_module {Self} (device : Handle) (code : SpirvCodeView)
  : M Self Handle :=
  let create_info := {| codeSize := code_size code; pCode := code_data code |} in
  '(res, shader_module) <- vk_create drv (vkCreateShaderModule device create_info) ;;
  BAIL_ON_VK_BAD_RESULT res "failed to create shader module" ;;
  ret shader_module.

End Helpers.

(** ** [VulkanDevice] *)
Module VulkanDevice.

(** Modelled from the spec: the class declaration in [vulkan_api.h] is not
    among the sources.  The object holds the "logical device handle, compute
    queue handle, command-buffer pool handle" it is built from ([rep_]) and
    the accessors [device()], [compute_queue()] and [command_pool()] that the
    source calls read them, so the object is the record itself. *)

Record Params := {
  device : Handle;
  compute_queue : Handle;
  command_pool : Handle
}.

Definition t := Params.

(* VulkanDevice::VulkanDevice(const Params &params) : rep_(params) {} *)
Definition ctor (params : Params) : t := params.

End VulkanDevice.

(** ** [ManagedVulkanDevice] *)
Module ManagedVulkanDevice.

(* Params and the data members are declared in vulkan_api.h; these are the
   ones the member functions in the source read and write *)
Record Params := {
  api_version : Z
}.

Record t := {
  instance_ : Handle;
  debug_messenger_ : Handle;
  physical_device_ : Handle;
  queue_family_indices_ : VulkanQueueFamilyIndices;
  device_ : Handle;
  compute_queue_ : Handle;
  command_pool_ : Handle;
  owned_device_ : option VulkanDevice.t
}.

(* the members before the constructor's body runs *)
Definition uninitialized : t :=
  {| instance_ := VK_NULL_HANDLE; debug_messenger_ := VK_NULL_HANDLE;
     physical_device_ := VK_NULL_HANDLE;
     queue_family_indices_ := {| compute_family := None |};
     device_ := VK_NULL_HANDLE; compute_queue_ := VK_NULL_HANDLE;
     command_pool_ := VK_NULL_HANDLE; owned_device_ := None |}.

Definition set_instance_ (v : Handle) (s : t) : t :=
  {| instance_ := v; debug_messenger_ := debug_messenger_ s;
     physical_device_ := physical_device_ s;
     queue_family_indices_ := queue_family_indices_ s; device_ := device_ s;
     compute_queue_ := compute_queue_ s; command_pool_ := command_pool_ s;
     owned_device_ := owned_device_ s |}.
Definition set_debug_messenger_ (v : Handle) (s : t) : t :=
  {| instance_ := instance_ s; debug_messenger_ := v;
     physical_device_ := physical_device_ s;
     queue_family_indices_ := queue_family_indices_ s; device_ := device_ s;
     compute_queue_ := compute_queue_ s; command_pool_ := command_pool_ s;
     owned_device_ := owned_device_ s |}.
Definition set_physical_device_ (v : Handle) (s : t) : t :=
  {| instance_ := instance_ s; debug_messenger_ := debug_messenger_ s;
     physical_device_ := v;
     queue_family_indices_ := queue_family_indices_ s; device_ := device_ s;
     compute_queue_ := compute_queue_ s; command_pool_ := command_pool_ s;
     owned_device_ := owned_device_ s |}.
Definition set_queue_family_indices_ (v : VulkanQueueFamilyIndices) (s : t) : t :=
  {| instance_ := instance_ s; debug_messenger_ := debug_messenger_ s;
     physical_device_ := physical_device_ s;
     queue_family_indices_ := v; device_ := device_ s;
     compute_queue_ := compute_queue_ s; command_pool_ := command_pool_ s;
     owned_device_ := owned_device_ s |}.
Definition set_device_ (v : Handle) (s : t) : t :=
  {| instance_ := instance_ s; debug_messenger_ := debug_messenger_ s;
     physical_device_ := physical_device_ s;
     queue_family_indices_ := queue_family_indices_ s; device_ := v;
     compute_queue_ := compute_queue_ s; command_pool_ := command_pool_ s;
     owned_device_ := owned_device_ s |}.
Definition set_compute_queue_ (v : Handle) (s : t) : t :=
  {| instance_ := instance_ s; debug_messenger_ := debug_messenger_ s;
     physical_device_ := physical_device_ s;
     queue_family_indices_ := queue_family_indices_ s; device_ := device_ s;
     compute_queue_ := v; command_pool_ := command_pool_ s;
     owned_device_ := owned_device_ s |}.
Definition set_command_pool_ (v : Handle) (s : t) : t :=
  {| instance_ := instance_ s; debug_messenger_ := debug_messenger_ s;
     physical_device_ := physical_device_ s;
     queue_family_indices_ := queue_family_indices_ s; device_ := device_ s;
     compute_queue_ := compute_queue_ s; command_pool_ := v;
     owned_device_ := owned_device_ s |}.
Definition set_owned_device_ (v : option VulkanDevice.t) (s : t) : t :=
  {| instance_ := instance_ s; debug_messenger_ := debug_messenger_ s;
     physical_device_ := physical_device_ s;
     queue_family_indices_ := queue_family_indices_ s; device_ := device_ s;
     compute_queue_ := compute_queue_ s; command_pool_ := command_pool_ s;
     owned_device_ := v |}.

Section Methods.

Variable drv : Driver.

Definition create_instance (params : Params) : M t unit :=
  let app_info :=
    {| pApplicationName := "Taichi Vulkan Backend";
       applicationVersion := VK_MAKE_VERSION 1 0 0;
       pEngineName := "No Engine";
       engineVersion := VK_MAKE_VERSION 1 0 0;
       apiVersion := api_version params |} in
  (if kEnableValidationLayers
   then TI_ASSERT_INFO (check_validation_layer_support drv)
          "validation layers requested but not available"
   else ret tt) ;;
  let extensions := get_required_extensions in
  let create_info :=
    if kEnableValidationLayers
    then {| pApplicationInfo := app_info;
            inst_pNext := Some populate_debug_messenger_create_info;
            inst_enabledLayerCount := size32 kValidationLayers;
            inst_ppEnabledLayerNames := kValidationLayers;
            inst_enabledExtensionCount := size32 extensions;
            inst_ppEnabledExtensionNames := extensions |}
    else {| pApplicationInfo := app_info;
            inst_pNext := None;
            inst_enabledLayerCount := 0;
            inst_ppEnabledLayerNames := [];
            inst_enabledExtensionCount := size32 extensions;
            inst_ppEnabledExtensionNames := extensions |} in
  '(res, instance) <- vk_create drv (vkCreateInstance create_info) ;;
  assign (set_instance_ instance) ;;
  BAIL_ON_VK_BAD_RESULT res "failed to create instance".

Definition setup_debug_messenger : M t unit :=
  if negb kEnableValidationLayers then ret tt
  else
    let create_info := populate_debug_messenger_create_info in
    self <- this ;;
    '(res, messenger) <- create_debug_utils_messenger_ext drv (instance_ self)
                           create_info (debug_messenger_ self) ;;
    assign (set_debug_messenger_ messenger) ;;
    BAIL_ON_VK_BAD_RESULT res "failed to set up debug messenger".

(* for (const auto &device : devices)
     if (is_device_suitable(device)) { physical_device_ = device; break; } *)
Fixpoint first_suitable (devices : list Handle) (physical_device : Handle) : Handle :=
  match devices with
  | [] => physical_device
  | device :: rest =>
      if is_device_suitable drv device then device
      else first_suitable rest physical_device
  end.

Definition pick_physical_device : M t unit :=
  self <- this ;;
  let devices := drv_physical_devices drv (instance_ self) in
  (* the uint32_t the driver wrote; [devices] has that many entries *)
  let device_count := Z.of_nat (List.length devices) in
  TI_ASSERT_INFO (device_count >? 0) "failed to find GPUs with Vulkan support" ;;
  assign (set_physical_device_ VK_NULL_HANDLE) ;;
  assign (fun s => set_physical_device_ (first_suitable devices (physical_device_ s)) s) ;;
  self <- this ;;
  TI_ASSERT_INFO (negb (physical_device_ self =? VK_NULL_HANDLE))
    "failed to find a suitable GPU" ;;
  assign (set_queue_family_indices_ (find_queue_families drv (physical_device_ self))).

(* one turn of the loop over [extension_properties]; the loop's variables are
   [enabled_extensions] and [has_spv_variable_pointer] *)
Definition detect_extension (ext : VkExtensionProperties) (vars : list string * bool)
  : M t (list string * bool) :=
  let '(enabled_extensions, has_spv_variable_pointer) := vars in
  TI_TRACE "Vulkan device extension {} ({})"
    [ArgStr (extensionName ext); ArgInt (specVersion ext)] ;;
  let name := extensionName ext in
  if String.eqb name "VK_KHR_portability_subset" then
    TI_WARN ("Potential non-conformant Vulkan implementation, enabling "
             ++ "VK_KHR_portability_subset")%string [] ;;
    ret (enabled_extensions ++ [extensionName ext], has_spv_variable_pointer)
  else if String.eqb name VK_KHR_SURFACE_EXTENSION_NAME
       || String.eqb name VK_KHR_SWAPCHAIN_EXTENSION_NAME
       || String.eqb name VK_EXT_SHADER_ATOMIC_FLOAT_EXTENSION_NAME
       || String.eqb name VK_KHR_SHADER_ATOMIC_INT64_EXTENSION_NAME
       || String.eqb name VK_KHR_SYNCHRONIZATION_2_EXTENSION_NAME
       || String.eqb name VK_NV_EXTERNAL_MEMORY_CAPABILITIES_EXTENSION_NAME then
    ret (enabled_extensions ++ [extensionName ext], has_spv_variable_pointer)
  else if String.eqb name VK_KHR_VARIABLE_POINTERS_EXTENSION_NAME then
    ret (enabled_extensions ++ [extensionName ext], true)
  else ret (enabled_extensions, has_spv_variable_pointer).

Definition create_logical_device : M t unit :=
  self <- this ;;
  family <- value (compute_family (queue_family_indices_ self)) ;;
  let queue_create_info :=
    {| queueFamilyIndex := family; dq_queueCount := 1; pQueuePriorities := [1] |} in
  let extension_properties := drv_device_extensions drv (physical_device_ self) in
  '(enabled_extensions, has_spv_variable_pointer) <-
     for_each extension_properties detect_extension ([], false) ;;
  TI_WARN_IF (negb has_spv_variable_pointer)
    ("Taichi may generate kernels that requires VK_KHR_VARIABLE_POINTERS, but "
     ++ "this extension is not supported on the device")%string ;;
  let create_info :=
    {| queueCreateInfoCount := 1;
       pQueueCreateInfos := [queue_create_info];
       enabledExtensionCount := size32 enabled_extensions;
       ppEnabledExtensionNames := enabled_extensions;
       enabledLayerCount := if kEnableValidationLayers then size32 kValidationLayers else 0;
       ppEnabledLayerNames := if kEnableValidationLayers then kValidationLayers else [] |} in
  '(res, device) <- vk_create drv (vkCreateDevice (physical_device_ self) create_info) ;;
  assign (set_device_ device) ;;
  BAIL_ON_VK_BAD_RESULT res "failed to create logical device" ;;
  family <- value (compute_family (queue_family_indices_ self)) ;;
  queue <- vk_get drv (vkGetDeviceQueue device family 0) ;;
  assign (set_compute_queue_ queue).

Definition create_command_pool : M t unit :=
  self <- this ;;
  family <- value (compute_family (queue_family_indices_ self)) ;;
  let pool_info := {| pool_flags := 0; pool_queueFamilyIndex := family |} in
  '(res, pool) <- vk_create drv (vkCreateCommandPool (device_ self) pool_info) ;;
  assign (set_command_pool_ pool) ;;
  BAIL_ON_VK_BAD_RESULT res "failed to create command pool".

(* ManagedVulkanDevice::ManagedVulkanDevice(const Params &params) *)
Definition ctor (params : Params) : M t unit :=
  create_instance params ;;
  setup_debug_messenger ;;
  pick_physical_device ;;
  create_logical_device ;;
  create_command_pool ;;
  self <- this ;;
  let dparams :=
    {| VulkanDevice.device := device_ self;
       VulkanDevice.compute_queue := compute_queue_ self;
       VulkanDevice.command_pool := command_pool_ self |} in
  assign (set_owned_device_ (Some (VulkanDevice.ctor dparams))).

(* ManagedVulkanDevice::~ManagedVulkanDevice() *)
Definition dtor : M t unit :=
  self <- this ;;
  (if kEnableValidationLayers
   then destroy_debug_utils_messenger_ext drv (instance_ self) (debug_messenger_ self)
   else ret tt) ;;
  emit (vkDestroyCommandPool (device_ self) (command_pool_ self)) ;;
  emit (vkDestroyDevice (device_ self)) ;;
  emit (vkDestroyInstance (instance_ self)).

End Methods.

End ManagedVulkanDevice.

(* [for (int i = 0; i < n; ++i) body] without [return] or [break]; [n] is a
   [size_t], the comparison is unsigned and [i] never negative.  (Past
   [INT_MAX] turns [++i] is undefined in C++; the model goes on counting.) *)
Definition for_index {S : Type} (n : Z) (body : Z -> S -> S) (s : S) : S :=
  match for_int n (fun i s => @inl S S (body i s)) s with
  | inl s' => s'
  | inr r => r
  end.

(** ** [VulkanPipeline] *)
Module VulkanPipeline.

(** Modelled from the spec: [BufferBinding] of [vulkan_api.h], the "Binding
    Descriptor: { slot number, opaque buffer handle }"; the source reads
    [binding] and [buffer]. *)
Record BufferBinding := {
  buffer : Handle;
  binding : Z
}.

Record Params := {
  device : VulkanDevice.t;
  buffer_bindings : list BufferBinding;
  code : SpirvCodeView
}.

(* the data members the source reads and writes (declared in vulkan_api.h);
   the accessors pipeline(), pipeline_layout() and descriptor_set() that
   [append] calls read the members of the same name *)
Record t := {
  device_ : Handle;
  descriptor_set_layout_ : Handle;
  pipeline_layout_ : Handle;
  pipeline_ : Handle;
  descriptor_pool_ : Handle;
  descriptor_set_ : Handle
}.

Definition uninitialized : t :=
  {| device_ := VK_NULL_HANDLE; descriptor_set_layout_ := VK_NULL_HANDLE;
     pipeline_layout_ := VK_NULL_HANDLE; pipeline_ := VK_NULL_HANDLE;
     descriptor_pool_ := VK_NULL_HANDLE; descriptor_set_ := VK_NULL_HANDLE |}.

Definition set_device_ (v : Handle) (s : t) : t :=
  {| device_ := v; descriptor_set_layout_ := descriptor_set_layout_ s;
     pipeline_layout_ := pipeline_layout_ s; pipeline_ := pipeline_ s;
     descriptor_pool_ := descriptor_pool_ s; descriptor_set_ := descriptor_set_ s |}.
Definition set_descriptor_set_layout_ (v : Handle) (s : t) : t :=
  {| device_ := device_ s; descriptor_set_layout_ := v;
     pipeline_layout_ := pipeline_layout_ s; pipeline_ := pipeline_ s;
     descriptor_pool_ := descriptor_pool_ s; descriptor_set_ := descriptor_set_ s |}.
Definition set_pipeline_layout_ (v : Handle) (s : t) : t :=
  {| device_ := device_ s; descriptor_set_layout_ := descriptor_set_layout_ s;
     pipeline_layout_ := v; pipeline_ := pipeline_ s;
     descriptor_pool_ := descriptor_pool_ s; descriptor_set_ := descriptor_set_ s |}.
Definition set_pipeline_ (v : Handle) (s : t) : t :=
  {| device_ := device_ s; descriptor_set_layout_ := descriptor_set_layout_ s;
     pipeline_layout_ := pipeline_layout_ s; pipeline_ := v;
     descriptor_pool_ := descriptor_pool_ s; descriptor_set_ := descriptor_set_ s |}.
Definition set_descriptor_pool_ (v : Handle) (s : t) : t :=
  {| device_ := device_ s; descriptor_set_layout_ := descriptor_set_layout_ s;
     pipeline_layout_ := pipeline_layout_ s; pipeline_ := pipeline_ s;
     descriptor_pool_ := v; descriptor_set_ := descriptor_set_ s |}.
Definition set_descriptor_set_ (v : Handle) (s : t) : t :=
  {| device_ := device_ s; descriptor_set_layout_ := descriptor_set_layout_ s;
     pipeline_layout_ := pipeline_layout_ s; pipeline_ := pipeline_ s;
     descriptor_pool_ := descriptor_pool_ s; descriptor_set_ := v |}.

Definition no_binding : BufferBinding := {| buffer := VK_NULL_HANDLE; binding := 0 |}.
Definition no_buffer_info : VkDescriptorBufferInfo :=
  {| buffer_ := VK_NULL_HANDLE; offset := 0; range := 0 |}.

Section Methods.

Variable drv : Driver.

Definition create_descriptor_set_layout (params : Params) : M t unit :=
  let buffer_binds := buffer_bindings params in
  let layout_bindings :=
    fold_left
      (fun layout_bindings bb =>
         let layout_binding :=
           {| binding_ := binding bb;
              lb_descriptorType := VK_DESCRIPTOR_TYPE_STORAGE_BUFFER;
              lb_descriptorCount := 1;
              stageFlags := VK_SHADER_STAGE_COMPUTE_BIT |} in
         layout_bindings ++ [layout_binding])
      buffer_binds [] in
  let layout_create_info :=
    {| bindingCount := size32 layout_bindings; pBindings := layout_bindings |} in
  self <- this ;;
  '(res, layout) <- vk_create drv
                      (vkCreateDescriptorSetLayout (device_ self) layout_create_info) ;;
  assign (set_descriptor_set_layout_ layout) ;;
  BAIL_ON_VK_BAD_RESULT res "failed to create descriptor set layout".

Definition create_compute_pipeline (params : Params) : M t unit :=
  self <- this ;;
  shader_module <- create_shader_module drv (device_ self) (code params) ;;
  let shader_stage_info :=
    {| stage_ := VK_SHADER_STAGE_COMPUTE_BIT; module_ := shader_module; pName := "main" |} in
  let pipeline_layout_info :=
    {| setLayoutCount := 1;
       pl_pSetLayouts := [descriptor_set_layout_ self];
       pushConstantRangeCount := 0 |} in
  '(res, pipeline_layout) <- vk_create drv
                               (vkCreatePipelineLayout (device_ self) pipeline_layout_info) ;;
  assign (set_pipeline_layout_ pipeline_layout) ;;
  BAIL_ON_VK_BAD_RESULT res "failed to create pipeline layout" ;;
  let pipeline_info := {| stage := shader_stage_info; layout := pipeline_layout |} in
  '(res, pipeline) <- vk_create drv
                        (vkCreateComputePipelines (device_ self) VK_NULL_HANDLE 1
                           [pipeline_info]) ;;
  assign (set_pipeline_ pipeline) ;;
  BAIL_ON_VK_BAD_RESULT res "failed to create pipeline" ;;
  emit (vkDestroyShaderModule (device_ self) shader_module).

Definition create_descriptor_pool (params : Params) : M t unit :=
  let pool_size :=
    {| ps_type := VK_DESCRIPTOR_TYPE_STORAGE_BUFFER;
       ps_descriptorCount := size32 (buffer_bindings params) |} in
  let pool_info := {| maxSets := 1; poolSizeCount := 1; pPoolSizes := [pool_size] |} in
  self <- this ;;
  '(res, pool) <- vk_create drv (vkCreateDescriptorPool (device_ self) pool_info) ;;
  assign (set_descriptor_pool_ pool) ;;
  BAIL_ON_VK_BAD_RESULT res "failed to create descriptor pool".

Definition create_descriptor_sets (params : Params) : M t unit :=
  self <- this ;;
  let alloc_info :=
    {| descriptorPool := descriptor_pool_ self;
       descriptorSetCount := 1;
       pSetLayouts := [descriptor_set_layout_ self] |} in
  '(res, descriptor_set) <- vk_create drv
                              (vkAllocateDescriptorSets (device_ self) alloc_info) ;;
  assign (set_descriptor_set_ descriptor_set) ;;
  BAIL_ON_VK_BAD_RESULT res "failed to allocate descriptor set" ;;
  let buffer_binds := buffer_bindings params in
  let descriptor_buffer_infos :=
    fold_left
      (fun descriptor_buffer_infos bb =>
         let buffer_info :=
           {| buffer_ := buffer bb; offset := 0; range := VK_WHOLE_SIZE |} in
         descriptor_buffer_infos ++ [buffer_info])
      buffer_binds [] in
  let descriptor_writes :=
    for_index (Z.of_nat (List.length buffer_binds))
      (fun i descriptor_writes =>
         let bb := nth (Z.to_nat i) buffer_binds no_binding in
         let write :=
           {| dstSet := descriptor_set;
              dstBinding := binding bb;
              dstArrayElement := 0;
              descriptorCount := 1;
              descriptorType := VK_DESCRIPTOR_TYPE_STORAGE_BUFFER;
              pBufferInfo := nth (Z.to_nat i) descriptor_buffer_infos no_buffer_info |} in
         descriptor_writes ++ [write])
      [] in
  emit (vkUpdateDescriptorSets (device_ self) (size32 descriptor_writes)
          descriptor_writes 0).

(* VulkanPipeline::VulkanPipeline(const Params &params)
     : device_(params.device->device()) *)
Definition ctor (params : Params) : M t unit :=
  assign (set_device_ (VulkanDevice.device (device params))) ;;
  create_descriptor_set_layout params ;;
  create_compute_pipeline params ;;
  create_descriptor_pool params ;;
  create_descriptor_sets params.

Definition dtor : M t unit :=
  self <- this ;;
  emit (vkDestroyDescriptorPool (device_ self) (descriptor_pool_ self)) ;;
  emit (vkDestroyPipeline (device_ self) (pipeline_ self)) ;;
  emit (vkDestroyPipelineLayout (device_ self) (pipeline_layout_ self)) ;;
  emit (vkDestroyDescriptorSetLayout (device_ self) (descriptor_set_layout_ self)).

End Methods.

End VulkanPipeline.

(** ** [VulkanCommandBuilder] and its two subclasses *)
Module VulkanCommandBuilder.

(* the one data member the source uses (declared in vulkan_api.h) *)
Record t := {
  command_buffer_ : Handle
}.

(* the member before the constructor's body runs; the constructor overwrites
   it before it is read *)
Definition uninitialized : t := {| command_buffer_ := VK_NULL_HANDLE |}.

Section Methods.

Variable drv : Driver.

Definition ctor (device : VulkanDevice.t) : M t unit :=
  let alloc_info :=
    {| commandPool := VulkanDevice.command_pool device;
       level := VK_COMMAND_BUFFER_LEVEL_PRIMARY;
       commandBufferCount := 1 |} in
  '(res, command_buffer) <- vk_create drv
                              (vkAllocateCommandBuffers (VulkanDevice.device device)
                                 alloc_info) ;;
  assign (fun _ => {| command_buffer_ := command_buffer |}) ;;
  BAIL_ON_VK_BAD_RESULT res "failed to allocate command buffer" ;;
  let begin_info := {| begin_flags := VK_COMMAND_BUFFER_USAGE_SIMULTANEOUS_USE_BIT |} in
  res <- vk_call drv (vkBeginCommandBuffer command_buffer begin_info) ;;
  BAIL_ON_VK_BAD_RESULT res "failed to begin recording command buffer".

Definition build : M t Handle :=
  self <- this ;;
  result <- vk_call drv (vkEndCommandBuffer (command_buffer_ self)) ;;
  BAIL_ON_VK_BAD_RESULT result "failed to record command buffer" ;;
  let res := command_buffer_ self in
  assign (fun _ => {| command_buffer_ := VK_NULL_HANDLE |}) ;;
  ret res.

Definition dtor : M t unit :=
  self <- this ;;
  if negb (command_buffer_ self =? VK_NULL_HANDLE)
  then build ;; ret tt
  else ret tt.

End Methods.

End VulkanCommandBuilder.

Module VulkanComputeCommandBuilder.

Definition append (pipeline : VulkanPipeline.t) (group_count_x : Z)
  : M VulkanCommandBuilder.t unit :=
  self <- this ;;
  let command_buffer_ := VulkanCommandBuilder.command_buffer_ self in
  emit (vkCmdBindPipeline command_buffer_ VK_PIPELINE_BIND_POINT_COMPUTE
          (VulkanPipeline.pipeline_ pipeline)) ;;
  emit (vkCmdBindDescriptorSets command_buffer_ VK_PIPELINE_BIND_POINT_COMPUTE
          (VulkanPipeline.pipeline_layout_ pipeline) 0 1
          [VulkanPipeline.descriptor_set_ pipeline] 0) ;;
  emit (vkCmdDispatch command_buffer_ (to_uint32 group_count_x) 1 1) ;;
  let barrier_info :=
    {| srcAccessMask := Z.lor VK_ACCESS_SHADER_WRITE_BIT VK_ACCESS_SHADER_READ_BIT;
       dstAccessMask :=
         Z.lor (Z.lor (Z.lor VK_ACCESS_TRANSFER_READ_BIT VK_ACCESS_TRANSFER_WRITE_BIT)
                      VK_ACCESS_SHADER_READ_BIT)
               VK_ACCESS_SHADER_WRITE_BIT |} in
  emit (vkCmdPipelineBarrier command_buffer_
          VK_PIPELINE_STAGE_COMPUTE_SHADER_BIT
          (Z.lor VK_PIPELINE_STAGE_TRANSFER_BIT VK_PIPELINE_STAGE_COMPUTE_SHADER_BIT)
          0 1 [barrier_info] 0 0).

End VulkanComputeCommandBuilder.

(** Modelled from the spec: the enumeration [VulkanCopyBufferDirection] of
    [vulkan_api.h], with the two directions the specification names,
    host-to-device and device-to-host; the source compares with [H2D]. *)
Inductive VulkanCopyBufferDirection := H2D | D2H.

Module CopyBufferCommandBuilder.

Definition copy (src_buffer dst_buffer : Handle) (size : Z)
    (direction : VulkanCopyBufferDirection) : M VulkanCommandBuilder.t unit :=
  self <- this ;;
  let command_buffer_ := VulkanCommandBuilder.command_buffer_ self in
  let copy_region := {| srcOffset := 0; dstOffset := 0; size := size |} in
  emit (vkCmdCopyBuffer command_buffer_ src_buffer dst_buffer 1 [copy_region]) ;;
  match direction with
  | H2D =>
      let barrier_info :=
        {| srcAccessMask := VK_ACCESS_TRANSFER_WRITE_BIT;
           dstAccessMask := Z.lor VK_ACCESS_SHADER_READ_BIT VK_ACCESS_TRANSFER_READ_BIT |} in
      emit (vkCmdPipelineBarrier command_buffer_
              VK_PIPELINE_STAGE_TRANSFER_BIT
              (Z.lor VK_PIPELINE_STAGE_COMPUTE_SHADER_BIT VK_PIPELINE_STAGE_TRANSFER_BIT)
              0 1 [barrier_info] 0 0)
  | D2H => ret tt
  end.

End CopyBufferCommandBuilder.

Section FreeFunctions.

Variable drv : Driver.

Definition record_copy_buffer_command {Self} (device : VulkanDevice.t)
    (src_buffer dst_buffer : Handle) (size : Z)
    (direction : VulkanCopyBufferDirection) : M Self Handle :=
  cb <- construct VulkanCommandBuilder.uninitialized (VulkanCommandBuilder.ctor drv device) ;;
  scoped cb
    (CopyBufferCommandBuilder.copy src_buffer dst_buffer size direction ;;
     VulkanCommandBuilder.build drv)
    (VulkanCommandBuilder.dtor drv).

End FreeFunctions.

(** ** [VulkanStream] *)
Module VulkanStream.

Record t := {
  device_ : VulkanDevice.t
}.

(* VulkanStream::VulkanStream(const VulkanDevice *device) : device_(device) {} *)
Definition ctor (device : VulkanDevice.t) : t := {| device_ := device |}.

Section Methods.

Variable drv : Driver.

Definition launch (command : Handle) : M t unit :=
  self <- this ;;
  let submit_info :=
    {| waitSemaphoreCount := 0;
       pWaitSemaphores := [];
       submit_commandBufferCount := 1;
       pCommandBuffers := [command];
       signalSemaphoreCount := 0;
       pSignalSemaphores := [] |} in
  res <- vk_call drv (vkQueueSubmit (VulkanDevice.compute_queue (device_ self)) 1
                        [submit_info] VK_NULL_HANDLE) ;;
  BAIL_ON_VK_BAD_RESULT res "failed to submit command buffer".

Definition synchronize : M t unit :=
  self <- this ;;
  emit (vkQueueWaitIdle (VulkanDevice.compute_queue (device_ self))).

End Methods.

End VulkanStream.

(** * Vocabulary of the statements *)

(** ** Queue families *)

(* VK_QUEUE_COMPUTE_BIT is bit 1 and VK_QUEUE_GRAPHICS_BIT bit 0 of queueFlags *)
Definition supports_compute (q : VkQueueFamilyProperties) : bool :=
  Z.testbit (queueFlags q) 1.
Definition supports_graphics (q : VkQueueFamilyProperties) : bool :=
  Z.testbit (queueFlags q) 0.
Definition compute_only (q : VkQueueFamilyProperties) : bool :=
  supports_compute q && negb (supports_graphics q).

(* position of the first element that satisfies [p] *)
Fixpoint first_index {A} (p : A -> bool) (l : list A) : option nat :=
  match l with
  | [] => None
  | x :: l' => if p x then Some O else option_map S (first_index p l')
  end.

(* the common shape of the two loops of [find_queue_families] *)
Definition select_step (p : VkQueueFamilyProperties -> bool)
    (queue_families : list VkQueueFamilyProperties) (i : Z)
    (indices : VulkanQueueFamilyIndices)
  : VulkanQueueFamilyIndices + VulkanQueueFamilyIndices :=
  let indices :=
    if p (queue_family_at queue_families i) then {| compute_family := Some i |}
    else indices in
  if is_complete indices then inr indices else inl indices.

(** ** Traces *)

Definition is_vkCreateDevice (e : Event) : bool :=
  match e with vkCreateDevice _ _ => true | _ => false end.

Definition is_log (e : Event) : bool :=
  match e with TI_LOG _ _ _ => true | _ => false end.

(* a command recorded into a command buffer *)
Definition is_cmd (e : Event) : bool :=
  match e with
  | vkCmdBindPipeline _ _ _ | vkCmdBindDescriptorSets _ _ _ _ _ _ _
  | vkCmdDispatch _ _ _ _ | vkCmdPipelineBarrier _ _ _ _ _ _ _ _
  | vkCmdCopyBuffer _ _ _ _ _ => true
  | _ => false
  end.

Definition is_begin (cb : Handle) (e : Event) : bool :=
  match e with vkBeginCommandBuffer c _ => c =? cb | _ => false end.

Definition is_end (cb : Handle) (e : Event) : bool :=
  match e with vkEndCommandBuffer c => c =? cb | _ => false end.

(* how often recording into [cb] is begun, and ended, in a trace *)
Definition begins (cb : Handle) (t : Trace) : nat := List.length (filter (is_begin cb) t).
Definition ends (cb : Handle) (t : Trace) : nat := List.length (filter (is_end cb) t).

(* the events a computation adds to the trace *)
Definition issued {Self A} (m : M Self A) (self : Self) (t : Trace) : Trace :=
  skipn (List.length t) (snd (m self t)).

(** ** The driver's side of the contract

    A call that reports success has written a handle that is not null. *)
Definition valid_handles (drv : Driver) : Prop :=
  forall t e, drv_result drv t e = VK_SUCCESS -> drv_handle drv t e <> VK_NULL_HANDLE.

(** ** Command builders in use *)

(* what the member [command_buffer_] says about a builder *)
Inductive BuilderState := Recording | Spent.

Definition state_of (b : VulkanCommandBuilder.t) : BuilderState :=
  if VulkanCommandBuilder.command_buffer_ b =? VK_NULL_HANDLE then Spent else Recording.

(* a call of a member function of a builder *)
Inductive BuilderOp :=
| op_append (pipeline : VulkanPipeline.t) (group_count_x : Z)
| op_copy (src_buffer dst_buffer : Handle) (size : Z) (direction : VulkanCopyBufferDirection)
| op_build.

Definition is_build (op : BuilderOp) : bool :=
  match op with op_build => true | _ => false end.

Section BuilderLifetime.

Variable drv : Driver.

Definition run_op (op : BuilderOp) : M VulkanCommandBuilder.t unit :=
  match op with
  | op_append pipeline group_count_x =>
      VulkanComputeCommandBuilder.append pipeline group_count_x
  | op_copy src_buffer dst_buffer size direction =>
      CopyBufferCommandBuilder.copy src_buffer dst_buffer size direction
  | op_build => VulkanCommandBuilder.build drv ;; ret tt
  end.

Fixpoint run_ops (ops : list BuilderOp) : M VulkanCommandBuilder.t unit :=
  match ops with
  | [] => ret tt
  | op :: ops' => run_op op ;; run_ops ops'
  end.

(** A block that declares a builder, calls its member functions and leaves,
    as [record_copy_buffer_command] does:
    [{ VulkanCommandBuilder cb{device}; ops... }]. *)
Definition builder_lifetime {Outer} (device : VulkanDevice.t) (ops : list BuilderOp)
  : M Outer unit :=
  cb <- construct VulkanCommandBuilder.uninitialized (VulkanCommandBuilder.ctor drv device) ;;
  scoped cb (run_ops ops) (VulkanCommandBuilder.dtor drv).

End BuilderLifetime.

(** ** Device extensions *)

(** The allow-list as the specification states it: "portability-subset
    compatibility, surface/swapchain interop, atomic-float/int64 shader
    capability, synchronization extensions, variable-pointer support". *)
Definition stated_allow_list : list string :=
  [ "VK_KHR_portability_subset";
    VK_KHR_SURFACE_EXTENSION_NAME; VK_KHR_SWAPCHAIN_EXTENSION_NAME;
    VK_EXT_SHADER_ATOMIC_FLOAT_EXTENSION_NAME; VK_KHR_SHADER_ATOMIC_INT64_EXTENSION_NAME;
    VK_KHR_SYNCHRONIZATION_2_EXTENSION_NAME;
    VK_KHR_VARIABLE_POINTERS_EXTENSION_NAME ].

(* the names [create_logical_device] compares with *)
Definition code_allow_list : list string :=
  stated_allow_list ++ [VK_NV_EXTERNAL_MEMORY_CAPABILITIES_EXTENSION_NAME].

Definition listed (allow : list string) (name : string) : bool :=
  existsb (String.eqb name) allow.

(** Every extension that [create_logical_device] hands to [vkCreateDevice]
    is on the list [allow]. *)
Definition enables_only (allow : list string) (drv : Driver)
    (self : ManagedVulkanDevice.t) (t : Trace) : Prop :=
  forall physical_device create_info,
    In (vkCreateDevice physical_device create_info)
       (issued (ManagedVulkanDevice.create_logical_device drv) self t) ->
    Forall (fun name => In name allow) (ppEnabledExtensionNames create_info).

(** ** The calls the source issues, by name *)

(* vkAllocateCommandBuffers as [VulkanCommandBuilder]'s constructor calls it *)
Definition alloc_call (device : VulkanDevice.t) : Event :=
  vkAllocateCommandBuffers (VulkanDevice.device device)
    {| commandPool := VulkanDevice.command_pool device;
       level := VK_COMMAND_BUFFER_LEVEL_PRIMARY;
       commandBufferCount := 1 |}.

(* vkBeginCommandBuffer as the same constructor calls it *)
Definition begin_call (cb : Handle) : Event :=
  vkBeginCommandBuffer cb {| begin_flags := VK_COMMAND_BUFFER_USAGE_SIMULTANEOUS_USE_BIT |}.

(* what [CopyBufferCommandBuilder::copy] records into [cb] *)
Definition copy_commands (cb src_buffer dst_buffer : Handle) (size : Z)
    (direction : VulkanCopyBufferDirection) : Trace :=
  vkCmdCopyBuffer cb src_buffer dst_buffer 1
    [{| srcOffset := 0; dstOffset := 0; size := size |}]
  :: match direction with
     | H2D =>
         [vkCmdPipelineBarrier cb VK_PIPELINE_STAGE_TRANSFER_BIT
            (Z.lor VK_PIPELINE_STAGE_COMPUTE_SHADER_BIT VK_PIPELINE_STAGE_TRANSFER_BIT)
            0 1
            [{| srcAccessMask := VK_ACCESS_TRANSFER_WRITE_BIT;
                dstAccessMask :=
                  Z.lor VK_ACCESS_SHADER_READ_BIT VK_ACCESS_TRANSFER_READ_BIT |}]
            0 0]
     | D2H => []
     end.

(* the layout entry and the descriptor write of one binding descriptor *)
Definition layout_binding_of (bb : VulkanPipeline.BufferBinding)
  : VkDescriptorSetLayoutBinding :=
  {| binding_ := VulkanPipeline.binding bb;
     lb_descriptorType := VK_DESCRIPTOR_TYPE_STORAGE_BUFFER;
     lb_descriptorCount := 1;
     stageFlags := VK_SHADER_STAGE_COMPUTE_BIT |}.

Definition write_of (descriptor_set : Handle) (bb : VulkanPipeline.BufferBinding)
  : VkWriteDescriptorSet :=
  {| dstSet := descriptor_set;
     dstBinding := VulkanPipeline.binding bb;
     dstArrayElement := 0;
     descriptorCount := 1;
     descriptorType := VK_DESCRIPTOR_TYPE_STORAGE_BUFFER;
     pBufferInfo :=
       {| buffer_ := VulkanPipeline.buffer bb; offset := 0; range := VK_WHOLE_SIZE |} |}.

(* vkCreateInstance as [create_instance] calls it *)
Definition instance_call (params : ManagedVulkanDevice.Params) : Event :=
  vkCreateInstance
    {| pApplicationInfo :=
         {| pApplicationName := "Taichi Vulkan Backend";
            applicationVersion := VK_MAKE_VERSION 1 0 0;
            pEngineName := "No Engine";
            engineVersion := VK_MAKE_VERSION 1 0 0;
            apiVersion := ManagedVulkanDevice.api_version params |};
       inst_pNext := Some populate_debug_messenger_create_info;
       inst_enabledLayerCount := size32 kValidationLayers;
       inst_ppEnabledLayerNames := kValidationLayers;
       inst_enabledExtensionCount := size32 get_required_extensions;
       inst_ppEnabledExtensionNames := get_required_extensions |}.

(* vkCreateDebugUtilsMessengerEXT as [setup_debug_messenger] calls it *)
Definition messenger_call (instance : Handle) : Event :=
  vkCreateDebugUtilsMessengerEXT instance populate_debug_messenger_create_info.

Definition portability_warning : Event :=
  TI_LOG WARN
    "Potential non-conformant Vulkan implementation, enabling VK_KHR_portability_subset" [].

Definition variable_pointers_warning : Event :=
  TI_LOG WARN
    "Taichi may generate kernels that requires VK_KHR_VARIABLE_POINTERS, but this extension is not supported on the device" [].

(* the log lines of one turn of the loop over the extensions *)
Definition detect_logs (ext : VkExtensionProperties) : Trace :=
  TI_LOG TRACE "Vulkan device extension {} ({})"
    [ArgStr (extensionName ext); ArgInt (specVersion ext)]
  :: (if String.eqb (extensionName ext) "VK_KHR_portability_subset"
      then [portability_warning] else []).

Definition is_variable_pointers (name : string) : bool :=
  String.eqb name VK_KHR_VARIABLE_POINTERS_EXTENSION_NAME.

(* the structure [create_logical_device] passes to vkCreateDevice *)
Definition device_create_info (family : Z) (enabled_extensions : list string)
  : VkDeviceCreateInfo :=
  {| queueCreateInfoCount := 1;
     pQueueCreateInfos :=
       [{| queueFamilyIndex := family; dq_queueCount := 1; pQueuePriorities := [1] |}];
     enabledExtensionCount := size32 enabled_extensions;
     ppEnabledExtensionNames := enabled_extensions;
     enabledLayerCount := size32 kValidationLayers;
     ppEnabledLayerNames := kValidationLayers |}.

(* the messages of the failures that can precede the creation of the logical device *)
Definition initialization_errors : list string :=
  [ "validation layers requested but not available";
    "failed to create instance";
    "failed to set up debug messenger";
    "failed to find GPUs with Vulkan support";
    "failed to find a suitable GPU" ].

(** ** A driver to run the model on *)

Definition demo_queue_family (flags : Z) : VkQueueFamilyProperties :=
  {| queueFlags := flags; queueCount := 1 |}.

Definition demo_extension (name : string) : VkExtensionProperties :=
  {| extensionName := name; specVersion := 1 |}.

(** Two devices: 101 offers graphics only; 102 a graphics+compute family and
    a compute+transfer family.  Every call succeeds and writes a fresh handle. *)
Definition demo_driver : Driver :=
  {| drv_instance_layers := ["VK_LAYER_KHRONOS_validation"];
     drv_has_proc := fun _ _ => true;
     drv_physical_devices := fun _ => [101; 102];
     drv_queue_families :=
       fun d => if d =? 101 then [demo_queue_family 1]
                else [demo_queue_family 3; demo_queue_family 6];
     drv_device_extensions :=
       fun _ => [demo_extension "VK_KHR_swapchain";
                 demo_extension "VK_KHR_maintenance1";
                 demo_extension "VK_NV_external_memory_capabilities"];
     drv_result := fun _ _ => VK_SUCCESS;
     drv_handle := fun t _ => 1000 + Z.of_nat (List.length t) |}.

Definition demo_device : VulkanDevice.t :=
  {| VulkanDevice.device := 1; VulkanDevice.compute_queue := 2;
     VulkanDevice.command_pool := 3 |}.

(* the device manager after [pick_physical_device] chose device 102 of [demo_driver] *)
Definition demo_picked : ManagedVulkanDevice.t :=
  ManagedVulkanDevice.set_queue_family_indices_ {| compute_family := Some 1 |}
    (ManagedVulkanDevice.set_physical_device_ 102 ManagedVulkanDevice.uninitialized).

(* [demo_driver] with one device only, whose single queue family is graphics-only *)
Definition demo_driver_without_compute : Driver :=
  {| drv_instance_layers := drv_instance_layers demo_driver;
     drv_has_proc := drv_has_proc demo_driver;
     drv_physical_devices := fun _ => [101];
     drv_queue_families := fun _ => [demo_queue_family 1];
     drv_device_extensions := drv_device_extensions demo_driver;
     drv_result := drv_result demo_driver;
     drv_handle := drv_handle demo_driver |}.

(* a kernel with two storage buffers, bound to slots 0 and 3 *)
Definition demo_pipeline_params : VulkanPipeline.Params :=
  {| VulkanPipeline.device := demo_device;
     VulkanPipeline.buffer_bindings :=
       [ {| VulkanPipeline.buffer := 7; VulkanPipeline.binding := 0 |};
         {| VulkanPipeline.buffer := 8; VulkanPipeline.binding := 3 |} ];
     VulkanPipeline.code := {| code_data := [119734787; 65536]; code_size := 8 |} |}.

(* [demo_driver], except that vkEndCommandBuffer reports an error *)
Definition demo_driver_failing_end : Driver :=
  {| drv_instance_layers := drv_instance_layers demo_driver;
     drv_has_proc := drv_has_proc demo_driver;
     drv_physical_devices := drv_physical_devices demo_driver;
     drv_queue_families := drv_queue_families demo_driver;
     drv_device_extensions := drv_device_extensions demo_driver;
     drv_result :=
       fun _ e => match e with vkEndCommandBuffer _ => -1 | _ => VK_SUCCESS end;
     drv_handle := drv_handle demo_driver |}.

(* [demo_driver], except that the first vkEndCommandBuffer of a run reports
   VK_ERROR_OUT_OF_HOST_MEMORY (-1) *)
Definition demo_driver_failing_first_end : Driver :=
  {| drv_instance_layers := drv_instance_layers demo_driver;
     drv_has_proc := drv_has_proc demo_driver;
     drv_physical_devices := drv_physical_devices demo_driver;
     drv_queue_families := drv_queue_families demo_driver;
     drv_device_extensions := drv_device_extensions demo_driver;
     drv_result :=
       fun t e =>
         match e with
         | vkEndCommandBuffer _ =>
             if existsb (fun e' => match e' with vkEndCommandBuffer _ => true | _ => false end) t
             then VK_SUCCESS else -1
         | _ => VK_SUCCESS
         end;
     drv_handle := drv_handle demo_driver |}.

(** ** What a computation issues, and what it releases *)

(** Whatever the object and the trace it starts from, [m] adds to the trace
    only events that satisfy [P]. *)
Definition emits_only {Self A} (P : Event -> bool) (m : M Self A) : Prop :=
  forall self t, exists evs, snd (m self t) = t ++ evs /\ forallb P evs = true.

(* a call that releases an object *)
Definition is_destroy (e : Event) : bool :=
  match e with
  | vkDestroyInstance _ | vkDestroyDebugUtilsMessengerEXT _ _ | vkDestroyDevice _
  | vkDestroyCommandPool _ _ | vkDestroyDescriptorSetLayout _ _
  | vkDestroyShaderModule _ _ | vkDestroyPipelineLayout _ _ | vkDestroyPipeline _ _
  | vkDestroyDescriptorPool _ _ => true
  | _ => false
  end.

(* a call that releases one of the four objects a [VulkanPipeline] keeps *)
Definition is_pipeline_release (e : Event) : bool :=
  match e with
  | vkDestroyDescriptorSetLayout _ _ | vkDestroyPipelineLayout _ _
  | vkDestroyPipeline _ _ | vkDestroyDescriptorPool _ _ => true
  | _ => false
  end.

(** Among the events [evs] issued from the trace [t] is the call [e], and [h]
    is the handle the driver wrote for it. *)
Definition created_by (drv : Driver) (t evs : Trace) (e : Event) (h : Handle) : Prop :=
  exists pre post, evs = pre ++ e :: post /\ h = drv_handle drv (t ++ pre) e.

(* the command buffer a recording call, or the end of the recording, names *)
Definition command_buffer_of (e : Event) : option Handle :=
  match e with
  | vkEndCommandBuffer cb | vkCmdBindPipeline cb _ _
  | vkCmdBindDescriptorSets cb _ _ _ _ _ _ | vkCmdDispatch cb _ _ _
  | vkCmdPipelineBarrier cb _ _ _ _ _ _ _ | vkCmdCopyBuffer cb _ _ _ _ => Some cb
  | _ => None
  end.

(** ** The debug messenger's subscription *)

(* the messenger created from [populate_debug_messenger_create_info] is
   called for the severities whose bit is in [messageSeverity] *)
Definition subscribed (s : VkDebugUtilsMessageSeverityFlagBitsEXT) : bool :=
  truthy (Z.land (severity_value s)
            (messageSeverity populate_debug_messenger_create_info)).

(** ** A stream in use *)

(* vkQueueSubmit as [launch] calls it *)
Definition submit_call (stream : VulkanStream.t) (command : Handle) : Event :=
  vkQueueSubmit (VulkanDevice.compute_queue (VulkanStream.device_ stream)) 1
    [{| waitSemaphoreCount := 0; pWaitSemaphores := [];
        submit_commandBufferCount := 1; pCommandBuffers := [command];
        signalSemaphoreCount := 0; pSignalSemaphores := [] |}]
    VK_NULL_HANDLE.

Section StreamSession.

Variable drv : Driver.

(** [for (cmd : commands) stream.launch(cmd); stream.synchronize();] *)
Definition launch_all_then_synchronize (commands : list Handle) : M VulkanStream.t unit :=
  for_each commands (fun command _ => VulkanStream.launch drv command) tt ;;
  VulkanStream.synchronize.

End StreamSession.

(** ** Drivers with something missing *)



Definition demo_params : ManagedVulkanDevice.Params :=
  {| ManagedVulkanDevice.api_version := VK_MAKE_VERSION 1 2 0 |}.

(* the device manager that [demo_driver] builds from the empty trace *)
Definition demo_managed : ManagedVulkanDevice.t :=
  {| ManagedVulkanDevice.instance_ := 1000;
     ManagedVulkanDevice.debug_messenger_ := 1001;
     ManagedVulkanDevice.physical_device_ := 102;
     ManagedVulkanDevice.queue_family_indices_ := {| compute_family := Some 1 |};
     ManagedVulkanDevice.device_ := 1006;
     ManagedVulkanDevice.compute_queue_ := 1007;
     ManagedVulkanDevice.command_pool_ := 1008;
     ManagedVulkanDevice.owned_device_ :=
       Some {| VulkanDevice.device := 1006; VulkanDevice.compute_queue := 1007;
               VulkanDevice.command_pool := 1008 |} |}.

(* the pipeline that [demo_driver] builds from [demo_pipeline_params] and the
   empty trace *)
Definition demo_pipeline : VulkanPipeline.t :=
  {| VulkanPipeline.device_ := 1;
     VulkanPipeline.descriptor_set_layout_ := 1000;
     VulkanPipeline.pipeline_layout_ := 1002;
     VulkanPipeline.pipeline_ := 1003;
     VulkanPipeline.descriptor_pool_ := 1005;
     VulkanPipeline.descriptor_set_ := 1006 |}.

(** ** Calls the driver accepts *)

(* the calls whose VkResult the source reads *)
Definition reports_status (e : Event) : bool :=
  match e with
  | vkCreateInstance _ | vkCreateDebugUtilsMessengerEXT _ _ | vkCreateDevice _ _
  | vkCreateCommandPool _ _ | vkCreateDescriptorSetLayout _ _ | vkCreateShaderModule _ _
  | vkCreatePipelineLayout _ _ | vkCreateComputePipelines _ _ _ _
  | vkCreateDescriptorPool _ _ | vkAllocateDescriptorSets _ _
  | vkAllocateCommandBuffers _ _ | vkBeginCommandBuffer _ _ | vkEndCommandBuffer _
  | vkQueueSubmit _ _ _ _ => true
  | _ => false
  end.

(* every call among [evs], issued from the trace [t] on, whose status the
   source reads was answered with VK_SUCCESS *)
Fixpoint all_accepted (drv : Driver) (t evs : Trace) : bool :=
  match evs with
  | [] => true
  | e :: evs' =>
      (negb (reports_status e) || (drv_result drv t e =? VK_SUCCESS))
      && all_accepted drv (t ++ [e]) evs'
  end.

(** * Proofs *)

(** ** Running the monad *)

Ltac unfold_m :=
  unfold bind, ret, throw, this, assign, emit, vk_call, vk_create, vk_get,
    TI_ASSERT_INFO, TI_WARN_IF, TI_WARN, TI_TRACE, BAIL_ON_VK_BAD_RESULT, value.

Ltac unfold_m_in H :=
  unfold bind, ret, throw, this, assign, emit, vk_call, vk_create, vk_get,
    TI_ASSERT_INFO, TI_WARN_IF, TI_WARN, TI_TRACE, BAIL_ON_VK_BAD_RESULT, value in H.

Ltac run_m_in H := repeat progress (unfold_m_in H; cbn beta iota zeta in H).

Ltac run_m := repeat progress (unfold_m; cbn beta iota zeta).

Lemma bind_Ok_inv {Self A B} (m : M Self A) (k : A -> M Self B) self t b self' t' :
  bind m k self t = (Ok b, self', t') ->
  exists a self1 t1, m self t = (Ok a, self1, t1) /\ k a self1 t1 = (Ok b, self', t').
Proof.
  unfold bind. destruct (m self t) as [[[a|w|] self1] t1]; try discriminate.
  intros H. now exists a, self1, t1.
Qed.

Lemma bail_Ok_inv {Self} (res : VkResult) msg (self self' : Self) t t' (u : unit) :
  BAIL_ON_VK_BAD_RESULT res msg self t = (Ok u, self', t') ->
  res = VK_SUCCESS /\ self' = self /\ t' = t.
Proof.
  unfold BAIL_ON_VK_BAD_RESULT. destruct (Z.eqb_spec res VK_SUCCESS); [|discriminate].
  unfold ret. intros [= <- <-]. auto.
Qed.

(* what a primitive step that ended normally says *)
Ltac prim E :=
  lazymatch type of E with
  | BAIL_ON_VK_BAD_RESULT _ _ _ _ = _ => apply bail_Ok_inv in E as (_ & -> & ->)
  | this _ _ = _ => unfold this in E; injection E as <- <- <-
  | ret _ _ _ = _ =>
      unfold ret in E; first [injection E as <- <- <- | injection E as <- <-]
  | assign _ _ _ = _ =>
      unfold assign in E; first [injection E as <- <- <- | injection E as <- <-]
  | emit _ _ _ = _ =>
      unfold emit in E; first [injection E as <- <- <- | injection E as <- <-]
  | vk_call _ _ _ _ = _ => unfold vk_call in E; injection E as <- <- <-
  | vk_create _ _ _ _ = _ => unfold vk_create in E; injection E as <- <- <-
  | vk_get _ _ _ _ = _ => unfold vk_get in E; injection E as <- <- <-
  | _ => idtac
  end.

(* take the next step of a computation that is known to end normally *)
Ltac step H :=
  let a := fresh "a" in let s := fresh "s" in let tr := fresh "tr" in
  let E := fresh "E" in
  apply bind_Ok_inv in H as (a & s & tr & E & H);
  try match type of a with unit => destruct a end;
  prim E; cbn beta iota zeta in H.

Lemma issued_app {Self A} (m : M Self A) self t r self' evs :
  m self t = (r, self', t ++ evs) -> issued m self t = evs.
Proof.
  intros E. unfold issued. rewrite E. cbn [snd].
  rewrite skipn_app, skipn_all, Nat.sub_diag. reflexivity.
Qed.

(** ** Integers, bits and loops *)

Lemma land_pow2 (f k : Z) :
  0 <= k -> Z.land f (2 ^ k) = if Z.testbit f k then 2 ^ k else 0.
Proof.
  intros Hk. apply Z.bits_inj'. intros n Hn.
  rewrite Z.land_spec, Z.pow2_bits_eqb by assumption.
  destruct (Z.eqb_spec k n) as [->|Hne].
  - rewrite andb_true_r. destruct (Z.testbit f n) eqn:E.
    + now rewrite Z.pow2_bits_eqb, Z.eqb_refl.
    + now rewrite Z.bits_0.
  - rewrite andb_false_r. destruct (Z.testbit f k).
    + rewrite Z.pow2_bits_eqb by assumption. symmetry. now apply Z.eqb_neq.
    + now rewrite Z.bits_0.
Qed.

Lemma masked_compute_bit (flags : Z) :
  truthy (Z.land (Z.land kFlagMask flags) VK_QUEUE_COMPUTE_BIT) = Z.testbit flags 1.
Proof.
  rewrite (Z.land_comm kFlagMask), <- Z.land_assoc.
  change (Z.land kFlagMask VK_QUEUE_COMPUTE_BIT) with (2 ^ 1).
  rewrite land_pow2 by lia. unfold truthy.
  now destruct (Z.testbit flags 1).
Qed.

Lemma masked_graphics_bit (flags : Z) :
  truthy (Z.land (Z.land kFlagMask flags) VK_QUEUE_GRAPHICS_BIT) = Z.testbit flags 0.
Proof.
  rewrite (Z.land_comm kFlagMask), <- Z.land_assoc.
  change (Z.land kFlagMask VK_QUEUE_GRAPHICS_BIT) with (2 ^ 0).
  rewrite land_pow2 by lia. unfold truthy.
  now destruct (Z.testbit flags 0).
Qed.

Lemma to_int_small n : 0 <= n < 2 ^ 31 -> to_int n = n.
Proof.
  intros H. unfold to_int. rewrite Z.mod_small by lia.
  destruct (Z.ltb_spec n (2 ^ 31)); lia.
Qed.

Lemma to_int_le n : 0 <= n -> to_int n <= n.
Proof.
  intros H. unfold to_int.
  pose proof (Z.mod_le n (2 ^ 32) H ltac:(lia)).
  destruct (_ <? _); lia.
Qed.

Lemma for_int_from_ext {S R} (body body' : Z -> S -> S + R) :
  (forall i s, body i s = body' i s) ->
  forall fuel i hi s, for_int_from fuel i hi body s = for_int_from fuel i hi body' s.
Proof.
  intros Hext fuel. induction fuel as [|fuel IH]; intros i hi s; simpl; [reflexivity|].
  destruct (i <? hi); [|reflexivity].
  rewrite Hext. destruct (body' i s); [apply IH | reflexivity].
Qed.

Lemma fold_left_push {A B} (f : A -> B) (l : list A) : forall acc,
  fold_left (fun acc x => acc ++ [f x]) l acc = acc ++ map f l.
Proof.
  induction l as [|x l IH]; intros acc; cbn [fold_left map].
  - now rewrite app_nil_r.
  - rewrite IH, <- app_assoc. reflexivity.
Qed.

Lemma for_int_from_push {A} (g : Z -> A) (hi : Z) : forall fuel i acc,
  i + Z.of_nat fuel = hi ->
  for_int_from fuel i hi (fun i acc => @inl (list A) (list A) (acc ++ [g i])) acc
  = inl (acc ++ map (fun k => g (i + Z.of_nat k)) (seq 0 fuel)).
Proof.
  induction fuel as [|fuel IH]; intros i acc Hhi; cbn [for_int_from seq map].
  - now rewrite app_nil_r.
  - destruct (Z.ltb_spec i hi); [|lia].
    rewrite IH by lia. rewrite <- app_assoc. cbn [app]. rewrite Z.add_0_r.
    do 3 f_equal. rewrite <- seq_shift, map_map.
    apply map_ext. intros k. f_equal. lia.
Qed.

Lemma for_index_push {A} (g : Z -> A) (n : nat) :
  for_index (Z.of_nat n) (fun i acc => acc ++ [g i]) []
  = map (fun k => g (Z.of_nat k)) (seq 0 n).
Proof.
  unfold for_index, for_int. rewrite Nat2Z.id.
  rewrite for_int_from_push by lia. reflexivity.
Qed.

Lemma map_nth_seq {A B C} (l : list A) (l' : list B) (d : A) (d' : B) (f : A -> B -> C) :
  List.length l' = List.length l ->
  map (fun k => f (nth k l d) (nth k l' d')) (seq 0 (List.length l))
  = map (fun xy => f (fst xy) (snd xy)) (combine l l').
Proof.
  revert l'. induction l as [|x l IH]; intros [|y l'] Hlen; try discriminate; [reflexivity|].
  cbn [List.length seq map combine nth fst snd]. f_equal.
  rewrite <- seq_shift, map_map. cbn [nth]. apply IH. now injection Hlen.
Qed.

Lemma size32_small {A} (l : list A) :
  Z.of_nat (List.length l) < 2 ^ 32 -> size32 l = Z.of_nat (List.length l).
Proof. intros H. unfold size32, to_uint32. apply Z.mod_small. lia. Qed.

(** ** Queue families *)

Lemma compute_only_step_select qs i s :
  compute_only_step qs i s = select_step compute_only qs i s.
Proof.
  unfold compute_only_step, select_step, compute_only, supports_compute, supports_graphics.
  now rewrite masked_compute_bit, masked_graphics_bit.
Qed.

Lemma any_compute_step_select qs i s :
  any_compute_step qs i s = select_step supports_compute qs i s.
Proof.
  unfold any_compute_step, select_step, supports_compute.
  now rewrite masked_compute_bit.
Qed.

Lemma first_index_Some {A} (p : A -> bool) l i :
  first_index p l = Some i ->
  exists x, nth_error l i = Some x /\ p x = true /\
    forall j y, (j < i)%nat -> nth_error l j = Some y -> p y = false.
Proof.
  revert i. induction l as [|a l IH]; intros i; simpl; [discriminate|].
  destruct (p a) eqn:Ea.
  - intros [= <-]. exists a. repeat split; auto. intros j y Hj. lia.
  - destruct (first_index p l) as [k|]; simpl; [|discriminate].
    intros [= <-]. destruct (IH k eq_refl) as (x & Hx & Hpx & Hmin).
    exists x. repeat split; auto.
    intros [|j] y Hj; simpl.
    + now intros [= <-].
    + apply Hmin. lia.
Qed.

Lemma first_index_None {A} (p : A -> bool) l :
  first_index p l = None <-> Forall (fun x => p x = false) l.
Proof.
  induction l as [|a l IH]; simpl.
  - split; auto.
  - destruct (p a) eqn:Ea.
    + split; [discriminate|]. intros H. inversion H; congruence.
    + destruct (first_index p l); simpl.
      * split; [discriminate|]. intros H. inversion H; subst.
        apply IH in H3. discriminate.
      * split; auto. intros _. constructor; auto. now apply IH.
Qed.

Lemma first_index_Exists {A} (p : A -> bool) l :
  Exists (fun x => p x = true) l -> exists i, first_index p l = Some i.
Proof.
  intros H. destruct (first_index p l) as [i|] eqn:E; [now exists i|].
  apply first_index_None in E. apply Exists_exists in H as (x & Hin & Hp).
  rewrite Forall_forall in E. rewrite (E x Hin) in Hp. discriminate.
Qed.

Lemma select_loop_from p suf : forall pre,
  for_int_from (List.length suf) (Z.of_nat (List.length pre))
    (Z.of_nat (List.length (pre ++ suf))) (select_step p (pre ++ suf))
    {| compute_family := None |}
  = match first_index p suf with
    | Some i => inr {| compute_family := Some (Z.of_nat (List.length pre + i)) |}
    | None => inl {| compute_family := None |}
    end.
Proof.
  induction suf as [|x suf IH]; intros pre; [reflexivity|].
  cbn [List.length for_int_from first_index].
  assert (Hlt : (Z.of_nat (List.length pre) <? Z.of_nat (List.length (pre ++ x :: suf))) = true).
  { apply Z.ltb_lt. rewrite length_app. cbn [List.length]. lia. }
  rewrite Hlt. unfold select_step at 1, queue_family_at.
  rewrite Nat2Z.id, app_nth2, Nat.sub_diag by lia. cbn [nth].
  destruct (p x); cbn [is_complete compute_family option_map].
  - now rewrite Nat.add_0_r.
  - specialize (IH (pre ++ [x])).
    rewrite <- app_assoc, length_app in IH. cbn [List.length app] in IH.
    replace (Z.of_nat (List.length pre) + 1) with (Z.of_nat (List.length pre + 1)) by lia.
    rewrite IH. destruct (first_index p suf); cbn [option_map]; [|reflexivity].
    do 3 f_equal. lia.
Qed.

Lemma select_loop p qs :
  Z.of_nat (List.length qs) < 2 ^ 31 ->
  for_int (to_int (Z.of_nat (List.length qs))) (select_step p qs)
    {| compute_family := None |}
  = match first_index p qs with
    | Some i => inr {| compute_family := Some (Z.of_nat i) |}
    | None => inl {| compute_family := None |}
    end.
Proof.
  intros H. rewrite to_int_small by lia. unfold for_int. rewrite Nat2Z.id.
  exact (select_loop_from p qs []).
Qed.

Lemma find_queue_families_in_first qs :
  Z.of_nat (List.length qs) < 2 ^ 31 ->
  compute_family (find_queue_families_in qs)
  = match first_index compute_only qs with
    | Some i => Some (Z.of_nat i)
    | None => option_map Z.of_nat (first_index supports_compute qs)
    end.
Proof.
  intros H. unfold find_queue_families_in, for_int.
  rewrite (for_int_from_ext _ _ (compute_only_step_select qs)).
  fold (for_int (to_int (Z.of_nat (List.length qs))) (select_step compute_only qs)
          {| compute_family := None |}).
  rewrite select_loop by assumption.
  destruct (first_index compute_only qs); [reflexivity|].
  rewrite (for_int_from_ext _ _ (any_compute_step_select qs)).
  fold (for_int (to_int (Z.of_nat (List.length qs))) (select_step supports_compute qs)
          {| compute_family := None |}).
  rewrite select_loop by assumption.
  now destruct (first_index supports_compute qs).
Qed.

Lemma select_loop_sound p l : forall fuel i hi,
  0 <= i ->
  match for_int_from fuel i hi (select_step p l) {| compute_family := None |} with
  | inr r => exists k, r = {| compute_family := Some k |} /\ i <= k < hi
                       /\ p (queue_family_at l k) = true
  | inl s => s = {| compute_family := None |}
  end.
Proof.
  induction fuel as [|fuel IH]; intros i hi Hi; cbn [for_int_from]; [reflexivity|].
  destruct (Z.ltb_spec i hi) as [Hlt|]; [|reflexivity].
  unfold select_step at 1.
  destruct (p (queue_family_at l i)) eqn:Ep; cbn [is_complete compute_family].
  - exists i. repeat split; auto; lia.
  - specialize (IH (i + 1) hi ltac:(lia)).
    destruct (for_int_from fuel (i + 1) hi (select_step p l) _); [exact IH|].
    destruct IH as (k & -> & Hk & Hp). exists k. repeat split; auto; lia.
Qed.

Lemma queue_family_at_nth_error qs k :
  0 <= k < Z.of_nat (List.length qs) ->
  nth_error qs (Z.to_nat k) = Some (queue_family_at qs k).
Proof.
  intros H. unfold queue_family_at. apply nth_error_nth'. lia.
Qed.

Lemma compute_only_supports q : compute_only q = true -> supports_compute q = true.
Proof. unfold compute_only. intros H. now apply andb_prop in H. Qed.

Lemma find_queue_families_in_sound qs k :
  compute_family (find_queue_families_in qs) = Some k ->
  0 <= k /\ exists q, nth_error qs (Z.to_nat k) = Some q /\ supports_compute q = true.
Proof.
  pose proof (to_int_le (Z.of_nat (List.length qs)) ltac:(lia)) as Hle.
  unfold find_queue_families_in, for_int.
  rewrite (for_int_from_ext _ _ (compute_only_step_select qs)).
  pose proof (select_loop_sound compute_only qs
                (Z.to_nat (to_int (Z.of_nat (List.length qs)))) 0
                (to_int (Z.of_nat (List.length qs))) ltac:(lia)) as H1.
  destruct (for_int_from _ 0 _ (select_step compute_only qs) _) as [s|r].
  - subst s. rewrite (for_int_from_ext _ _ (any_compute_step_select qs)).
    pose proof (select_loop_sound supports_compute qs
                  (Z.to_nat (to_int (Z.of_nat (List.length qs)))) 0
                  (to_int (Z.of_nat (List.length qs))) ltac:(lia)) as H2.
    destruct (for_int_from _ 0 _ (select_step supports_compute qs) _) as [s|r].
    + subst s. discriminate.
    + destruct H2 as (k' & -> & Hk & Hp). intros [= <-]. split; [lia|].
      exists (queue_family_at qs k'). split; [|exact Hp].
      apply queue_family_at_nth_error. lia.
  - destruct H1 as (k' & -> & Hk & Hp). intros [= <-]. split; [lia|].
    exists (queue_family_at qs k'). split; [|now apply compute_only_supports].
    apply queue_family_at_nth_error. lia.
Qed.

Lemma find_queue_families_in_none qs :
  Forall (fun q => supports_compute q = false) qs ->
  compute_family (find_queue_families_in qs) = None.
Proof.
  intros Hall. destruct (compute_family (find_queue_families_in qs)) as [k|] eqn:E;
    [|reflexivity].
  apply find_queue_families_in_sound in E as (_ & q & Hq & Hc).
  apply nth_error_In in Hq. rewrite Forall_forall in Hall.
  rewrite (Hall q Hq) in Hc. discriminate.
Qed.

(** ** The device manager *)

Section Picking.

Variable drv : Driver.

Lemma first_suitable_first pre d post init :
  Forall (fun d' => is_device_suitable drv d' = false) pre ->
  is_device_suitable drv d = true ->
  ManagedVulkanDevice.first_suitable drv (pre ++ d :: post) init = d.
Proof.
  intros Hpre Hd. induction Hpre as [|a pre Ha _ IH]; cbn.
  - now rewrite Hd.
  - now rewrite Ha.
Qed.

Lemma first_suitable_none devices init :
  Forall (fun d' => is_device_suitable drv d' = false) devices ->
  ManagedVulkanDevice.first_suitable drv devices init = init.
Proof.
  intros H. induction H as [|a l Ha _ IH]; cbn; [reflexivity|]. now rewrite Ha.
Qed.

Lemma first_suitable_sound devices init :
  ManagedVulkanDevice.first_suitable drv devices init = init \/
  (In (ManagedVulkanDevice.first_suitable drv devices init) devices /\
   is_device_suitable drv (ManagedVulkanDevice.first_suitable drv devices init) = true).
Proof.
  induction devices as [|a l IH]; cbn; [now left|].
  destruct (is_device_suitable drv a) eqn:Ea.
  - right. auto.
  - destruct IH as [IH|[IH1 IH2]]; [now left|right; auto].
Qed.

Lemma pick_run self t :
  let devices := drv_physical_devices drv (ManagedVulkanDevice.instance_ self) in
  let d := ManagedVulkanDevice.first_suitable drv devices VK_NULL_HANDLE in
  ManagedVulkanDevice.pick_physical_device drv self t
  = if Z.of_nat (List.length devices) >? 0 then
      if d =? VK_NULL_HANDLE then
        (Throw "failed to find a suitable GPU",
         ManagedVulkanDevice.set_physical_device_ VK_NULL_HANDLE self, t)
      else
        (Ok tt,
         ManagedVulkanDevice.set_queue_family_indices_ (find_queue_families drv d)
           (ManagedVulkanDevice.set_physical_device_ d self), t)
    else (Throw "failed to find GPUs with Vulkan support", self, t).
Proof.
  cbn zeta. unfold ManagedVulkanDevice.pick_physical_device. run_m.
  destruct (_ >? 0); [|reflexivity].
  cbn [ManagedVulkanDevice.physical_device_ ManagedVulkanDevice.set_physical_device_
       ManagedVulkanDevice.instance_].
  destruct (_ =? VK_NULL_HANDLE) eqn:E; cbn [negb].
  - unfold ManagedVulkanDevice.set_physical_device_ at 1.
    cbn. apply Z.eqb_eq in E. rewrite E. reflexivity.
  - reflexivity.
Qed.

End Picking.

Section DeviceManager.

Variable drv : Driver.

Lemma create_instance_run params self t :
  ManagedVulkanDevice.create_instance drv params self t
  = if check_validation_layer_support drv then
      (if drv_result drv t (instance_call params) =? VK_SUCCESS then Ok tt
       else Throw "failed to create instance",
       ManagedVulkanDevice.set_instance_ (drv_handle drv t (instance_call params)) self,
       t ++ [instance_call params])
    else (Throw "validation layers requested but not available", self, t).
Proof.
  unfold ManagedVulkanDevice.create_instance. cbn [kEnableValidationLayers].
  fold (instance_call params). run_m.
  destruct (check_validation_layer_support drv); [|reflexivity]. run_m.
  destruct (_ =? VK_SUCCESS); reflexivity.
Qed.

Lemma setup_debug_messenger_run self t :
  let instance := ManagedVulkanDevice.instance_ self in
  ManagedVulkanDevice.setup_debug_messenger drv self t
  = if drv_has_proc drv instance "vkCreateDebugUtilsMessengerEXT" then
      (if drv_result drv t (messenger_call instance) =? VK_SUCCESS then Ok tt
       else Throw "failed to set up debug messenger",
       ManagedVulkanDevice.set_debug_messenger_
         (drv_handle drv t (messenger_call instance)) self,
       t ++ [messenger_call instance])
    else
      (Throw "failed to set up debug messenger",
       ManagedVulkanDevice.set_debug_messenger_
         (ManagedVulkanDevice.debug_messenger_ self) self, t).
Proof.
  cbn zeta. unfold ManagedVulkanDevice.setup_debug_messenger,
    create_debug_utils_messenger_ext. cbn [kEnableValidationLayers negb].
  fold (messenger_call (ManagedVulkanDevice.instance_ self)). run_m.
  destruct (drv_has_proc drv _ _); run_m; [|reflexivity].
  destruct (_ =? VK_SUCCESS); reflexivity.
Qed.

Lemma unsuitable_without_compute device :
  Forall (fun q => supports_compute q = false) (drv_queue_families drv device) ->
  is_device_suitable drv device = false.
Proof.
  intros H. unfold is_device_suitable, find_queue_families, is_complete.
  now rewrite find_queue_families_in_none.
Qed.

Lemma suitable_has_compute device :
  is_device_suitable drv device = true ->
  exists k q, compute_family (find_queue_families drv device) = Some k /\
    nth_error (drv_queue_families drv device) (Z.to_nat k) = Some q /\
    supports_compute q = true.
Proof.
  unfold is_device_suitable, is_complete, find_queue_families.
  destruct (compute_family _) as [k|] eqn:E; [|discriminate]. intros _.
  apply find_queue_families_in_sound in E as (_ & q & Hq & Hc).
  now exists k, q.
Qed.

End DeviceManager.

(** ** Device extensions *)

Section Extensions.

Variable drv : Driver.

Lemma detect_extension_run ext enabled has self t :
  let name := extensionName ext in
  ManagedVulkanDevice.detect_extension ext (enabled, has) self t
  = (Ok (if listed code_allow_list name then enabled ++ [name] else enabled,
         has || is_variable_pointers name),
     self, t ++ detect_logs ext).
Proof.
  cbn zeta. unfold ManagedVulkanDevice.detect_extension, detect_logs, listed,
    is_variable_pointers, code_allow_list, stated_allow_list.
  cbn [existsb app]. run_m.
  destruct (String.eqb_spec (extensionName ext) "VK_KHR_portability_subset") as [->|_].
  { run_m. cbn. rewrite <- app_assoc, orb_false_r. reflexivity. }
  cbn [orb].
  destruct (String.eqb_spec (extensionName ext) VK_KHR_SURFACE_EXTENSION_NAME) as [->|_].
  { cbn. rewrite orb_false_r. reflexivity. }
  destruct (String.eqb_spec (extensionName ext) VK_KHR_SWAPCHAIN_EXTENSION_NAME) as [->|_].
  { cbn. rewrite orb_false_r. reflexivity. }
  destruct (String.eqb_spec (extensionName ext) VK_EXT_SHADER_ATOMIC_FLOAT_EXTENSION_NAME)
    as [->|_].
  { cbn. rewrite orb_false_r. reflexivity. }
  destruct (String.eqb_spec (extensionName ext) VK_KHR_SHADER_ATOMIC_INT64_EXTENSION_NAME)
    as [->|_].
  { cbn. rewrite orb_false_r. reflexivity. }
  destruct (String.eqb_spec (extensionName ext) VK_KHR_SYNCHRONIZATION_2_EXTENSION_NAME)
    as [->|_].
  { cbn. rewrite orb_false_r. reflexivity. }
  cbn [orb].
  destruct (String.eqb_spec (extensionName ext)
              VK_NV_EXTERNAL_MEMORY_CAPABILITIES_EXTENSION_NAME) as [->|_].
  { cbn. rewrite orb_false_r. reflexivity. }
  cbn [orb].
  destruct (String.eqb (extensionName ext) VK_KHR_VARIABLE_POINTERS_EXTENSION_NAME).
  - cbn. rewrite orb_true_r. reflexivity.
  - cbn. rewrite orb_false_r. reflexivity.
Qed.

Lemma detect_loop_run exts : forall enabled has self t,
  let names := map extensionName exts in
  for_each exts ManagedVulkanDevice.detect_extension (enabled, has) self t
  = (Ok (enabled ++ filter (listed code_allow_list) names,
         has || existsb is_variable_pointers names),
     self, t ++ flat_map detect_logs exts).
Proof.
  induction exts as [|ext exts IH]; intros enabled has self t; cbn zeta.
  - cbn. now rewrite !app_nil_r, orb_false_r.
  - cbn [for_each map filter existsb flat_map]. unfold bind at 1.
    rewrite detect_extension_run. cbn zeta. rewrite IH. cbn zeta.
    rewrite <- !app_assoc, orb_assoc.
    destruct (listed code_allow_list (extensionName ext));
      rewrite <- ?app_assoc; reflexivity.
Qed.

Lemma create_logical_device_run self t :
  let pd := ManagedVulkanDevice.physical_device_ self in
  let exts := drv_device_extensions drv pd in
  let names := map extensionName exts in
  let logs := flat_map detect_logs exts
              ++ (if existsb is_variable_pointers names then []
                  else [variable_pointers_warning]) in
  ManagedVulkanDevice.create_logical_device drv self t
  = match compute_family (ManagedVulkanDevice.queue_family_indices_ self) with
    | None => (Throw "bad optional access", self, t)
    | Some family =>
        let call :=
          vkCreateDevice pd
            (device_create_info family (filter (listed code_allow_list) names)) in
        let device := drv_handle drv (t ++ logs) call in
        if drv_result drv (t ++ logs) call =? VK_SUCCESS then
          (Ok tt,
           ManagedVulkanDevice.set_compute_queue_
             (drv_handle drv (t ++ logs ++ [call]) (vkGetDeviceQueue device family 0))
             (ManagedVulkanDevice.set_device_ device self),
           t ++ logs ++ [call; vkGetDeviceQueue device family 0])
        else
          (Throw "failed to create logical device",
           ManagedVulkanDevice.set_device_ device self, t ++ logs ++ [call])
    end.
Proof.
  cbn zeta. unfold ManagedVulkanDevice.create_logical_device.
  unfold bind at 1. unfold this at 1.
  destruct (compute_family (ManagedVulkanDevice.queue_family_indices_ self)) as [family|];
    [|reflexivity].
  unfold bind at 1, value at 1, ret at 1.
  unfold bind at 1. rewrite detect_loop_run. cbn zeta. cbn [app orb].
  cbn [kEnableValidationLayers].
  fold (device_create_info family
          (filter (listed code_allow_list)
             (map extensionName
                (drv_device_extensions drv (ManagedVulkanDevice.physical_device_ self))))).
  destruct (existsb is_variable_pointers _); cbn [negb]; run_m;
    rewrite ?app_nil_r, <- ?app_assoc;
    destruct (_ =? VK_SUCCESS); run_m; rewrite <- ?app_assoc; reflexivity.
Qed.

End Extensions.

Lemma listed_In allow name : listed allow name = true -> In name allow.
Proof.
  unfold listed. intros H. apply existsb_exists in H as (x & Hin & Heq).
  apply String.eqb_eq in Heq. now subst.
Qed.

Lemma In_logs_not_create (logs : Trace) pd ci :
  forallb is_log logs = true -> ~ In (vkCreateDevice pd ci) logs.
Proof.
  intros Hlogs Hin. rewrite forallb_forall in Hlogs.
  specialize (Hlogs _ Hin). discriminate.
Qed.

Lemma detect_logs_are_logs exts : forallb is_log (flat_map detect_logs exts) = true.
Proof.
  induction exts as [|ext exts IH]; [reflexivity|].
  cbn [flat_map]. rewrite forallb_app, IH, andb_true_r.
  unfold detect_logs. now destruct (String.eqb _ _).
Qed.

(** ** The pipeline *)

Section Pipeline.

Variable drv : Driver.
Variable params : VulkanPipeline.Params.

Let buffer_binds := VulkanPipeline.buffer_bindings params.

Lemma create_descriptor_set_layout_Ok self t self' t' :
  VulkanPipeline.create_descriptor_set_layout drv params self t = (Ok tt, self', t') ->
  exists layout,
    self' = VulkanPipeline.set_descriptor_set_layout_ layout self /\
    t' = t ++ [vkCreateDescriptorSetLayout (VulkanPipeline.device_ self)
                 {| bindingCount := size32 buffer_binds;
                    pBindings := map layout_binding_of buffer_binds |}].
Proof.
  unfold VulkanPipeline.create_descriptor_set_layout. fold buffer_binds.
  rewrite fold_left_push. cbn [app].
  intros H. do 3 step H. prim H.
  eexists. split; [reflexivity|].
  unfold size32. now rewrite length_map.
Qed.

Lemma create_compute_pipeline_Ok self t self' t' :
  VulkanPipeline.create_compute_pipeline drv params self t = (Ok tt, self', t') ->
  exists shader_module pipeline_layout pipeline,
    self' = VulkanPipeline.set_pipeline_ pipeline
              (VulkanPipeline.set_pipeline_layout_ pipeline_layout self) /\
    t' = t ++
      [ vkCreateShaderModule (VulkanPipeline.device_ self)
          {| codeSize := code_size (VulkanPipeline.code params);
             pCode := code_data (VulkanPipeline.code params) |};
        vkCreatePipelineLayout (VulkanPipeline.device_ self)
          {| setLayoutCount := 1;
             pl_pSetLayouts := [VulkanPipeline.descriptor_set_layout_ self];
             pushConstantRangeCount := 0 |};
        vkCreateComputePipelines (VulkanPipeline.device_ self) VK_NULL_HANDLE 1
          [{| stage := {| stage_ := VK_SHADER_STAGE_COMPUTE_BIT;
                          module_ := shader_module; pName := "main" |};
              layout := pipeline_layout |}];
        vkDestroyShaderModule (VulkanPipeline.device_ self) shader_module ].
Proof.
  unfold VulkanPipeline.create_compute_pipeline, create_shader_module.
  intros H. step H. step H. step E. step E. prim E.
  do 6 step H. prim H.
  do 3 eexists. split; [reflexivity|].
  rewrite <- !app_assoc. reflexivity.
Qed.

Lemma create_descriptor_pool_Ok self t self' t' :
  VulkanPipeline.create_descriptor_pool drv params self t = (Ok tt, self', t') ->
  exists pool,
    self' = VulkanPipeline.set_descriptor_pool_ pool self /\
    t' = t ++ [vkCreateDescriptorPool (VulkanPipeline.device_ self)
                 {| maxSets := 1; poolSizeCount := 1;
                    pPoolSizes := [{| ps_type := VK_DESCRIPTOR_TYPE_STORAGE_BUFFER;
                                      ps_descriptorCount := size32 buffer_binds |}] |}].
Proof.
  unfold VulkanPipeline.create_descriptor_pool. fold buffer_binds.
  intros H. do 3 step H. prim H.
  eexists. split; reflexivity.
Qed.

Lemma descriptor_writes_map (descriptor_set : Handle) :
  for_index (Z.of_nat (List.length buffer_binds))
    (fun i descriptor_writes =>
       descriptor_writes ++
       [{| dstSet := descriptor_set;
           dstBinding := VulkanPipeline.binding
                           (nth (Z.to_nat i) buffer_binds VulkanPipeline.no_binding);
           dstArrayElement := 0;
           descriptorCount := 1;
           descriptorType := VK_DESCRIPTOR_TYPE_STORAGE_BUFFER;
           pBufferInfo :=
             nth (Z.to_nat i)
               (fold_left
                  (fun infos bb =>
                     infos ++ [{| buffer_ := VulkanPipeline.buffer bb; offset := 0;
                                  range := VK_WHOLE_SIZE |}])
                  buffer_binds [])
               VulkanPipeline.no_buffer_info |}])
    []
  = map (write_of descriptor_set) buffer_binds.
Proof.
  rewrite fold_left_push. cbn [app].
  rewrite (for_index_push
             (fun i =>
                {| dstSet := descriptor_set;
                   dstBinding := VulkanPipeline.binding
                                   (nth (Z.to_nat i) buffer_binds VulkanPipeline.no_binding);
                   dstArrayElement := 0; descriptorCount := 1;
                   descriptorType := VK_DESCRIPTOR_TYPE_STORAGE_BUFFER;
                   pBufferInfo := nth (Z.to_nat i) _ VulkanPipeline.no_buffer_info |})).
  erewrite map_ext.
  2:{ intros k. rewrite Nat2Z.id. reflexivity. }
  rewrite (map_nth_seq buffer_binds _ VulkanPipeline.no_binding VulkanPipeline.no_buffer_info
             (fun bb info =>
                {| dstSet := descriptor_set; dstBinding := VulkanPipeline.binding bb;
                   dstArrayElement := 0; descriptorCount := 1;
                   descriptorType := VK_DESCRIPTOR_TYPE_STORAGE_BUFFER;
                   pBufferInfo := info |})) by apply length_map.
  induction buffer_binds as [|bb l IH]; [reflexivity|].
  cbn [map combine fst snd]. now rewrite IH.
Qed.

Lemma create_descriptor_sets_Ok self t self' t' :
  VulkanPipeline.create_descriptor_sets drv params self t = (Ok tt, self', t') ->
  exists descriptor_set,
    self' = VulkanPipeline.set_descriptor_set_ descriptor_set self /\
    t' = t ++
      [ vkAllocateDescriptorSets (VulkanPipeline.device_ self)
          {| descriptorPool := VulkanPipeline.descriptor_pool_ self;
             descriptorSetCount := 1;
             pSetLayouts := [VulkanPipeline.descriptor_set_layout_ self] |};
        vkUpdateDescriptorSets (VulkanPipeline.device_ self) (size32 buffer_binds)
          (map (write_of descriptor_set) buffer_binds) 0 ].
Proof.
  unfold VulkanPipeline.create_descriptor_sets. fold buffer_binds.
  intros H. do 4 step H.
  rewrite descriptor_writes_map in H. prim H.
  eexists. split; [reflexivity|].
  rewrite <- app_assoc. cbn [app]. unfold size32. now rewrite length_map.
Qed.

End Pipeline.

(** ** Command builders *)

Lemma copy_run src_buffer dst_buffer size direction self t :
  CopyBufferCommandBuilder.copy src_buffer dst_buffer size direction self t
  = (Ok tt, self,
     t ++ copy_commands (VulkanCommandBuilder.command_buffer_ self)
            src_buffer dst_buffer size direction).
Proof.
  unfold CopyBufferCommandBuilder.copy, copy_commands; unfold_m.
  destruct direction; unfold_m; cbn; rewrite <- ?app_assoc; reflexivity.
Qed.

Lemma append_run (pipeline : VulkanPipeline.t)
    (group_count_x : Z) (self : VulkanCommandBuilder.t) (t : Trace) :
  let cb := VulkanCommandBuilder.command_buffer_ self in
  VulkanComputeCommandBuilder.append pipeline group_count_x self t
  = (Ok tt, self,
     t ++ [ vkCmdBindPipeline cb VK_PIPELINE_BIND_POINT_COMPUTE
              (VulkanPipeline.pipeline_ pipeline);
            vkCmdBindDescriptorSets cb VK_PIPELINE_BIND_POINT_COMPUTE
              (VulkanPipeline.pipeline_layout_ pipeline) 0 1
              [VulkanPipeline.descriptor_set_ pipeline] 0;
            vkCmdDispatch cb (to_uint32 group_count_x) 1 1;
            vkCmdPipelineBarrier cb VK_PIPELINE_STAGE_COMPUTE_SHADER_BIT
              (Z.lor VK_PIPELINE_STAGE_TRANSFER_BIT VK_PIPELINE_STAGE_COMPUTE_SHADER_BIT)
              0 1
              [{| srcAccessMask :=
                    Z.lor VK_ACCESS_SHADER_WRITE_BIT VK_ACCESS_SHADER_READ_BIT;
                  dstAccessMask :=
                    Z.lor (Z.lor (Z.lor VK_ACCESS_TRANSFER_READ_BIT
                                        VK_ACCESS_TRANSFER_WRITE_BIT)
                                 VK_ACCESS_SHADER_READ_BIT)
                          VK_ACCESS_SHADER_WRITE_BIT |}]
              0 0 ]).
Proof.
  unfold VulkanComputeCommandBuilder.append; unfold_m; cbn.
  rewrite <- !app_assoc. reflexivity.
Qed.

Section Builder.

Variable drv : Driver.

Lemma ctor_run device b0 t :
  let cb := drv_handle drv t (alloc_call device) in
  VulkanCommandBuilder.ctor drv device b0 t
  = if drv_result drv t (alloc_call device) =? VK_SUCCESS then
      (if drv_result drv (t ++ [alloc_call device]) (begin_call cb) =? VK_SUCCESS
       then Ok tt else Throw "failed to begin recording command buffer",
       {| VulkanCommandBuilder.command_buffer_ := cb |},
       t ++ [alloc_call device; begin_call cb])
    else
      (Throw "failed to allocate command buffer",
       {| VulkanCommandBuilder.command_buffer_ := cb |},
       t ++ [alloc_call device]).
Proof.
  cbn zeta. unfold VulkanCommandBuilder.ctor; unfold_m.
  fold (alloc_call device).
  destruct (drv_result drv t (alloc_call device) =? VK_SUCCESS); [|reflexivity].
  fold (begin_call (drv_handle drv t (alloc_call device))).
  run_m. rewrite <- app_assoc.
  destruct (drv_result drv (t ++ [alloc_call device]) _ =? VK_SUCCESS); reflexivity.
Qed.

Lemma build_run b t :
  let cb := VulkanCommandBuilder.command_buffer_ b in
  VulkanCommandBuilder.build drv b t
  = if drv_result drv t (vkEndCommandBuffer cb) =? VK_SUCCESS then
      (Ok cb, {| VulkanCommandBuilder.command_buffer_ := VK_NULL_HANDLE |},
       t ++ [vkEndCommandBuffer cb])
    else (Throw "failed to record command buffer", b, t ++ [vkEndCommandBuffer cb]).
Proof.
  cbn zeta. unfold VulkanCommandBuilder.build; unfold_m.
  destruct (_ =? VK_SUCCESS); reflexivity.
Qed.

Lemma dtor_run b t :
  let cb := VulkanCommandBuilder.command_buffer_ b in
  VulkanCommandBuilder.dtor drv b t
  = if cb =? VK_NULL_HANDLE then (Ok tt, b, t)
    else if drv_result drv t (vkEndCommandBuffer cb) =? VK_SUCCESS then
      (Ok tt, {| VulkanCommandBuilder.command_buffer_ := VK_NULL_HANDLE |},
       t ++ [vkEndCommandBuffer cb])
    else (Throw "failed to record command buffer", b, t ++ [vkEndCommandBuffer cb]).
Proof.
  cbn zeta. unfold VulkanCommandBuilder.dtor.
  unfold bind at 1. unfold this at 1.
  destruct (VulkanCommandBuilder.command_buffer_ b =? VK_NULL_HANDLE); [reflexivity|].
  cbn [negb]. unfold bind at 1. rewrite build_run. cbn zeta.
  destruct (_ =? VK_SUCCESS); reflexivity.
Qed.

Lemma ends_app cb t1 t2 : ends cb (t1 ++ t2) = (ends cb t1 + ends cb t2)%nat.
Proof. unfold ends. now rewrite filter_app, length_app. Qed.

Lemma begins_app cb t1 t2 : begins cb (t1 ++ t2) = (begins cb t1 + begins cb t2)%nat.
Proof. unfold begins. now rewrite filter_app, length_app. Qed.

Lemma cmds_no_end cb cmds : forallb is_cmd cmds = true -> ends cb cmds = 0%nat.
Proof.
  unfold ends. induction cmds as [|e cmds IH]; [reflexivity|].
  cbn [forallb filter]. intros H. apply andb_prop in H as [He Hc].
  destruct e; try discriminate He; cbn [is_end]; auto.
Qed.

Lemma cmds_no_begin cb cmds : forallb is_cmd cmds = true -> begins cb cmds = 0%nat.
Proof.
  unfold begins. induction cmds as [|e cmds IH]; [reflexivity|].
  cbn [forallb filter]. intros H. apply andb_prop in H as [He Hc].
  destruct e; try discriminate He; cbn [is_begin]; auto.
Qed.

Lemma run_op_cmd op b t :
  is_build op = false ->
  exists cmds, run_op drv op b t = (Ok tt, b, t ++ cmds) /\ forallb is_cmd cmds = true.
Proof.
  destruct op as [pipeline x | src dst size direction | ]; intros Hb; [| |discriminate].
  - cbn [run_op]. rewrite append_run. cbn zeta.
    eexists. split; [reflexivity|reflexivity].
  - cbn [run_op]. rewrite copy_run. cbn zeta.
    eexists. split; [reflexivity|]. now destruct direction.
Qed.

Lemma run_ops_cmds ops : forall b t,
  existsb is_build ops = false ->
  exists cmds, run_ops drv ops b t = (Ok tt, b, t ++ cmds) /\ forallb is_cmd cmds = true.
Proof.
  induction ops as [|op ops IH]; intros b t Hb.
  - exists []. now rewrite app_nil_r.
  - cbn [existsb] in Hb. apply orb_false_elim in Hb as [Hop Hops].
    destruct (run_op_cmd op b t Hop) as (c1 & E1 & F1).
    destruct (IH b (t ++ c1) Hops) as (c2 & E2 & F2).
    exists (c1 ++ c2). cbn [run_ops]. unfold bind at 1. rewrite E1, E2.
    rewrite app_assoc, forallb_app, F1, F2. auto.
Qed.

Lemma run_ops_ends cb ops :
  cb <> VK_NULL_HANDLE ->
  forall b t b' t',
  run_ops drv ops b t = (Ok tt, b', t') ->
  exists evs, t' = t ++ evs /\ begins cb evs = 0%nat /\
    (VulkanCommandBuilder.command_buffer_ b = cb ->
       (VulkanCommandBuilder.command_buffer_ b' = cb /\ ends cb evs = 0%nat) \/
       (VulkanCommandBuilder.command_buffer_ b' = VK_NULL_HANDLE /\ ends cb evs = 1%nat)) /\
    (VulkanCommandBuilder.command_buffer_ b = VK_NULL_HANDLE ->
       VulkanCommandBuilder.command_buffer_ b' = VK_NULL_HANDLE /\ ends cb evs = 0%nat).
Proof.
  intros Hcb. induction ops as [|op ops IH]; intros b t b' t' Hrun.
  - cbn [run_ops] in Hrun. unfold ret in Hrun. injection Hrun as <- <-.
    exists []. rewrite app_nil_r. repeat split; auto.
  - cbn [run_ops] in Hrun. unfold bind at 1 in Hrun.
    destruct (is_build op) eqn:Hop.
    + destruct op; try discriminate Hop. cbn [run_op] in Hrun.
      unfold bind at 1 in Hrun. rewrite build_run in Hrun. cbn zeta in Hrun.
      destruct (drv_result drv t _ =? VK_SUCCESS); [|discriminate Hrun].
      unfold ret at 1 in Hrun.
      destruct (IH _ _ _ _ Hrun) as (evs & -> & Hbeg & _ & Hnull).
      destruct (Hnull eq_refl) as [Hb' Hends].
      exists (vkEndCommandBuffer (VulkanCommandBuilder.command_buffer_ b) :: evs).
      rewrite <- app_assoc. split; [reflexivity|].
      split; [exact Hbeg|].
      unfold ends in *. cbn [filter is_end]. split.
      * intros ->. right. rewrite Z.eqb_refl. cbn [List.length]. auto.
      * intros ->. destruct (Z.eqb_spec VK_NULL_HANDLE cb); [congruence|]. auto.
    + destruct (run_op_cmd op b t Hop) as (cmds & E & Hcmds). rewrite E in Hrun.
      destruct (IH _ _ _ _ Hrun) as (evs & -> & Hbeg & Hsame & Hnull).
      exists (cmds ++ evs). rewrite app_assoc. split; [reflexivity|].
      rewrite begins_app, ends_app, (cmds_no_begin _ _ Hcmds), (cmds_no_end _ _ Hcmds).
      auto.
Qed.

End Builder.

Lemma copy_commands_cmds cb src_buffer dst_buffer size direction l :
  forallb (fun e => negb (is_cmd e)) l = true ->
  filter is_cmd (copy_commands cb src_buffer dst_buffer size direction ++ l)
  = copy_commands cb src_buffer dst_buffer size direction.
Proof.
  intros Hl. rewrite filter_app.
  replace (filter is_cmd l) with (@nil Event).
  - rewrite app_nil_r. now destruct direction.
  - symmetry. induction l as [|e l IH]; [reflexivity|].
    cbn [forallb] in Hl. apply andb_prop in Hl as [He Hl].
    cbn [filter]. apply negb_true_iff in He. rewrite He. auto.
Qed.

Lemma record_copy_buffer_command_run {Outer} (drv : Driver) (device : VulkanDevice.t)
    (src_buffer dst_buffer : Handle) (size : Z) (direction : VulkanCopyBufferDirection)
    (outer : Outer) (t : Trace) :
  let cb := drv_handle drv t (alloc_call device) in
  exists r evs,
    record_copy_buffer_command drv device src_buffer dst_buffer size direction outer t
    = (r, outer, t ++ evs)
    /\ filter is_cmd evs
       = if (drv_result drv t (alloc_call device) =? VK_SUCCESS)
            && (drv_result drv (t ++ [alloc_call device]) (begin_call cb) =? VK_SUCCESS)
         then copy_commands cb src_buffer dst_buffer size direction
         else [].
Proof.
  cbn zeta. set (cb := drv_handle drv t (alloc_call device)).
  unfold record_copy_buffer_command. unfold bind at 1, construct.
  rewrite ctor_run. cbn zeta. fold cb.
  destruct (drv_result drv t (alloc_call device) =? VK_SUCCESS); cbn [andb].
  2:{ do 2 eexists. split; reflexivity. }
  destruct (drv_result drv (t ++ [alloc_call device]) (begin_call cb) =? VK_SUCCESS).
  2:{ do 2 eexists. split; reflexivity. }
  unfold scoped. unfold bind at 1. rewrite copy_run.
  cbn [VulkanCommandBuilder.command_buffer_].
  rewrite build_run. cbn zeta. cbn [VulkanCommandBuilder.command_buffer_].
  destruct (drv_result drv _ (vkEndCommandBuffer cb) =? VK_SUCCESS).
  - rewrite dtor_run. cbn zeta. cbn [VulkanCommandBuilder.command_buffer_].
    rewrite Z.eqb_refl.
    exists (Ok cb), ([alloc_call device; begin_call cb]
                     ++ copy_commands cb src_buffer dst_buffer size direction
                     ++ [vkEndCommandBuffer cb]).
    rewrite <- !app_assoc. split; [reflexivity|].
    cbn [app filter is_cmd alloc_call begin_call]. now apply copy_commands_cmds.
  - rewrite dtor_run. cbn zeta. cbn [VulkanCommandBuilder.command_buffer_].
    destruct (cb =? VK_NULL_HANDLE).
    + eexists. exists ([alloc_call device; begin_call cb]
                       ++ copy_commands cb src_buffer dst_buffer size direction
                       ++ [vkEndCommandBuffer cb]).
      rewrite <- !app_assoc. split; [reflexivity|].
      cbn [app filter is_cmd alloc_call begin_call]. now apply copy_commands_cmds.
    + destruct (drv_result drv _ (vkEndCommandBuffer cb) =? VK_SUCCESS);
        eexists; exists ([alloc_call device; begin_call cb]
                         ++ copy_commands cb src_buffer dst_buffer size direction
                         ++ [vkEndCommandBuffer cb; vkEndCommandBuffer cb]);
        rewrite <- !app_assoc; (split; [reflexivity|]);
        cbn [app filter is_cmd alloc_call begin_call]; now apply copy_commands_cmds.
Qed.

(** * The properties of the specification *)

(** ** Device selection *)

(** C1: [find_queue_families] returns the index of the first queue family
    that supports compute and not graphics when there is one; otherwise the
    index of the first family that supports compute; otherwise no index.  (The
    loops count with an [int]: the families are fewer than 2^31.)
    [pick_physical_device] takes the first enumerated device that
    [is_device_suitable] accepts, whatever follows it in the enumeration, and
    stores the indices [find_queue_families] finds for it. *)
Theorem compute_queue_selection_policy (drv : Driver) :
  (forall device : Handle,
     let qs := drv_queue_families drv device in
     let found := compute_family (find_queue_families drv device) in
     Z.of_nat (List.length qs) < 2 ^ 31 ->
     (Exists (fun q => compute_only q = true) qs ->
      exists i q, found = Some (Z.of_nat i) /\ nth_error qs i = Some q /\
        compute_only q = true /\
        forall j q', (j < i)%nat -> nth_error qs j = Some q' -> compute_only q' = false)
     /\
     (Forall (fun q => compute_only q = false) qs ->
      Exists (fun q => supports_compute q = true) qs ->
      exists i q, found = Some (Z.of_nat i) /\ nth_error qs i = Some q /\
        supports_compute q = true /\
        forall j q', (j < i)%nat -> nth_error qs j = Some q' -> supports_compute q' = false)
     /\
     (Forall (fun q => supports_compute q = false) qs -> found = None))
  /\
  (forall (self : ManagedVulkanDevice.t) (t : Trace) (pre post : list Handle) (d : Handle),
     drv_physical_devices drv (ManagedVulkanDevice.instance_ self) = pre ++ d :: post ->
     Forall (fun d' => is_device_suitable drv d' = false) pre ->
     is_device_suitable drv d = true ->
     d <> VK_NULL_HANDLE ->
     ManagedVulkanDevice.pick_physical_device drv self t
     = (Ok tt,
        ManagedVulkanDevice.set_queue_family_indices_ (find_queue_families drv d)
          (ManagedVulkanDevice.set_physical_device_ d self),
        t)).
Proof.
  split.
  - intros device qs found Hsize. subst found. unfold find_queue_families. fold qs.
    rewrite (find_queue_families_in_first qs Hsize). repeat split.
    + intros Hex. destruct (first_index_Exists _ _ Hex) as (i & Ei). rewrite Ei.
      destruct (first_index_Some _ _ _ Ei) as (q & Hq & Hp & Hmin).
      exists i, q. auto.
    + intros Hnone Hex. apply first_index_None in Hnone. rewrite Hnone.
      destruct (first_index_Exists _ _ Hex) as (i & Ei). rewrite Ei.
      destruct (first_index_Some _ _ _ Ei) as (q & Hq & Hp & Hmin).
      exists i, q. auto.
    + intros Hnone.
      assert (Hco : Forall (fun q => compute_only q = false) qs).
      { eapply Forall_impl; [|exact Hnone]. intros q Hq. cbv beta in *.
        unfold compute_only. now rewrite Hq. }
      apply first_index_None in Hco, Hnone. now rewrite Hco, Hnone.
  - intros self t pre post d Hdevs Hpre Hd Hnonnull.
    rewrite pick_run. cbn zeta. rewrite Hdevs.
    rewrite (first_suitable_first drv pre d post _ Hpre Hd).
    rewrite length_app. cbn [List.length].
    destruct (Z.gtb_spec (Z.of_nat (List.length pre + S (List.length post))) 0); [|lia].
    destruct (Z.eqb_spec d VK_NULL_HANDLE); [contradiction|reflexivity].
Qed.

(* On [demo_driver]: device 102 has a compute-only family, and it is the
   device picked, device 101 before it having no compute family. *)
Lemma compute_queue_selection_policy_demo :
  (exists i q,
     compute_family (find_queue_families demo_driver 102) = Some (Z.of_nat i) /\
     nth_error (drv_queue_families demo_driver 102) i = Some q /\
     compute_only q = true /\
     forall j q', (j < i)%nat ->
       nth_error (drv_queue_families demo_driver 102) j = Some q' ->
       compute_only q' = false)
  /\
  ManagedVulkanDevice.pick_physical_device demo_driver ManagedVulkanDevice.uninitialized []
  = (Ok tt, demo_picked, []).
Proof.
  split.
  - apply (proj1 (compute_queue_selection_policy demo_driver) 102).
    + vm_compute. reflexivity.
    + apply Exists_cons_tl, Exists_cons_hd. reflexivity.
  - apply (proj2 (compute_queue_selection_policy demo_driver)
             ManagedVulkanDevice.uninitialized [] [101] [] 102).
    + reflexivity.
    + constructor; [reflexivity|constructor].
    + reflexivity.
    + discriminate.
Defined.

(** C7: when no enumerated device has a queue family that supports compute
    (in particular when no device is enumerated), the constructor of
    [ManagedVulkanDevice] ends with an exception carrying one of the
    initialization messages, and no [vkCreateDevice] has been issued.
    Whenever [pick_physical_device] returns normally, the device it stored
    was enumerated and the stored queue family index names one of its
    families that supports compute. *)
Theorem no_compute_queue_no_logical_device (drv : Driver) :
  (forall (params : ManagedVulkanDevice.Params) (self : ManagedVulkanDevice.t) (t : Trace),
     (forall instance : Handle,
        Forall (fun device =>
                  Forall (fun q => supports_compute q = false)
                    (drv_queue_families drv device))
          (drv_physical_devices drv instance)) ->
     exists what self' evs,
       ManagedVulkanDevice.ctor drv params self t = (Throw what, self', t ++ evs)
       /\ In what initialization_errors
       /\ existsb is_vkCreateDevice evs = false)
  /\
  (forall (self self' : ManagedVulkanDevice.t) (t t' : Trace),
     ManagedVulkanDevice.pick_physical_device drv self t = (Ok tt, self', t') ->
     let device := ManagedVulkanDevice.physical_device_ self' in
     In device (drv_physical_devices drv (ManagedVulkanDevice.instance_ self))
     /\ exists k q,
          compute_family (ManagedVulkanDevice.queue_family_indices_ self') = Some k
          /\ nth_error (drv_queue_families drv device) (Z.to_nat k) = Some q
          /\ supports_compute q = true).
Proof.
  split.
  - intros params self t Hnone.
    assert (Hpick : forall s tr, exists what,
              ManagedVulkanDevice.pick_physical_device drv s tr
              = (Throw what,
                 match drv_physical_devices drv (ManagedVulkanDevice.instance_ s) with
                 | [] => s
                 | _ => ManagedVulkanDevice.set_physical_device_ VK_NULL_HANDLE s
                 end, tr)
              /\ In what initialization_errors).
    { intros s tr. rewrite pick_run. cbn zeta.
      specialize (Hnone (ManagedVulkanDevice.instance_ s)).
      rewrite first_suitable_none.
      2:{ eapply Forall_impl; [|exact Hnone]. intros d Hd.
          now apply unsuitable_without_compute. }
      destruct (drv_physical_devices drv (ManagedVulkanDevice.instance_ s)); cbn.
      - eexists. split; [reflexivity|]. cbn. auto.
      - eexists. split; [reflexivity|]. cbn. auto 6. }
    unfold ManagedVulkanDevice.ctor. unfold bind at 1.
    rewrite create_instance_run.
    destruct (check_validation_layer_support drv).
    2:{ exists "validation layers requested but not available", self, [].
        rewrite app_nil_r. cbn. auto. }
    destruct (_ =? VK_SUCCESS).
    2:{ do 2 eexists. exists [instance_call params]. cbn. auto. }
    unfold bind at 1. rewrite setup_debug_messenger_run. cbn zeta.
    destruct (drv_has_proc drv _ _).
    2:{ do 2 eexists. exists [instance_call params]. cbn. auto 6. }
    destruct (_ =? VK_SUCCESS).
    2:{ do 2 eexists. eexists [instance_call params; messenger_call _].
        rewrite <- app_assoc. cbn. auto 6. }
    unfold bind at 1.
    match goal with
    | |- context [ManagedVulkanDevice.pick_physical_device drv ?s ?tr] =>
        destruct (Hpick s tr) as (what & -> & Hwhat)
    end.
    do 2 eexists. eexists [instance_call params; messenger_call _].
    rewrite <- app_assoc. cbn [app]. split; [reflexivity|]. split; [exact Hwhat|reflexivity].
  - intros self self' t t' Hpick device. subst device.
    rewrite pick_run in Hpick. cbn zeta in Hpick.
    destruct (_ >? 0); [|discriminate Hpick].
    destruct (Z.eqb_spec (ManagedVulkanDevice.first_suitable drv
                 (drv_physical_devices drv (ManagedVulkanDevice.instance_ self))
                 VK_NULL_HANDLE) VK_NULL_HANDLE) as [|Hne]; [discriminate Hpick|].
    injection Hpick as <- <-.
    cbn [ManagedVulkanDevice.physical_device_ ManagedVulkanDevice.queue_family_indices_
         ManagedVulkanDevice.set_queue_family_indices_
         ManagedVulkanDevice.set_physical_device_].
    destruct (first_suitable_sound drv
                (drv_physical_devices drv (ManagedVulkanDevice.instance_ self))
                VK_NULL_HANDLE) as [Heq|[Hin Hsuit]]; [contradiction|].
    split; [exact Hin|]. now apply suitable_has_compute.
Qed.

(* On [demo_driver_without_compute] construction fails; on [demo_driver] the
   device picked is 102 with its family 1. *)
Lemma no_compute_queue_demo :
  (exists what self' evs,
     ManagedVulkanDevice.ctor demo_driver_without_compute
       {| ManagedVulkanDevice.api_version := VK_MAKE_VERSION 1 2 0 |}
       ManagedVulkanDevice.uninitialized []
     = (Throw what, self', [] ++ evs)
     /\ In what initialization_errors
     /\ existsb is_vkCreateDevice evs = false)
  /\
  (In (ManagedVulkanDevice.physical_device_ demo_picked)
      (drv_physical_devices demo_driver
         (ManagedVulkanDevice.instance_ ManagedVulkanDevice.uninitialized))
   /\ exists k q,
        compute_family (ManagedVulkanDevice.queue_family_indices_ demo_picked) = Some k
        /\ nth_error (drv_queue_families demo_driver
                        (ManagedVulkanDevice.physical_device_ demo_picked))
                     (Z.to_nat k) = Some q
        /\ supports_compute q = true).
Proof.
  split.
  - apply (proj1 (no_compute_queue_no_logical_device demo_driver_without_compute)).
    intros instance. repeat constructor.
  - apply (proj2 (no_compute_queue_no_logical_device demo_driver)
             ManagedVulkanDevice.uninitialized demo_picked [] []).
    reflexivity.
Defined.

(** ** Device extensions *)

(** C6 as stated fails: on [demo_driver], whose device 102 reports
    [VK_NV_external_memory_capabilities], [create_logical_device] enables
    that extension, which is in none of the five groups of the stated list. *)
Lemma unlisted_extension_enabled :
  exists create_info,
    In (vkCreateDevice 102 create_info)
       (issued (ManagedVulkanDevice.create_logical_device demo_driver) demo_picked [])
    /\ In VK_NV_EXTERNAL_MEMORY_CAPABILITIES_EXTENSION_NAME
          (ppEnabledExtensionNames create_info)
    /\ ~ In VK_NV_EXTERNAL_MEMORY_CAPABILITIES_EXTENSION_NAME stated_allow_list
    /\ ~ enables_only stated_allow_list demo_driver demo_picked [].
Proof.
  exists (device_create_info 1 ["VK_KHR_swapchain"; "VK_NV_external_memory_capabilities"]).
  assert (Hin : In (vkCreateDevice 102
                      (device_create_info 1
                         ["VK_KHR_swapchain"; "VK_NV_external_memory_capabilities"]))
                  (issued (ManagedVulkanDevice.create_logical_device demo_driver)
                     demo_picked [])).
  { vm_compute. right. right. right. right. left. reflexivity. }
  assert (Hout : ~ In VK_NV_EXTERNAL_MEMORY_CAPABILITIES_EXTENSION_NAME stated_allow_list).
  { cbn. intros H. repeat (destruct H as [H|H]; [discriminate H|]). exact H. }
  split; [exact Hin|]. split; [cbn; auto|]. split; [exact Hout|].
  intros H. specialize (H _ _ Hin).
  cbn [ppEnabledExtensionNames device_create_info] in H.
  inversion H as [|? ? _ H2]; subst. inversion H2 as [|? ? H3 _]; subst.
  exact (Hout H3).
Qed.

(** C6, amended: every extension [create_logical_device] hands to
    [vkCreateDevice] is on the list the code compares with, which is the
    stated list and [VK_NV_external_memory_capabilities]; the enabled
    extensions are exactly the enumerated ones on that list, in order.  When
    the device does not report [VK_KHR_variable_pointers], a warning is
    logged, [vkCreateDevice] is still called, and the function returns
    normally exactly when the driver reports success. *)
Theorem enabled_extensions_are_on_the_code_list (drv : Driver)
    (self : ManagedVulkanDevice.t) (t : Trace) :
  enables_only code_allow_list drv self t
  /\
  (forall family : Z,
     compute_family (ManagedVulkanDevice.queue_family_indices_ self) = Some family ->
     let pd := ManagedVulkanDevice.physical_device_ self in
     let names := map extensionName (drv_device_extensions drv pd) in
     exists r self' logs create_info rest,
       ManagedVulkanDevice.create_logical_device drv self t
       = (r, self', t ++ logs ++ vkCreateDevice pd create_info :: rest)
       /\ forallb is_log logs = true
       /\ ppEnabledExtensionNames create_info = filter (listed code_allow_list) names
       /\ (existsb (String.eqb VK_KHR_VARIABLE_POINTERS_EXTENSION_NAME) names = false ->
           In (TI_LOG WARN
                 "Taichi may generate kernels that requires VK_KHR_VARIABLE_POINTERS, but this extension is not supported on the device"
                 []) logs)
       /\ (r = Ok tt <->
           drv_result drv (t ++ logs) (vkCreateDevice pd create_info) = VK_SUCCESS)).
Proof.
  pose proof (create_logical_device_run drv self t) as Hrun. cbn zeta in Hrun.
  set (pd := ManagedVulkanDevice.physical_device_ self) in *.
  set (names := map extensionName (drv_device_extensions drv pd)) in *.
  set (logs := flat_map detect_logs (drv_device_extensions drv pd)
               ++ (if existsb is_variable_pointers names then []
                   else [variable_pointers_warning])) in *.
  assert (Hlogs : forallb is_log logs = true).
  { subst logs. rewrite forallb_app, detect_logs_are_logs.
    now destruct (existsb is_variable_pointers names). }
  split.
  - intros pd' ci Hin.
    destruct (compute_family (ManagedVulkanDevice.queue_family_indices_ self))
      as [family|].
    + set (call := vkCreateDevice pd
                     (device_create_info family (filter (listed code_allow_list) names)))
        in *.
      assert (Hev : In (vkCreateDevice pd' ci)
                      (logs ++ [call; vkGetDeviceQueue
                                        (drv_handle drv (t ++ logs) call) family 0])).
      { destruct (drv_result drv (t ++ logs) call =? VK_SUCCESS).
        - now rewrite (issued_app _ _ _ _ _ _ Hrun) in Hin.
        - rewrite (issued_app _ _ _ _ _ _ Hrun) in Hin.
          apply in_app_or in Hin as [Hin|Hin]; apply in_or_app; [now left|].
          right. destruct Hin as [Hin|[]]. now left. }
      apply in_app_or in Hev as [Hev|Hev].
      * now apply In_logs_not_create in Hev.
      * destruct Hev as [Hev|[Hev|[]]]; [|discriminate Hev].
        subst call. injection Hev as _ <-. cbn [ppEnabledExtensionNames device_create_info].
        apply Forall_forall. intros name Hname. apply filter_In in Hname as [_ Hl].
        now apply listed_In.
    + rewrite <- (app_nil_r t) in Hrun at 2.
      rewrite (issued_app _ _ _ _ _ _ Hrun) in Hin. destruct Hin.
  - intros family Hfam pd0 names0. subst pd0 names0. rewrite Hfam in Hrun.
    set (call := vkCreateDevice pd
                   (device_create_info family (filter (listed code_allow_list) names)))
      in *.
    assert (Hwarn : existsb (String.eqb VK_KHR_VARIABLE_POINTERS_EXTENSION_NAME) names
                    = false ->
                    In variable_pointers_warning logs).
    { intros Habsent. subst logs. apply in_or_app. right.
      replace (existsb is_variable_pointers names) with false; [now left|].
      rewrite <- Habsent. clear. induction names as [|n l IH]; [reflexivity|].
      cbn [existsb]. rewrite IH. unfold is_variable_pointers.
      now rewrite String.eqb_sym. }
    destruct (drv_result drv (t ++ logs) call =? VK_SUCCESS) eqn:Eres.
    + do 3 eexists. exists (device_create_info family (filter (listed code_allow_list) names)).
      eexists. split; [exact Hrun|]. repeat split; auto.
      intros _. now apply Z.eqb_eq.
    + do 3 eexists. exists (device_create_info family (filter (listed code_allow_list) names)).
      exists []. split; [exact Hrun|]. repeat split; auto; try discriminate.
      intros Hok. fold call in Hok. apply Z.eqb_eq in Hok. congruence.
Qed.

(* On [demo_driver], whose device 102 was picked with queue family 1 and does
   not report VK_KHR_variable_pointers. *)
Lemma enabled_extensions_demo :
  enables_only code_allow_list demo_driver demo_picked []
  /\
  exists r self' logs create_info rest,
    ManagedVulkanDevice.create_logical_device demo_driver demo_picked []
    = (r, self',
       [] ++ logs
          ++ vkCreateDevice (ManagedVulkanDevice.physical_device_ demo_picked) create_info
             :: rest)
    /\ forallb is_log logs = true
    /\ ppEnabledExtensionNames create_info
       = filter (listed code_allow_list)
           (map extensionName
              (drv_device_extensions demo_driver
                 (ManagedVulkanDevice.physical_device_ demo_picked)))
    /\ (existsb (String.eqb VK_KHR_VARIABLE_POINTERS_EXTENSION_NAME)
          (map extensionName
             (drv_device_extensions demo_driver
                (ManagedVulkanDevice.physical_device_ demo_picked))) = false ->
        In (TI_LOG WARN
              "Taichi may generate kernels that requires VK_KHR_VARIABLE_POINTERS, but this extension is not supported on the device"
              []) logs)
    /\ (r = Ok tt <->
        drv_result demo_driver ([] ++ logs)
          (vkCreateDevice (ManagedVulkanDevice.physical_device_ demo_picked) create_info)
        = VK_SUCCESS).
Proof.
  split.
  - exact (proj1 (enabled_extensions_are_on_the_code_list demo_driver demo_picked [])).
  - exact (proj2 (enabled_extensions_are_on_the_code_list demo_driver demo_picked [])
             1 eq_refl).
Defined.

(** ** The diagnostic callback *)

(** C8: whatever the severity and the type of a message, [vk_debug_callback]
    returns [VK_FALSE]; it logs the message (one warning line) exactly when
    the severity is [WARNING] or above, and leaves the trace as it is
    otherwise. *)
Theorem vk_debug_callback_logs_from_warning {Self : Type}
    (message_severity : VkDebugUtilsMessageSeverityFlagBitsEXT) (message_type : Z)
    (p_callback_data : VkDebugUtilsMessengerCallbackDataEXT) (p_user_data : Z)
    (self : Self) (t : Trace) :
  vk_debug_callback message_severity message_type p_callback_data p_user_data self t
  = (Ok VK_FALSE, self,
     t ++ (if severity_value message_severity
              >=? severity_value VK_DEBUG_UTILS_MESSAGE_SEVERITY_WARNING_BIT_EXT
           then [TI_LOG WARN "validation layer: {}" [ArgStr (pMessage p_callback_data)]]
           else [])).
Proof.
  unfold vk_debug_callback; unfold_m.
  destruct message_severity; cbn; rewrite ?app_nil_r; reflexivity.
Qed.

(** ** The pipeline's descriptors *)

(** C5: when the constructor of [VulkanPipeline] returns normally for [N]
    binding descriptors ([N] below 2^31, the range of the [int] the last loop
    counts with), the calls it has issued are the eight below, in this order:
    one descriptor pool with [maxSets = 1] and a single pool size of [N]
    storage-buffer descriptors; one [vkAllocateDescriptorSets] from that pool
    for one set; and one [vkUpdateDescriptorSets] with [N] writes, the write of
    each binding descriptor going to its [binding] slot of that set with its
    [buffer], offset 0 and range [VK_WHOLE_SIZE]. *)
Theorem pipeline_descriptors_match_bindings (drv : Driver)
    (params : VulkanPipeline.Params) (self0 self : VulkanPipeline.t) (t t' : Trace) :
  let buffer_binds := VulkanPipeline.buffer_bindings params in
  let N := Z.of_nat (List.length buffer_binds) in
  let dev := VulkanDevice.device (VulkanPipeline.device params) in
  N < 2 ^ 31 ->
  VulkanPipeline.ctor drv params self0 t = (Ok tt, self, t') ->
  exists shader_module : Handle,
    t' = t ++
      [ vkCreateDescriptorSetLayout dev
          {| bindingCount := N;
             pBindings :=
               map (fun bb =>
                      {| binding_ := VulkanPipeline.binding bb;
                         lb_descriptorType := VK_DESCRIPTOR_TYPE_STORAGE_BUFFER;
                         lb_descriptorCount := 1;
                         stageFlags := VK_SHADER_STAGE_COMPUTE_BIT |}) buffer_binds |};
        vkCreateShaderModule dev
          {| codeSize := code_size (VulkanPipeline.code params);
             pCode := code_data (VulkanPipeline.code params) |};
        vkCreatePipelineLayout dev
          {| setLayoutCount := 1;
             pl_pSetLayouts := [VulkanPipeline.descriptor_set_layout_ self];
             pushConstantRangeCount := 0 |};
        vkCreateComputePipelines dev VK_NULL_HANDLE 1
          [{| stage := {| stage_ := VK_SHADER_STAGE_COMPUTE_BIT;
                          module_ := shader_module; pName := "main" |};
              layout := VulkanPipeline.pipeline_layout_ self |}];
        vkDestroyShaderModule dev shader_module;
        vkCreateDescriptorPool dev
          {| maxSets := 1; poolSizeCount := 1;
             pPoolSizes := [{| ps_type := VK_DESCRIPTOR_TYPE_STORAGE_BUFFER;
                               ps_descriptorCount := N |}] |};
        vkAllocateDescriptorSets dev
          {| descriptorPool := VulkanPipeline.descriptor_pool_ self;
             descriptorSetCount := 1;
             pSetLayouts := [VulkanPipeline.descriptor_set_layout_ self] |};
        vkUpdateDescriptorSets dev N
          (map (fun bb =>
                  {| dstSet := VulkanPipeline.descriptor_set_ self;
                     dstBinding := VulkanPipeline.binding bb;
                     dstArrayElement := 0;
                     descriptorCount := 1;
                     descriptorType := VK_DESCRIPTOR_TYPE_STORAGE_BUFFER;
                     pBufferInfo :=
                       {| buffer_ := VulkanPipeline.buffer bb; offset := 0;
                          range := VK_WHOLE_SIZE |} |}) buffer_binds)
          0 ].
Proof.
  intros buffer_binds N dev HN Hctor.
  unfold VulkanPipeline.ctor in Hctor.
  step Hctor.
  step Hctor. apply create_descriptor_set_layout_Ok in E as (layout & -> & ->).
  step Hctor. apply create_compute_pipeline_Ok in E as (sm & pl & p & -> & ->).
  step Hctor. apply create_descriptor_pool_Ok in E as (pool & -> & ->).
  apply create_descriptor_sets_Ok in Hctor as (ds & -> & ->).
  exists sm. rewrite size32_small by (fold buffer_binds; fold N; lia).
  rewrite <- !app_assoc. reflexivity.
Qed.

(* The pipeline of [demo_pipeline_params] on [demo_driver]: handles are
   1000 + the number of earlier events, so the layout is 1000, the shader
   module 1001, the pipeline layout 1002, the pool 1005 and the set 1006. *)
Lemma pipeline_descriptors_demo :
  exists shader_module : Handle,
    snd (VulkanPipeline.ctor demo_driver demo_pipeline_params
           VulkanPipeline.uninitialized [])
    = [] ++
      [ vkCreateDescriptorSetLayout 1
          {| bindingCount := 2;
             pBindings :=
               map layout_binding_of (VulkanPipeline.buffer_bindings demo_pipeline_params) |};
        vkCreateShaderModule 1 {| codeSize := 8; pCode := [119734787; 65536] |};
        vkCreatePipelineLayout 1
          {| setLayoutCount := 1; pl_pSetLayouts := [1000]; pushConstantRangeCount := 0 |};
        vkCreateComputePipelines 1 VK_NULL_HANDLE 1
          [{| stage := {| stage_ := VK_SHADER_STAGE_COMPUTE_BIT;
                          module_ := shader_module; pName := "main" |};
              layout := 1002 |}];
        vkDestroyShaderModule 1 shader_module;
        vkCreateDescriptorPool 1
          {| maxSets := 1; poolSizeCount := 1;
             pPoolSizes := [{| ps_type := VK_DESCRIPTOR_TYPE_STORAGE_BUFFER;
                               ps_descriptorCount := 2 |}] |};
        vkAllocateDescriptorSets 1
          {| descriptorPool := 1005; descriptorSetCount := 1; pSetLayouts := [1000] |};
        vkUpdateDescriptorSets 1 2
          (map (write_of 1006) (VulkanPipeline.buffer_bindings demo_pipeline_params)) 0 ].
Proof.
  apply (pipeline_descriptors_match_bindings demo_driver demo_pipeline_params
           VulkanPipeline.uninitialized
           {| VulkanPipeline.device_ := 1;
              VulkanPipeline.descriptor_set_layout_ := 1000;
              VulkanPipeline.pipeline_layout_ := 1002;
              VulkanPipeline.pipeline_ := 1003;
              VulkanPipeline.descriptor_pool_ := 1005;
              VulkanPipeline.descriptor_set_ := 1006 |}
           []).
  - vm_compute. reflexivity.
  - vm_compute. reflexivity.
Defined.

(** ** Command builders *)

Lemma demo_driver_valid_handles : valid_handles demo_driver.
Proof.
  intros t e _. unfold demo_driver, VK_NULL_HANDLE. cbn [drv_handle]. lia.
Qed.

(** C2: the constructor of a builder issues exactly one
    [vkAllocateCommandBuffers], for one primary buffer of the device's pool,
    and, when the driver accepts it, exactly one [vkBeginCommandBuffer] on the
    buffer the driver wrote, with the simultaneous-use flag; it returns
    normally exactly when the driver accepts both, and throws otherwise.  With
    a driver that writes valid handles, a builder whose constructor returned
    normally is [Recording].  When a builder that is [Recording] is used for
    any number of [append] and [copy] calls and then destroyed, the
    destructor's [vkEndCommandBuffer] on its buffer is the last event: the
    recording is ended.  So a block that declares a builder on a driver that
    accepts the allocation and the begin, and calls [append] and [copy] on it,
    issues the allocation, the begin, the commands and the end of the
    recording of that buffer, in this order. *)
Theorem builder_records_from_construction_to_destruction
    (drv : Driver) (device : VulkanDevice.t) :
  let alloc :=
    vkAllocateCommandBuffers (VulkanDevice.device device)
      {| commandPool := VulkanDevice.command_pool device;
         level := VK_COMMAND_BUFFER_LEVEL_PRIMARY;
         commandBufferCount := 1 |} in
  let begin := fun cb : Handle =>
    vkBeginCommandBuffer cb
      {| begin_flags := VK_COMMAND_BUFFER_USAGE_SIMULTANEOUS_USE_BIT |} in
  (forall (b0 : VulkanCommandBuilder.t) (t : Trace),
     let cb := drv_handle drv t alloc in
     VulkanCommandBuilder.ctor drv device b0 t
     = if drv_result drv t alloc =? VK_SUCCESS then
         (if drv_result drv (t ++ [alloc]) (begin cb) =? VK_SUCCESS then Ok tt
          else Throw "failed to begin recording command buffer",
          {| VulkanCommandBuilder.command_buffer_ := cb |},
          t ++ [alloc; begin cb])
       else
         (Throw "failed to allocate command buffer",
          {| VulkanCommandBuilder.command_buffer_ := cb |},
          t ++ [alloc]))
  /\
  (valid_handles drv ->
   forall (b0 b : VulkanCommandBuilder.t) (t t' : Trace),
     VulkanCommandBuilder.ctor drv device b0 t = (Ok tt, b, t') ->
     t' = t ++ [alloc; begin (VulkanCommandBuilder.command_buffer_ b)]
     /\ state_of b = Recording)
  /\
  (forall (Outer : Type) (b : VulkanCommandBuilder.t) (ops : list BuilderOp)
          (outer : Outer) (t : Trace),
     state_of b = Recording ->
     existsb is_build ops = false ->
     exists r cmds,
       scoped b (run_ops drv ops) (VulkanCommandBuilder.dtor drv) outer t
       = (r, outer,
          t ++ cmds ++ [vkEndCommandBuffer (VulkanCommandBuilder.command_buffer_ b)])
       /\ forallb is_cmd cmds = true)
  /\
  (valid_handles drv ->
   forall (Outer : Type) (ops : list BuilderOp) (outer : Outer) (t : Trace),
     let cb := drv_handle drv t alloc in
     existsb is_build ops = false ->
     drv_result drv t alloc = VK_SUCCESS ->
     drv_result drv (t ++ [alloc]) (begin cb) = VK_SUCCESS ->
     exists r cmds,
       builder_lifetime drv device ops outer t
       = (r, outer, t ++ [alloc; begin cb] ++ cmds ++ [vkEndCommandBuffer cb])
       /\ forallb is_cmd cmds = true
       /\ cb <> VK_NULL_HANDLE).
Proof.
  cbn zeta. fold (alloc_call device).
  assert (Hctor : forall b0 t,
            VulkanCommandBuilder.ctor drv device b0 t
            = if drv_result drv t (alloc_call device) =? VK_SUCCESS then
                (if drv_result drv (t ++ [alloc_call device])
                      (begin_call (drv_handle drv t (alloc_call device))) =? VK_SUCCESS
                 then Ok tt else Throw "failed to begin recording command buffer",
                 {| VulkanCommandBuilder.command_buffer_ :=
                      drv_handle drv t (alloc_call device) |},
                 t ++ [alloc_call device;
                       begin_call (drv_handle drv t (alloc_call device))])
              else
                (Throw "failed to allocate command buffer",
                 {| VulkanCommandBuilder.command_buffer_ :=
                      drv_handle drv t (alloc_call device) |},
                 t ++ [alloc_call device])).
  { intros b0 t. rewrite ctor_run. reflexivity. }
  assert (Hscoped : forall (Outer : Type) (b : VulkanCommandBuilder.t)
                      (ops : list BuilderOp) (outer : Outer) (t : Trace),
            state_of b = Recording ->
            existsb is_build ops = false ->
            exists r cmds,
              scoped b (run_ops drv ops) (VulkanCommandBuilder.dtor drv) outer t
              = (r, outer,
                 t ++ cmds
                 ++ [vkEndCommandBuffer (VulkanCommandBuilder.command_buffer_ b)])
              /\ forallb is_cmd cmds = true).
  { intros Outer b ops outer t Hrec Hnobuild.
    destruct (run_ops_cmds drv ops b t Hnobuild) as (cmds & Erun & Hcmds).
    unfold scoped. rewrite Erun, dtor_run. cbn zeta.
    unfold state_of in Hrec.
    destruct (VulkanCommandBuilder.command_buffer_ b =? VK_NULL_HANDLE);
      [discriminate Hrec|].
    destruct (drv_result drv (t ++ cmds) _ =? VK_SUCCESS);
      eexists; exists cmds; rewrite <- app_assoc; split; auto. }
  split; [exact Hctor|]. split; [|split; [exact Hscoped|]].
  - intros Hvalid b0 b t t' Hrun. rewrite Hctor in Hrun.
    destruct (drv_result drv t (alloc_call device) =? VK_SUCCESS) eqn:Ealloc;
      [|discriminate Hrun].
    destruct (drv_result drv (t ++ [alloc_call device]) _ =? VK_SUCCESS);
      [|discriminate Hrun].
    injection Hrun as <- <-. split; [reflexivity|].
    unfold state_of. cbn [VulkanCommandBuilder.command_buffer_].
    apply Z.eqb_eq, Hvalid in Ealloc.
    destruct (Z.eqb_spec (drv_handle drv t (alloc_call device)) VK_NULL_HANDLE);
      [contradiction|reflexivity].
  - intros Hvalid Outer ops outer t Hnobuild Halloc Hbegin.
    set (cb := drv_handle drv t (alloc_call device)) in *.
    assert (Hcb : cb <> VK_NULL_HANDLE) by (apply Hvalid, Halloc).
    unfold builder_lifetime. unfold bind at 1. unfold construct.
    rewrite Hctor. fold cb. fold (begin_call cb) in Hbegin.
    rewrite Halloc, Hbegin. cbn [Z.eqb VK_SUCCESS].
    destruct (Hscoped Outer {| VulkanCommandBuilder.command_buffer_ := cb |} ops outer
                (t ++ [alloc_call device; begin_call cb]))
      as (r & cmds & Erun & Hcmds).
    + unfold state_of. cbn [VulkanCommandBuilder.command_buffer_].
      destruct (Z.eqb_spec cb VK_NULL_HANDLE); [contradiction|reflexivity].
    + exact Hnobuild.
    + exists r, cmds. rewrite Erun. cbn [VulkanCommandBuilder.command_buffer_].
      rewrite <- app_assoc. auto.
Qed.

(* On [demo_driver], from the empty trace: the constructor returns normally
   with the buffer 1000 after the allocation and the begin, the builder is
   Recording, and a builder that recorded one host-to-device copy is ended
   when destroyed. *)
Lemma builder_records_demo :
  VulkanCommandBuilder.ctor demo_driver demo_device VulkanCommandBuilder.uninitialized []
  = (Ok tt, {| VulkanCommandBuilder.command_buffer_ := 1000 |},
     [alloc_call demo_device; begin_call 1000])
  /\ state_of {| VulkanCommandBuilder.command_buffer_ := 1000 |} = Recording
  /\ (exists r cmds,
        scoped {| VulkanCommandBuilder.command_buffer_ := 1000 |}
          (run_ops demo_driver [op_copy 7 8 16 H2D]) (VulkanCommandBuilder.dtor demo_driver)
          tt [alloc_call demo_device; begin_call 1000]
        = (r, tt,
           [alloc_call demo_device; begin_call 1000] ++ cmds
           ++ [vkEndCommandBuffer 1000])
        /\ forallb is_cmd cmds = true)
  /\ (exists r cmds,
        builder_lifetime demo_driver demo_device [op_copy 7 8 16 H2D] tt []
        = (r, tt,
           [] ++ [alloc_call demo_device; begin_call 1000] ++ cmds
           ++ [vkEndCommandBuffer 1000])
        /\ forallb is_cmd cmds = true
        /\ 1000 <> VK_NULL_HANDLE).
Proof.
  pose proof (builder_records_from_construction_to_destruction demo_driver demo_device)
    as H.
  cbn zeta in H. destruct H as (Hctor & Hrec & Hscoped & Hlife).
  split; [rewrite Hctor; reflexivity|].
  split.
  - apply (Hrec demo_driver_valid_handles VulkanCommandBuilder.uninitialized
             {| VulkanCommandBuilder.command_buffer_ := 1000 |} []
             [alloc_call demo_device; begin_call 1000]).
    rewrite Hctor. reflexivity.
  - split.
    + apply (Hscoped unit {| VulkanCommandBuilder.command_buffer_ := 1000 |}
               [op_copy 7 8 16 H2D] tt [alloc_call demo_device; begin_call 1000]);
        reflexivity.
    + apply (Hlife demo_driver_valid_handles unit [op_copy 7 8 16 H2D] tt []);
        reflexivity.
Defined.

(** The path on which [build] returns normally: then the builder's
    [command_buffer_] is the null handle and the destructor that follows
    issues no call; and with a driver that writes valid handles, in every
    block that declares a builder, calls [append], [copy] and [build] on it in
    any order and any number of times, and ends normally, recording into the
    builder's buffer is begun once and ended once, be it by [build] or by the
    destructor. *)
Theorem recording_ended_exactly_once (drv : Driver) :
  (forall (b b' : VulkanCommandBuilder.t) (t t' : Trace) (res : Handle),
     VulkanCommandBuilder.build drv b t = (Ok res, b', t') ->
     VulkanCommandBuilder.command_buffer_ b' = VK_NULL_HANDLE
     /\ VulkanCommandBuilder.dtor drv b' t' = (Ok tt, b', t'))
  /\
  (forall (Outer : Type) (device : VulkanDevice.t) (ops : list BuilderOp)
          (outer outer' : Outer) (t t' : Trace),
     valid_handles drv ->
     builder_lifetime drv device ops outer t = (Ok tt, outer', t') ->
     let cb := drv_handle drv t
                 (vkAllocateCommandBuffers (VulkanDevice.device device)
                    {| commandPool := VulkanDevice.command_pool device;
                       level := VK_COMMAND_BUFFER_LEVEL_PRIMARY;
                       commandBufferCount := 1 |}) in
     exists evs, t' = t ++ evs /\ begins cb evs = 1%nat /\ ends cb evs = 1%nat).
Proof.
  split.
  - intros b b' t t' res Hbuild. rewrite build_run in Hbuild. cbn zeta in Hbuild.
    destruct (_ =? VK_SUCCESS); [|discriminate Hbuild].
    injection Hbuild as _ <- <-. split; [reflexivity|].
    rewrite dtor_run. reflexivity.
  - intros Outer device ops outer outer' t t' Hvalid Hlife.
    fold (alloc_call device). cbn zeta.
    unfold builder_lifetime in Hlife. unfold bind at 1 in Hlife.
    unfold construct in Hlife. rewrite ctor_run in Hlife. cbn zeta in Hlife.
    destruct (drv_result drv t (alloc_call device) =? VK_SUCCESS) eqn:Ealloc;
      [|discriminate Hlife].
    apply Z.eqb_eq, Hvalid in Ealloc.
    set (cb := drv_handle drv t (alloc_call device)) in *.
    destruct (drv_result drv (t ++ [alloc_call device]) _ =? VK_SUCCESS);
      [|discriminate Hlife].
    unfold scoped in Hlife.
    destruct (run_ops drv ops {| VulkanCommandBuilder.command_buffer_ := cb |}
                (t ++ [alloc_call device; begin_call cb]))
      as [[r b1] t1] eqn:Erun.
    assert (Hdt := dtor_run drv b1 t1). cbn zeta in Hdt.
    destruct r as [[]|w|]; [| |discriminate Hlife].
    + destruct (run_ops_ends drv cb ops Ealloc _ _ _ _ Erun)
        as (evs & -> & Hbeg & Hsame & _).
      assert (Hpre : begins cb [alloc_call device; begin_call cb] = 1%nat).
      { unfold begins. cbn [filter is_begin alloc_call begin_call].
        now rewrite Z.eqb_refl. }
      assert (Hpre' : ends cb [alloc_call device; begin_call cb] = 0%nat) by reflexivity.
      destruct (Hsame eq_refl) as [[Hb1 Hends]|[Hb1 Hends]]; rewrite Hb1 in Hdt.
      * destruct (Z.eqb_spec cb VK_NULL_HANDLE); [contradiction|].
        destruct (drv_result drv _ (vkEndCommandBuffer cb) =? VK_SUCCESS);
          rewrite Hdt in Hlife; [|discriminate Hlife].
        injection Hlife as _ <-.
        exists ([alloc_call device; begin_call cb] ++ evs ++ [vkEndCommandBuffer cb]).
        rewrite <- !app_assoc. split; [reflexivity|].
        rewrite !begins_app, !ends_app, Hpre, Hpre', Hbeg, Hends.
        unfold begins, ends. cbn [filter is_begin is_end].
        rewrite Z.eqb_refl. auto.
      * rewrite Z.eqb_refl in Hdt. rewrite Hdt in Hlife. injection Hlife as _ <-.
        exists ([alloc_call device; begin_call cb] ++ evs).
        rewrite <- !app_assoc. split; [reflexivity|].
        rewrite !begins_app, !ends_app, Hpre, Hpre', Hbeg, Hends. auto.
    + destruct (VulkanCommandBuilder.dtor drv b1 t1) as [[[[]|w'|] b2] t2];
        discriminate Hlife.
Qed.

(* On [demo_driver]: a copy, an explicit build and the destruction of the
   builder of buffer 1000. *)
Lemma recording_ended_once_demo :
  exists evs,
    snd (builder_lifetime demo_driver demo_device [op_copy 7 8 16 H2D; op_build] tt [])
    = [] ++ evs
    /\ begins (drv_handle demo_driver [] (alloc_call demo_device)) evs = 1%nat
    /\ ends (drv_handle demo_driver [] (alloc_call demo_device)) evs = 1%nat.
Proof.
  apply (proj2 (recording_ended_exactly_once demo_driver) unit demo_device
           [op_copy 7 8 16 H2D; op_build] tt tt []).
  - exact demo_driver_valid_handles.
  - reflexivity.
Defined.

(** What the hypothesis of a normal end leaves out: when [vkEndCommandBuffer]
    reports an error, [build] throws before it clears [command_buffer_], the
    destructor that runs while the exception leaves the block calls
    [vkEndCommandBuffer] again, and the exception it throws in turn ends the
    program. *)
Remark failed_build_is_retried_by_destructor :
  record_copy_buffer_command demo_driver_failing_end demo_device 7 8 16 D2H tt []
  = (Terminate, tt,
     [ alloc_call demo_device; begin_call 1000;
       vkCmdCopyBuffer 1000 7 8 1 [{| srcOffset := 0; dstOffset := 0; size := 16 |}];
       vkEndCommandBuffer 1000; vkEndCommandBuffer 1000 ]).
Proof. reflexivity. Qed.

(** C10 fails on the code.  On [demo_driver_failing_first_end], a driver that
    writes valid handles and refuses one [vkEndCommandBuffer], the call of
    [build] on the builder of buffer 1000 throws and leaves the handle in
    [command_buffer_]: the builder is still [Recording] after [build] has been
    called once, and its destructor issues a second [vkEndCommandBuffer] on
    the same buffer.  The block [{ VulkanCommandBuilder cb{device};
    cb.build(); }] ends with the exception of [build], after the recording
    into the builder's buffer was begun once and ended twice. *)
Theorem refused_end_is_issued_twice :
  let drv := demo_driver_failing_first_end in
  let b := {| VulkanCommandBuilder.command_buffer_ := 1000 |} in
  let t := [alloc_call demo_device; begin_call 1000] in
  valid_handles drv
  /\ VulkanCommandBuilder.ctor drv demo_device VulkanCommandBuilder.uninitialized []
     = (Ok tt, b, t)
  /\ VulkanCommandBuilder.build drv b t
     = (Throw "failed to record command buffer", b, t ++ [vkEndCommandBuffer 1000])
  /\ state_of b = Recording
  /\ VulkanCommandBuilder.dtor drv b (t ++ [vkEndCommandBuffer 1000])
     = (Ok tt, {| VulkanCommandBuilder.command_buffer_ := VK_NULL_HANDLE |},
        t ++ [vkEndCommandBuffer 1000; vkEndCommandBuffer 1000])
  /\ builder_lifetime drv demo_device [op_build] tt []
     = (Throw "failed to record command buffer", tt,
        t ++ [vkEndCommandBuffer 1000; vkEndCommandBuffer 1000])
  /\ begins 1000 (t ++ [vkEndCommandBuffer 1000; vkEndCommandBuffer 1000]) = 1%nat
  /\ ends 1000 (t ++ [vkEndCommandBuffer 1000; vkEndCommandBuffer 1000]) = 2%nat.
Proof.
  cbn zeta. split.
  - intros t e _. unfold demo_driver_failing_first_end, demo_driver, VK_NULL_HANDLE.
    cbn [drv_handle]. lia.
  - repeat split; reflexivity.
Qed.

(** C3: [copy] records one [vkCmdCopyBuffer] with a single region whose
    source and destination offsets are 0; for the direction [H2D] it records
    after it one [vkCmdPipelineBarrier] with one memory barrier, from
    transfer-write to shader-read and transfer-read; for [D2H] it records
    nothing more.  The commands in the buffer that
    [record_copy_buffer_command] records are these and no others (none when
    the builder could not be constructed). *)
Theorem buffer_copy_recording (src_buffer dst_buffer : Handle) (size : Z)
    (direction : VulkanCopyBufferDirection) :
  (forall (self : VulkanCommandBuilder.t) (t : Trace),
     let cb := VulkanCommandBuilder.command_buffer_ self in
     CopyBufferCommandBuilder.copy src_buffer dst_buffer size direction self t
     = (Ok tt, self,
        t ++ vkCmdCopyBuffer cb src_buffer dst_buffer 1
               [{| srcOffset := 0; dstOffset := 0; size := size |}]
             :: match direction with
                | H2D =>
                    [vkCmdPipelineBarrier cb VK_PIPELINE_STAGE_TRANSFER_BIT
                       (Z.lor VK_PIPELINE_STAGE_COMPUTE_SHADER_BIT
                              VK_PIPELINE_STAGE_TRANSFER_BIT)
                       0 1
                       [{| srcAccessMask := VK_ACCESS_TRANSFER_WRITE_BIT;
                           dstAccessMask :=
                             Z.lor VK_ACCESS_SHADER_READ_BIT
                                   VK_ACCESS_TRANSFER_READ_BIT |}]
                       0 0]
                | D2H => []
                end))
  /\
  (forall (drv : Driver) (Outer : Type) (device : VulkanDevice.t) (outer : Outer)
          (t : Trace),
     let alloc :=
       vkAllocateCommandBuffers (VulkanDevice.device device)
         {| commandPool := VulkanDevice.command_pool device;
            level := VK_COMMAND_BUFFER_LEVEL_PRIMARY;
            commandBufferCount := 1 |} in
     let cb := drv_handle drv t alloc in
     let constructed :=
       (drv_result drv t alloc =? VK_SUCCESS)
       && (drv_result drv (t ++ [alloc])
             (vkBeginCommandBuffer cb
                {| begin_flags := VK_COMMAND_BUFFER_USAGE_SIMULTANEOUS_USE_BIT |})
           =? VK_SUCCESS) in
     exists r evs,
       record_copy_buffer_command drv device src_buffer dst_buffer size direction outer t
       = (r, outer, t ++ evs)
       /\ filter is_cmd evs
          = if constructed
            then issued (CopyBufferCommandBuilder.copy src_buffer dst_buffer size direction)
                   {| VulkanCommandBuilder.command_buffer_ := cb |} []
            else []).
Proof.
  split.
  - intros self t. unfold CopyBufferCommandBuilder.copy; unfold_m.
    destruct direction; unfold_m; cbn; rewrite <- ?app_assoc; reflexivity.
  - intros drv Outer device outer t alloc cb constructed.
    destruct (record_copy_buffer_command_run drv device src_buffer dst_buffer size
                direction outer t) as (r & evs & Erun & Hcmds).
    exists r, evs. split; [exact Erun|]. rewrite Hcmds.
    subst constructed cb alloc. fold (alloc_call device).
    fold (begin_call (drv_handle drv t (alloc_call device))).
    destruct (_ && _); [|reflexivity].
    symmetry. eapply issued_app. rewrite copy_run. reflexivity.
Qed.

(** C4: [append] records, in this order, the binding of the pipeline to the
    compute bind point, the binding of its one descriptor set, a dispatch of
    [group_count_x] (as a uint32_t) by 1 by 1 groups, and one pipeline barrier
    from the compute stage to the transfer and compute stages with a single
    memory barrier, from shader write and read to transfer read and write and
    shader read and write. *)
Theorem dispatch_recording (pipeline : VulkanPipeline.t)
    (group_count_x : Z) (self : VulkanCommandBuilder.t) (t : Trace) :
  let cb := VulkanCommandBuilder.command_buffer_ self in
  VulkanComputeCommandBuilder.append pipeline group_count_x self t
  = (Ok tt, self,
     t ++ [ vkCmdBindPipeline cb VK_PIPELINE_BIND_POINT_COMPUTE
              (VulkanPipeline.pipeline_ pipeline);
            vkCmdBindDescriptorSets cb VK_PIPELINE_BIND_POINT_COMPUTE
              (VulkanPipeline.pipeline_layout_ pipeline) 0 1
              [VulkanPipeline.descriptor_set_ pipeline] 0;
            vkCmdDispatch cb (to_uint32 group_count_x) 1 1;
            vkCmdPipelineBarrier cb VK_PIPELINE_STAGE_COMPUTE_SHADER_BIT
              (Z.lor VK_PIPELINE_STAGE_TRANSFER_BIT VK_PIPELINE_STAGE_COMPUTE_SHADER_BIT)
              0 1
              [{| srcAccessMask :=
                    Z.lor VK_ACCESS_SHADER_WRITE_BIT VK_ACCESS_SHADER_READ_BIT;
                  dstAccessMask :=
                    Z.lor (Z.lor (Z.lor VK_ACCESS_TRANSFER_READ_BIT
                                        VK_ACCESS_TRANSFER_WRITE_BIT)
                                 VK_ACCESS_SHADER_READ_BIT)
                          VK_ACCESS_SHADER_WRITE_BIT |}]
              0 0 ]).
Proof.
  unfold VulkanComputeCommandBuilder.append; unfold_m; cbn.
  rewrite <- !app_assoc. reflexivity.
Qed.

(** ** The execution stream *)

(** C9: whatever the driver answers, [launch] issues exactly one call, a
    [vkQueueSubmit] to the device's compute queue of one submission that holds
    the one command buffer and no wait or signal semaphore, with the null
    handle as fence; in particular it issues no [vkQueueWaitIdle].  It returns
    normally when the driver reports success and throws otherwise. *)
Theorem launch_submits_one_buffer (drv : Driver) (command : Handle)
    (self : VulkanStream.t) (t : Trace) :
  let submission :=
    vkQueueSubmit (VulkanDevice.compute_queue (VulkanStream.device_ self)) 1
      [{| waitSemaphoreCount := 0; pWaitSemaphores := [];
          submit_commandBufferCount := 1; pCommandBuffers := [command];
          signalSemaphoreCount := 0; pSignalSemaphores := [] |}]
      VK_NULL_HANDLE in
  VulkanStream.launch drv command self t
  = (if drv_result drv t submission =? VK_SUCCESS then Ok tt
     else Throw "failed to submit command buffer",
     self, t ++ [submission]).
Proof.
  cbn zeta. unfold VulkanStream.launch; unfold_m.
  destruct (_ =? VK_SUCCESS); reflexivity.
Qed.

(** * Further properties of the code *)

(** ** Events a computation is confined to *)

Section EmitsOnly.

Context {Self : Type} (P : Event -> bool).

Lemma emits_only_ret {A} (a : A) : emits_only P (@ret Self A a).
Proof. intros self t. exists []. now rewrite app_nil_r. Qed.

Lemma emits_only_throw {A} (w : string) : emits_only P (@throw Self A w).
Proof. intros self t. exists []. now rewrite app_nil_r. Qed.

Lemma emits_only_this : emits_only P (@this Self).
Proof. intros self t. exists []. now rewrite app_nil_r. Qed.

Lemma emits_only_assign (f : Self -> Self) : emits_only P (assign f).
Proof. intros self t. exists []. now rewrite app_nil_r. Qed.

Lemma emits_only_emit (e : Event) : P e = true -> emits_only P (@emit Self e).
Proof. intros He self t. exists [e]. cbn. now rewrite He. Qed.

Lemma emits_only_vk_call drv (e : Event) : P e = true -> emits_only P (@vk_call drv Self e).
Proof. intros He self t. exists [e]. cbn. now rewrite He. Qed.

Lemma emits_only_vk_create drv (e : Event) :
  P e = true -> emits_only P (@vk_create drv Self e).
Proof. intros He self t. exists [e]. cbn. now rewrite He. Qed.

Lemma emits_only_vk_get drv (e : Event) : P e = true -> emits_only P (@vk_get drv Self e).
Proof. intros He self t. exists [e]. cbn. now rewrite He. Qed.

Lemma emits_only_bail (res : VkResult) (msg : string) :
  emits_only P (@BAIL_ON_VK_BAD_RESULT Self res msg).
Proof.
  unfold BAIL_ON_VK_BAD_RESULT. destruct (res =? VK_SUCCESS);
    [apply emits_only_ret | apply emits_only_throw].
Qed.

Lemma emits_only_assert (cond : bool) (msg : string) :
  emits_only P (@TI_ASSERT_INFO Self cond msg).
Proof.
  unfold TI_ASSERT_INFO. destruct cond; [apply emits_only_ret | apply emits_only_throw].
Qed.

Lemma emits_only_value {A} (opt : option A) : emits_only P (@value Self A opt).
Proof. destruct opt; [apply emits_only_ret | apply emits_only_throw]. Qed.

Lemma emits_only_bind {A B} (m : M Self A) (k : A -> M Self B) :
  emits_only P m -> (forall a, emits_only P (k a)) -> emits_only P (bind m k).
Proof.
  intros Hm Hk self t. destruct (Hm self t) as (evs & E & F).
  unfold bind. destruct (m self t) as [[[a|w|] self1] t1]; cbn [snd] in *; subst t1.
  - destruct (Hk a self1 (t ++ evs)) as (evs' & E' & F').
    exists (evs ++ evs'). rewrite E', app_assoc, forallb_app, F, F'. auto.
  - now exists evs.
  - now exists evs.
Qed.

Lemma emits_only_for_each {A S} (body : A -> S -> M Self S) (l : list A) :
  (forall x s, emits_only P (body x s)) -> forall s, emits_only P (for_each l body s).
Proof.
  intros Hbody. induction l as [|x l IH]; intros s; cbn [for_each].
  - apply emits_only_ret.
  - apply emits_only_bind; auto.
Qed.

End EmitsOnly.

Lemma emits_only_construct {Outer Obj} (P : Event -> bool) (init : Obj) (ctor : M Obj unit) :
  emits_only P ctor -> emits_only P (@construct Outer Obj init ctor).
Proof.
  intros H outer t. destruct (H init t) as (evs & E & F). exists evs.
  unfold construct. destruct (ctor init t) as [[[a|w|] obj] t1]; cbn [snd] in *; auto.
Qed.

(* decompose a computation into its steps *)
Ltac confined :=
  repeat first
    [ apply emits_only_ret | apply emits_only_throw | apply emits_only_this
    | apply emits_only_assign | apply emits_only_bail | apply emits_only_assert
    | apply emits_only_value
    | apply emits_only_emit; reflexivity
    | apply emits_only_vk_call; reflexivity
    | apply emits_only_vk_create; reflexivity
    | apply emits_only_vk_get; reflexivity
    | apply emits_only_bind; [|intros ?]
    | match goal with
      | |- emits_only _ (match ?x with _ => _ end) => destruct x
      | |- emits_only _ (if ?c then _ else _) => destruct c
      end ].

(** ** The device manager from construction to destruction *)

Section ManagedDevice.

Variable drv : Driver.

Lemma create_command_pool_run self t :
  ManagedVulkanDevice.create_command_pool drv self t
  = match compute_family (ManagedVulkanDevice.queue_family_indices_ self) with
    | None => (Throw "bad optional access", self, t)
    | Some family =>
        let call :=
          vkCreateCommandPool (ManagedVulkanDevice.device_ self)
            {| pool_flags := 0; pool_queueFamilyIndex := family |} in
        (if drv_result drv t call =? VK_SUCCESS then Ok tt
         else Throw "failed to create command pool",
         ManagedVulkanDevice.set_command_pool_ (drv_handle drv t call) self,
         t ++ [call])
    end.
Proof.
  unfold ManagedVulkanDevice.create_command_pool. run_m.
  destruct (compute_family _); [|reflexivity]. run_m.
  destruct (_ =? VK_SUCCESS); reflexivity.
Qed.

Lemma managed_dtor_run self t :
  let instance := ManagedVulkanDevice.instance_ self in
  let dev := ManagedVulkanDevice.device_ self in
  ManagedVulkanDevice.dtor drv self t
  = (Ok tt, self,
     t ++ (if drv_has_proc drv instance "vkDestroyDebugUtilsMessengerEXT"
           then [vkDestroyDebugUtilsMessengerEXT instance
                   (ManagedVulkanDevice.debug_messenger_ self)]
           else [])
       ++ [ vkDestroyCommandPool dev (ManagedVulkanDevice.command_pool_ self);
            vkDestroyDevice dev;
            vkDestroyInstance instance ]).
Proof.
  cbn zeta. unfold ManagedVulkanDevice.dtor, destroy_debug_utils_messenger_ext. run_m.
  cbv beta iota delta [kEnableValidationLayers].
  destruct (drv_has_proc drv _ _); run_m; rewrite <- ?app_assoc; reflexivity.
Qed.

(* two device managers with the same members are the same *)
Lemma managed_device_ext (a b : ManagedVulkanDevice.t) :
  ManagedVulkanDevice.instance_ a = ManagedVulkanDevice.instance_ b ->
  ManagedVulkanDevice.debug_messenger_ a = ManagedVulkanDevice.debug_messenger_ b ->
  ManagedVulkanDevice.physical_device_ a = ManagedVulkanDevice.physical_device_ b ->
  ManagedVulkanDevice.queue_family_indices_ a = ManagedVulkanDevice.queue_family_indices_ b ->
  ManagedVulkanDevice.device_ a = ManagedVulkanDevice.device_ b ->
  ManagedVulkanDevice.compute_queue_ a = ManagedVulkanDevice.compute_queue_ b ->
  ManagedVulkanDevice.command_pool_ a = ManagedVulkanDevice.command_pool_ b ->
  ManagedVulkanDevice.owned_device_ a = ManagedVulkanDevice.owned_device_ b ->
  a = b.
Proof. destruct a, b. cbn. intros; subst; reflexivity. Qed.

(* the constructor that returned normally, call by call *)
Lemma managed_ctor_Ok params self0 t self t' :
  ManagedVulkanDevice.ctor drv params self0 t = (Ok tt, self, t') ->
  let instance := drv_handle drv t (instance_call params) in
  let t1 := t ++ [instance_call params] in
  let messenger := drv_handle drv t1 (messenger_call instance) in
  let t2 := t1 ++ [messenger_call instance] in
  let pd := ManagedVulkanDevice.first_suitable drv (drv_physical_devices drv instance)
              VK_NULL_HANDLE in
  let exts := drv_device_extensions drv pd in
  let names := map extensionName exts in
  let logs := flat_map detect_logs exts
              ++ (if existsb is_variable_pointers names then []
                  else [variable_pointers_warning]) in
  exists family,
    compute_family (find_queue_families drv pd) = Some family /\
    In pd (drv_physical_devices drv instance) /\
    let call :=
      vkCreateDevice pd (device_create_info family (filter (listed code_allow_list) names)) in
    let dev := drv_handle drv (t2 ++ logs) call in
    let t3 := t2 ++ logs ++ [call] in
    let queue := drv_handle drv t3 (vkGetDeviceQueue dev family 0) in
    let t4 := t2 ++ logs ++ [call; vkGetDeviceQueue dev family 0] in
    let pool_call :=
      vkCreateCommandPool dev {| pool_flags := 0; pool_queueFamilyIndex := family |} in
    let pool := drv_handle drv t4 pool_call in
    self = {| ManagedVulkanDevice.instance_ := instance;
              ManagedVulkanDevice.debug_messenger_ := messenger;
              ManagedVulkanDevice.physical_device_ := pd;
              ManagedVulkanDevice.queue_family_indices_ := find_queue_families drv pd;
              ManagedVulkanDevice.device_ := dev;
              ManagedVulkanDevice.compute_queue_ := queue;
              ManagedVulkanDevice.command_pool_ := pool;
              ManagedVulkanDevice.owned_device_ :=
                Some {| VulkanDevice.device := dev;
                        VulkanDevice.compute_queue := queue;
                        VulkanDevice.command_pool := pool |} |}
    /\ t' = t4 ++ [pool_call].
Proof.
  intros Hctor. cbn zeta. unfold ManagedVulkanDevice.ctor in Hctor.
  step Hctor. rewrite create_instance_run in E.
  destruct (check_validation_layer_support drv); [|discriminate E].
  destruct (_ =? VK_SUCCESS); [|discriminate E]. injection E as <- <-.
  step Hctor. rewrite setup_debug_messenger_run in E. cbn zeta in E.
  cbn [ManagedVulkanDevice.instance_ ManagedVulkanDevice.set_instance_] in E.
  destruct (drv_has_proc drv _ _); [|discriminate E].
  destruct (_ =? VK_SUCCESS); [|discriminate E]. injection E as <- <-.
  step Hctor. rewrite pick_run in E. cbn zeta in E.
  cbn [ManagedVulkanDevice.instance_ ManagedVulkanDevice.set_instance_
       ManagedVulkanDevice.set_debug_messenger_] in E.
  destruct (_ >? 0); [|discriminate E].
  set (instance := drv_handle drv t (instance_call params)) in *.
  set (pd := ManagedVulkanDevice.first_suitable drv (drv_physical_devices drv instance)
               VK_NULL_HANDLE) in *.
  destruct (Z.eqb_spec pd VK_NULL_HANDLE) as [|Hpd]; [discriminate E|].
  injection E as <- <-.
  destruct (first_suitable_sound drv (drv_physical_devices drv instance) VK_NULL_HANDLE)
    as [Heq|[Hin Hsuit]]; [contradiction|]. fold pd in Hin, Hsuit.
  step Hctor. rewrite create_logical_device_run in E. cbn zeta in E.
  cbn [ManagedVulkanDevice.queue_family_indices_ ManagedVulkanDevice.physical_device_
       ManagedVulkanDevice.set_queue_family_indices_
       ManagedVulkanDevice.set_physical_device_] in E.
  destruct (compute_family (find_queue_families drv pd)) as [family|] eqn:Efam;
    [|discriminate E].
  destruct (_ =? VK_SUCCESS); [|discriminate E]. injection E as <- <-.
  step Hctor. rewrite create_command_pool_run in E.
  cbn [ManagedVulkanDevice.queue_family_indices_ ManagedVulkanDevice.device_
       ManagedVulkanDevice.set_compute_queue_ ManagedVulkanDevice.set_device_
       ManagedVulkanDevice.set_queue_family_indices_
       ManagedVulkanDevice.set_physical_device_] in E.
  rewrite Efam in E. cbn zeta in E.
  destruct (_ =? VK_SUCCESS); [|discriminate E]. injection E as <- <-.
  step Hctor. unfold assign in Hctor. injection Hctor as <- <-.
  exists family. split; [reflexivity|]. split; [exact Hin|].
  rewrite <- !app_assoc. cbn [app].
  split; [apply managed_device_ext; reflexivity | reflexivity].
Qed.

End ManagedDevice.

(** ** The device manager *)

(** X1: when the constructor of [ManagedVulkanDevice] returns normally, what
    it has issued is, in this order: [vkCreateInstance], the creation of the
    debug messenger on the instance it kept, log lines, [vkCreateDevice] on the
    physical device it kept, [vkGetDeviceQueue] and [vkCreateCommandPool].  The
    physical device is one the instance enumerates; one queue family index,
    which names a family of that device that supports compute, is the one of
    the device's single queue request, of the queue fetched (its queue 0) and
    of the command pool; and the [VulkanDevice] it owns holds the device, the
    queue and the pool of its members. *)
Theorem managed_device_construction (drv : Driver)
    (params : ManagedVulkanDevice.Params) (self0 self : ManagedVulkanDevice.t)
    (t t' : Trace) :
  ManagedVulkanDevice.ctor drv params self0 t = (Ok tt, self, t') ->
  let instance := ManagedVulkanDevice.instance_ self in
  let pd := ManagedVulkanDevice.physical_device_ self in
  let dev := ManagedVulkanDevice.device_ self in
  exists family q logs,
    compute_family (ManagedVulkanDevice.queue_family_indices_ self) = Some family
    /\ In pd (drv_physical_devices drv instance)
    /\ nth_error (drv_queue_families drv pd) (Z.to_nat family) = Some q
    /\ supports_compute q = true
    /\ forallb is_log logs = true
    /\ t' = t ++ [instance_call params; messenger_call instance] ++ logs
              ++ [ vkCreateDevice pd
                     (device_create_info family
                        (filter (listed code_allow_list)
                           (map extensionName (drv_device_extensions drv pd))));
                   vkGetDeviceQueue dev family 0;
                   vkCreateCommandPool dev
                     {| pool_flags := 0; pool_queueFamilyIndex := family |} ]
    /\ ManagedVulkanDevice.owned_device_ self
       = Some {| VulkanDevice.device := dev;
                 VulkanDevice.compute_queue := ManagedVulkanDevice.compute_queue_ self;
                 VulkanDevice.command_pool := ManagedVulkanDevice.command_pool_ self |}.
Proof.
  intros Hctor. apply managed_ctor_Ok in Hctor. cbn zeta in Hctor.
  destruct Hctor as (family & Hfam & Hin & Hself & Ht).
  subst self t'.
  cbn [ManagedVulkanDevice.instance_ ManagedVulkanDevice.physical_device_
       ManagedVulkanDevice.device_ ManagedVulkanDevice.queue_family_indices_
       ManagedVulkanDevice.compute_queue_ ManagedVulkanDevice.command_pool_
       ManagedVulkanDevice.owned_device_].
  set (instance := drv_handle drv t (instance_call params)) in *.
  set (pd := ManagedVulkanDevice.first_suitable drv (drv_physical_devices drv instance)
               VK_NULL_HANDLE) in *.
  destruct (find_queue_families_in_sound (drv_queue_families drv pd) family Hfam)
    as (_ & q & Hq & Hcompute).
  exists family, q.
  exists (flat_map detect_logs (drv_device_extensions drv pd)
          ++ (if existsb is_variable_pointers
                   (map extensionName (drv_device_extensions drv pd))
              then [] else [variable_pointers_warning])).
  split; [exact Hfam|]. split; [exact Hin|].
  split; [exact Hq|]. split; [exact Hcompute|]. split; [|split].
  - rewrite forallb_app, detect_logs_are_logs.
    destruct (existsb is_variable_pointers _); reflexivity.
  - rewrite <- !app_assoc. reflexivity.
  - reflexivity.
Qed.
(* On [demo_driver], from the empty trace: device 102 and its family 1. *)
Lemma managed_device_construction_demo :
  exists family q logs,
    compute_family (ManagedVulkanDevice.queue_family_indices_ demo_managed) = Some family
    /\ In 102 (drv_physical_devices demo_driver 1000)
    /\ nth_error (drv_queue_families demo_driver 102) (Z.to_nat family) = Some q
    /\ supports_compute q = true
    /\ forallb is_log logs = true
    /\ snd (ManagedVulkanDevice.ctor demo_driver demo_params
              ManagedVulkanDevice.uninitialized [])
       = [] ++ [instance_call demo_params; messenger_call 1000] ++ logs
            ++ [ vkCreateDevice 102
                   (device_create_info family
                      (filter (listed code_allow_list)
                         (map extensionName (drv_device_extensions demo_driver 102))));
                 vkGetDeviceQueue 1006 family 0;
                 vkCreateCommandPool 1006
                   {| pool_flags := 0; pool_queueFamilyIndex := family |} ]
    /\ ManagedVulkanDevice.owned_device_ demo_managed
       = Some {| VulkanDevice.device := 1006; VulkanDevice.compute_queue := 1007;
                 VulkanDevice.command_pool := 1008 |}.
Proof.
  apply (managed_device_construction demo_driver demo_params
           ManagedVulkanDevice.uninitialized demo_managed []).
  vm_compute. reflexivity.
Defined.

(** X2: the destructor of a [ManagedVulkanDevice] whose constructor returned
    normally does not throw.  It releases the debug messenger (a step it
    skips without a word when the instance does not offer
    [vkDestroyDebugUtilsMessengerEXT]), then the command pool, the logical
    device and the instance, each once, and the handles it passes are the
    ones the driver wrote when the constructor created these objects. *)
Theorem managed_device_teardown (drv : Driver)
    (params : ManagedVulkanDevice.Params) (self0 self : ManagedVulkanDevice.t)
    (t t' : Trace) :
  ManagedVulkanDevice.ctor drv params self0 t = (Ok tt, self, t') ->
  let instance := ManagedVulkanDevice.instance_ self in
  let messenger := ManagedVulkanDevice.debug_messenger_ self in
  let dev := ManagedVulkanDevice.device_ self in
  let pool := ManagedVulkanDevice.command_pool_ self in
  (exists evs physical_device create_info pool_info,
     t' = t ++ evs
     /\ created_by drv t evs (instance_call params) instance
     /\ created_by drv t evs (messenger_call instance) messenger
     /\ created_by drv t evs (vkCreateDevice physical_device create_info) dev
     /\ created_by drv t evs (vkCreateCommandPool dev pool_info) pool)
  /\
  (forall t2 : Trace,
     ManagedVulkanDevice.dtor drv self t2
     = (Ok tt, self,
        t2 ++ (if drv_has_proc drv instance "vkDestroyDebugUtilsMessengerEXT"
               then [vkDestroyDebugUtilsMessengerEXT instance messenger] else [])
           ++ [vkDestroyCommandPool dev pool; vkDestroyDevice dev;
               vkDestroyInstance instance])).
Proof.
  intros Hctor. cbn zeta. split; [|intros t2; apply managed_dtor_run].
  apply managed_ctor_Ok in Hctor. cbn zeta in Hctor.
  destruct Hctor as (family & _ & _ & -> & ->).
  cbn [ManagedVulkanDevice.instance_ ManagedVulkanDevice.debug_messenger_
       ManagedVulkanDevice.device_ ManagedVulkanDevice.command_pool_].
  set (instance := drv_handle drv t (instance_call params)).
  set (pd := ManagedVulkanDevice.first_suitable drv (drv_physical_devices drv instance)
               VK_NULL_HANDLE).
  set (logs := flat_map detect_logs (drv_device_extensions drv pd) ++ _).
  set (ci := device_create_info family _).
  set (dev := drv_handle drv
                (((t ++ [instance_call params]) ++ [messenger_call instance]) ++ logs)
                (vkCreateDevice pd ci)).
  set (pool_info := {| pool_flags := 0; pool_queueFamilyIndex := family |}).
  exists ([instance_call params; messenger_call instance] ++ logs
          ++ [vkCreateDevice pd ci; vkGetDeviceQueue dev family 0;
              vkCreateCommandPool dev pool_info]),
    pd, ci, pool_info.
  split; [rewrite <- !app_assoc; reflexivity|].
  split; [exists [], (messenger_call instance :: logs
                       ++ [vkCreateDevice pd ci; vkGetDeviceQueue dev family 0;
                           vkCreateCommandPool dev pool_info]);
          split; [reflexivity | now rewrite app_nil_r]|].
  split; [exists [instance_call params],
            (logs ++ [vkCreateDevice pd ci; vkGetDeviceQueue dev family 0;
                      vkCreateCommandPool dev pool_info]);
          split; reflexivity|].
  split.
  - exists ([instance_call params; messenger_call instance] ++ logs),
      [vkGetDeviceQueue dev family 0; vkCreateCommandPool dev pool_info].
    split; [now rewrite <- !app_assoc|].
    subst dev. f_equal. now rewrite <- !app_assoc.
  - exists ([instance_call params; messenger_call instance] ++ logs
            ++ [vkCreateDevice pd ci; vkGetDeviceQueue dev family 0]), [].
    split; [now rewrite <- !app_assoc|].
    f_equal. now rewrite <- !app_assoc.
Qed.

(* The device manager that [demo_driver] builds from the empty trace. *)
Lemma managed_device_teardown_demo :
  (exists evs physical_device create_info pool_info,
     snd (ManagedVulkanDevice.ctor demo_driver demo_params
            ManagedVulkanDevice.uninitialized []) = [] ++ evs
     /\ created_by demo_driver [] evs (instance_call demo_params) 1000
     /\ created_by demo_driver [] evs (messenger_call 1000) 1001
     /\ created_by demo_driver [] evs (vkCreateDevice physical_device create_info) 1006
     /\ created_by demo_driver [] evs (vkCreateCommandPool 1006 pool_info) 1008)
  /\
  (forall t2 : Trace,
     ManagedVulkanDevice.dtor demo_driver demo_managed t2
     = (Ok tt, demo_managed,
        t2 ++ [vkDestroyDebugUtilsMessengerEXT 1000 1001]
           ++ [vkDestroyCommandPool 1006 1008; vkDestroyDevice 1006;
               vkDestroyInstance 1000])).
Proof.
  apply (managed_device_teardown demo_driver demo_params
           ManagedVulkanDevice.uninitialized demo_managed []).
  vm_compute. reflexivity.
Defined.

(** X3: whatever the driver answers, the declaration of a
    [ManagedVulkanDevice] object issues no call that releases anything,
    whether its constructor returns or throws.  So what the constructor had
    created when it throws (and no object, hence no destructor, exists) is
    released by nobody. *)
Theorem managed_device_constructor_releases_nothing {Outer : Type} (drv : Driver)
    (params : ManagedVulkanDevice.Params) :
  emits_only (fun e => negb (is_destroy e))
    (@construct Outer _ ManagedVulkanDevice.uninitialized
       (ManagedVulkanDevice.ctor drv params)).
Proof.
  apply emits_only_construct.
  unfold ManagedVulkanDevice.ctor, ManagedVulkanDevice.create_instance,
    ManagedVulkanDevice.setup_debug_messenger, ManagedVulkanDevice.pick_physical_device,
    ManagedVulkanDevice.create_logical_device, ManagedVulkanDevice.create_command_pool,
    create_debug_utils_messenger_ext.
  cbv beta iota zeta delta [kEnableValidationLayers negb].
  confined.
  - apply emits_only_for_each. intros ext [enabled has].
    unfold ManagedVulkanDevice.detect_extension, TI_TRACE, TI_WARN. confined.
  - unfold TI_WARN_IF, TI_WARN. confined.
Qed.





(** ** Failures are fatal *)

Lemma all_accepted_app (drv : Driver) (evs evs' : Trace) : forall t,
  all_accepted drv t (evs ++ evs')
  = all_accepted drv t evs && all_accepted drv (t ++ evs) evs'.
Proof.
  induction evs as [|e evs IH]; intros t; cbn [all_accepted app].
  - now rewrite app_nil_r.
  - rewrite IH, <- app_assoc, andb_assoc. reflexivity.
Qed.

Lemma all_accepted_silent (drv : Driver) (evs : Trace) : forall t,
  forallb (fun e => negb (reports_status e)) evs = true -> all_accepted drv t evs = true.
Proof.
  induction evs as [|e evs IH]; intros t H; cbn [all_accepted forallb] in *;
    [reflexivity|].
  apply andb_prop in H as [-> H]. now rewrite IH.
Qed.

Lemma logs_are_silent (logs : Trace) :
  forallb is_log logs = true -> forallb (fun e => negb (reports_status e)) logs = true.
Proof.
  intros H. rewrite forallb_forall in *. intros e He. specialize (H e He).
  now destruct e.
Qed.

(* bring the traces of a goal to one shape *)
Ltac flatten_app := repeat progress (rewrite <- ?app_assoc; cbn [app]).

(** X6: the constructor of [ManagedVulkanDevice] stops at the first call
    the driver refuses: every call it has issued whose status it reads, the
    last one apart, was answered with [VK_SUCCESS], and so was the last one
    when the constructor returns normally. *)
Theorem device_construction_stops_at_first_refusal (drv : Driver)
    (params : ManagedVulkanDevice.Params) (self : ManagedVulkanDevice.t) (t : Trace) :
  exists r self' evs,
    ManagedVulkanDevice.ctor drv params self t = (r, self', t ++ evs)
    /\ all_accepted drv t (removelast evs) = true
    /\ (r = Ok tt -> all_accepted drv t evs = true).
Proof.
  unfold ManagedVulkanDevice.ctor. unfold bind at 1. rewrite create_instance_run.
  destruct (check_validation_layer_support drv).
  2:{ do 2 eexists. exists []. rewrite app_nil_r. split; [reflexivity|]. split; [reflexivity|discriminate]. }
  set (c1 := instance_call params).
  destruct (drv_result drv t c1 =? VK_SUCCESS) eqn:E1.
  2:{ do 2 eexists. exists [c1]. split; [reflexivity|]. split; [reflexivity|discriminate]. }
  unfold bind at 1. rewrite setup_debug_messenger_run. cbn zeta.
  cbn [ManagedVulkanDevice.instance_ ManagedVulkanDevice.set_instance_].
  set (c2 := messenger_call _).
  destruct (drv_has_proc drv _ _).
  2:{ do 2 eexists. exists [c1]. split; [reflexivity|]. split; [reflexivity|discriminate]. }
  destruct (drv_result drv (t ++ [c1]) c2 =? VK_SUCCESS) eqn:E2.
  2:{ do 2 eexists. exists [c1; c2]. rewrite <- app_assoc. split; [reflexivity|].
      cbn [removelast all_accepted]. rewrite E1, orb_true_r. split; [reflexivity|discriminate]. }
  unfold bind at 1. rewrite pick_run. cbn zeta.
  assert (H12 : all_accepted drv t [c1; c2] = true).
  { cbn [all_accepted]. now rewrite E1, E2, !orb_true_r. }
  destruct (_ >? 0).
  2:{ do 2 eexists. exists [c1; c2]. rewrite <- app_assoc. split; [reflexivity|].
      cbn [removelast all_accepted]. rewrite E1, orb_true_r. split; [reflexivity|discriminate]. }
  destruct (_ =? VK_NULL_HANDLE).
  { do 2 eexists. exists [c1; c2]. rewrite <- app_assoc. split; [reflexivity|].
    cbn [removelast all_accepted]. rewrite E1, orb_true_r. split; [reflexivity|discriminate]. }
  unfold bind at 1. rewrite create_logical_device_run. cbn zeta.
  cbn [ManagedVulkanDevice.queue_family_indices_ ManagedVulkanDevice.physical_device_
       ManagedVulkanDevice.set_queue_family_indices_
       ManagedVulkanDevice.set_physical_device_].
  destruct (compute_family _) as [family|] eqn:Efam.
  2:{ do 2 eexists. exists [c1; c2]. rewrite <- app_assoc. split; [reflexivity|].
      cbn [removelast all_accepted]. rewrite E1, orb_true_r. split; [reflexivity|discriminate]. }
  match goal with
  | |- context [drv_result drv (_ ++ ?l) (vkCreateDevice ?pd ?ci)] =>
      set (logs := l); set (c3 := vkCreateDevice pd ci)
  end.
  assert (Hlogs : all_accepted drv (t ++ [c1; c2]) logs = true).
  { apply all_accepted_silent, logs_are_silent. subst logs.
    rewrite forallb_app, detect_logs_are_logs.
    destruct (existsb is_variable_pointers _); reflexivity. }
  rewrite <- !app_assoc. cbn [app].
  destruct (drv_result drv (t ++ c1 :: c2 :: logs) c3 =? VK_SUCCESS) eqn:E3.
  2:{ do 2 eexists. exists ([c1; c2] ++ logs ++ [c3]). split; [reflexivity|].
      rewrite app_assoc, removelast_last, all_accepted_app, H12. cbn [app].
      split; [exact Hlogs|discriminate]. }
  unfold bind at 1. rewrite create_command_pool_run.
  cbn [ManagedVulkanDevice.queue_family_indices_ ManagedVulkanDevice.device_
       ManagedVulkanDevice.set_compute_queue_ ManagedVulkanDevice.set_device_
       ManagedVulkanDevice.set_queue_family_indices_
       ManagedVulkanDevice.set_physical_device_].
  rewrite Efam. cbn zeta.
  match goal with
  | |- context [drv_result drv (_ ++ _ :: _ :: logs ++ [c3; ?q]) ?c] =>
      set (c4 := q); set (c5 := c)
  end.
  assert (H1234 : all_accepted drv t ([c1; c2] ++ logs ++ [c3; c4]) = true).
  { rewrite !all_accepted_app, H12. cbn [app]. rewrite Hlogs.
    cbn [all_accepted]. rewrite <- !app_assoc. cbn [app]. now rewrite E3, orb_true_r. }
  destruct (drv_result drv (t ++ c1 :: c2 :: logs ++ [c3; c4]) c5 =? VK_SUCCESS) eqn:E5.
  2:{ do 2 eexists. exists (([c1; c2] ++ logs ++ [c3; c4]) ++ [c5]). split.
      - flatten_app. reflexivity.
      - rewrite removelast_last. split; [exact H1234|discriminate]. }
  unfold bind, this, assign.
  do 2 eexists. exists (([c1; c2] ++ logs ++ [c3; c4]) ++ [c5]). split.
  - flatten_app. reflexivity.
  - rewrite removelast_last. split; [exact H1234|]. intros _.
    rewrite all_accepted_app, H1234. cbn [all_accepted andb].
    flatten_app. now rewrite E5, orb_true_r.
Qed.

(** ** Queue families *)

Lemma Forall2_nth {A B} (R : A -> B -> Prop) (l : list A) (l' : list B) d d' :
  Forall2 R l l' -> R d d' -> forall n, R (nth n l d) (nth n l' d').
Proof.
  intros H Hd. induction H as [|x y l l' Hxy _ IH]; intros [|n]; cbn; auto.
Qed.

Lemma for_int_ext {S R} (body body' : Z -> S -> S + R) hi s :
  (forall i s, body i s = body' i s) -> for_int hi body s = for_int hi body' s.
Proof. intros H. unfold for_int. now apply for_int_from_ext. Qed.

(** X7: a physical device with fewer than 2^31 queue families is suitable
    exactly when one of its queue families supports compute. *)
Theorem device_suitable_iff_compute_family (drv : Driver) (device : Handle) :
  Z.of_nat (List.length (drv_queue_families drv device)) < 2 ^ 31 ->
  is_device_suitable drv device = true
  <-> Exists (fun q => supports_compute q = true) (drv_queue_families drv device).
Proof.
  intros Hsize. split.
  - intros Hsuit. apply suitable_has_compute in Hsuit as (k & q & _ & Hq & Hcompute).
    apply Exists_exists. exists q. split; [|exact Hcompute].
    eapply nth_error_In, Hq.
  - intros Hex. apply first_index_Exists in Hex as (i & Hi).
    unfold is_device_suitable, is_complete, find_queue_families.
    rewrite find_queue_families_in_first by exact Hsize. rewrite Hi.
    destruct (first_index compute_only _); reflexivity.
Qed.

(* Device 102 of [demo_driver]: two families, both with compute. *)
Lemma device_suitable_demo :
  is_device_suitable demo_driver 102 = true
  <-> Exists (fun q => supports_compute q = true) (drv_queue_families demo_driver 102).
Proof.
  apply (device_suitable_iff_compute_family demo_driver 102). vm_compute. reflexivity.
Defined.

(** X8: the family that [find_queue_families] selects depends on nothing but
    the compute and the graphics bit of each family, in their order: the
    number of queues of a family and its other capability bits (transfer and
    sparse binding, which the function masks out, and any further one) have no
    influence. *)
Theorem queue_family_choice_reads_two_bits (qs qs' : list VkQueueFamilyProperties) :
  Forall2 (fun q q' => supports_compute q = supports_compute q'
                       /\ supports_graphics q = supports_graphics q') qs qs' ->
  find_queue_families_in qs = find_queue_families_in qs'.
Proof.
  intros Hsame.
  assert (Hat : forall i,
             supports_compute (queue_family_at qs i)
             = supports_compute (queue_family_at qs' i)
             /\ supports_graphics (queue_family_at qs i)
                = supports_graphics (queue_family_at qs' i)).
  { intros i. unfold queue_family_at.
    apply (Forall2_nth _ _ _ _ _ Hsame). split; reflexivity. }
  unfold find_queue_families_in. rewrite (Forall2_length Hsame).
  rewrite (for_int_ext (compute_only_step qs) (compute_only_step qs')).
  2:{ intros i s. rewrite !compute_only_step_select. unfold select_step, compute_only.
      destruct (Hat i) as [-> ->]. reflexivity. }
  destruct (for_int _ (compute_only_step qs') _) as [indices|r]; [|reflexivity].
  rewrite (for_int_ext (any_compute_step qs) (any_compute_step qs')); [reflexivity|].
  intros i s. rewrite !any_compute_step_select. unfold select_step.
  destruct (Hat i) as [-> _]. reflexivity.
Qed.

(* A graphics family and a compute family, against the same two with more
   queues and with the transfer, sparse-binding and protected bits set. *)
Lemma queue_family_choice_demo :
  find_queue_families_in [ {| queueFlags := 1; queueCount := 1 |};
                           {| queueFlags := 2; queueCount := 1 |} ]
  = find_queue_families_in [ {| queueFlags := 13; queueCount := 16 |};
                             {| queueFlags := 30; queueCount := 2 |} ].
Proof.
  apply queue_family_choice_reads_two_bits.
  repeat constructor.
Defined.

(** ** The pipeline from construction to destruction *)

Section PipelineRuns.

Variable drv : Driver.
Variable params : VulkanPipeline.Params.

Lemma bail_run {Self} (res : VkResult) (msg : string) (self : Self) (t : Trace) :
  BAIL_ON_VK_BAD_RESULT res msg self t
  = (if res =? VK_SUCCESS then Ok tt else Throw msg, self, t).
Proof. unfold BAIL_ON_VK_BAD_RESULT. now destruct (res =? VK_SUCCESS). Qed.

Lemma create_descriptor_set_layout_run self t :
  exists create_info,
    let call := vkCreateDescriptorSetLayout (VulkanPipeline.device_ self) create_info in
    VulkanPipeline.create_descriptor_set_layout drv params self t
    = (if drv_result drv t call =? VK_SUCCESS then Ok tt
       else Throw "failed to create descriptor set layout",
       VulkanPipeline.set_descriptor_set_layout_ (drv_handle drv t call) self,
       t ++ [call]).
Proof.
  eexists. cbn zeta. unfold VulkanPipeline.create_descriptor_set_layout.
  unfold bind, this, vk_create, assign. cbn beta iota zeta. apply bail_run.
Qed.

Lemma create_compute_pipeline_run self t :
  let dev := VulkanPipeline.device_ self in
  let module_call :=
    vkCreateShaderModule dev
      {| codeSize := code_size (VulkanPipeline.code params);
         pCode := code_data (VulkanPipeline.code params) |} in
  let shader_module := drv_handle drv t module_call in
  let layout_call :=
    vkCreatePipelineLayout dev
      {| setLayoutCount := 1;
         pl_pSetLayouts := [VulkanPipeline.descriptor_set_layout_ self];
         pushConstantRangeCount := 0 |} in
  let pipeline_layout := drv_handle drv (t ++ [module_call]) layout_call in
  let pipeline_call :=
    vkCreateComputePipelines dev VK_NULL_HANDLE 1
      [{| stage := {| stage_ := VK_SHADER_STAGE_COMPUTE_BIT;
                      module_ := shader_module; pName := "main" |};
          layout := pipeline_layout |}] in
  let pipeline := drv_handle drv (t ++ [module_call; layout_call]) pipeline_call in
  VulkanPipeline.create_compute_pipeline drv params self t
  = if drv_result drv t module_call =? VK_SUCCESS then
      if drv_result drv (t ++ [module_call]) layout_call =? VK_SUCCESS then
        if drv_result drv (t ++ [module_call; layout_call]) pipeline_call =? VK_SUCCESS then
          (Ok tt,
           VulkanPipeline.set_pipeline_ pipeline
             (VulkanPipeline.set_pipeline_layout_ pipeline_layout self),
           t ++ [module_call; layout_call; pipeline_call;
                 vkDestroyShaderModule dev shader_module])
        else
          (Throw "failed to create pipeline",
           VulkanPipeline.set_pipeline_ pipeline
             (VulkanPipeline.set_pipeline_layout_ pipeline_layout self),
           t ++ [module_call; layout_call; pipeline_call])
      else
        (Throw "failed to create pipeline layout",
         VulkanPipeline.set_pipeline_layout_ pipeline_layout self,
         t ++ [module_call; layout_call])
    else (Throw "failed to create shader module", self, t ++ [module_call]).
Proof.
  cbn zeta. unfold VulkanPipeline.create_compute_pipeline, create_shader_module. run_m.
  destruct (drv_result drv t _ =? VK_SUCCESS); [|reflexivity]. run_m.
  destruct (drv_result drv (t ++ [_]) _ =? VK_SUCCESS); [|now rewrite <- app_assoc].
  run_m. rewrite <- !app_assoc. cbn [app].
  destruct (drv_result drv _ _ =? VK_SUCCESS); run_m; rewrite <- ?app_assoc; reflexivity.
Qed.

Lemma create_descriptor_pool_run self t :
  exists create_info,
    let call := vkCreateDescriptorPool (VulkanPipeline.device_ self) create_info in
    VulkanPipeline.create_descriptor_pool drv params self t
    = (if drv_result drv t call =? VK_SUCCESS then Ok tt
       else Throw "failed to create descriptor pool",
       VulkanPipeline.set_descriptor_pool_ (drv_handle drv t call) self,
       t ++ [call]).
Proof.
  eexists. cbn zeta. unfold VulkanPipeline.create_descriptor_pool.
  unfold bind, this, vk_create, assign. cbn beta iota zeta. apply bail_run.
Qed.

Lemma create_descriptor_sets_run self t :
  exists n descriptor_writes,
    let dev := VulkanPipeline.device_ self in
    let call :=
      vkAllocateDescriptorSets dev
        {| descriptorPool := VulkanPipeline.descriptor_pool_ self;
           descriptorSetCount := 1;
           pSetLayouts := [VulkanPipeline.descriptor_set_layout_ self] |} in
    VulkanPipeline.create_descriptor_sets drv params self t
    = if drv_result drv t call =? VK_SUCCESS then
        (Ok tt, VulkanPipeline.set_descriptor_set_ (drv_handle drv t call) self,
         t ++ [call; vkUpdateDescriptorSets dev n descriptor_writes 0])
      else
        (Throw "failed to allocate descriptor set",
         VulkanPipeline.set_descriptor_set_ (drv_handle drv t call) self, t ++ [call]).
Proof.
  do 2 eexists. cbn zeta. unfold VulkanPipeline.create_descriptor_sets.
  unfold bind at 1 2 3 4, this, vk_create, assign. cbn beta iota zeta.
  rewrite bail_run. destruct (_ =? VK_SUCCESS); [|reflexivity].
  unfold emit. rewrite <- app_assoc. reflexivity.
Qed.

Lemma pipeline_dtor_run self t :
  let dev := VulkanPipeline.device_ self in
  VulkanPipeline.dtor self t
  = (Ok tt, self,
     t ++ [ vkDestroyDescriptorPool dev (VulkanPipeline.descriptor_pool_ self);
            vkDestroyPipeline dev (VulkanPipeline.pipeline_ self);
            vkDestroyPipelineLayout dev (VulkanPipeline.pipeline_layout_ self);
            vkDestroyDescriptorSetLayout dev (VulkanPipeline.descriptor_set_layout_ self) ]).
Proof.
  cbn zeta. unfold VulkanPipeline.dtor. run_m. rewrite <- !app_assoc. reflexivity.
Qed.

End PipelineRuns.

(** ** The compute pipeline *)

(** X9: [create_compute_pipeline] first creates the shader module, and it
    destroys that module, as its last call, exactly when it returns normally.
    When it throws it has released nothing: a module that was created stays
    when the creation of the pipeline layout or of the pipeline fails. *)
Theorem shader_module_released_only_on_success (drv : Driver)
    (params : VulkanPipeline.Params) (self : VulkanPipeline.t) (t : Trace) :
  let dev := VulkanPipeline.device_ self in
  let create :=
    vkCreateShaderModule dev
      {| codeSize := code_size (VulkanPipeline.code params);
         pCode := code_data (VulkanPipeline.code params) |} in
  let shader_module := drv_handle drv t create in
  exists r self' evs,
    VulkanPipeline.create_compute_pipeline drv params self t = (r, self', t ++ create :: evs)
    /\ (r = Ok tt ->
        exists evs', evs = evs' ++ [vkDestroyShaderModule dev shader_module]
                     /\ existsb is_destroy evs' = false)
    /\ (r <> Ok tt -> existsb is_destroy evs = false).
Proof.
  cbn zeta. rewrite create_compute_pipeline_run. cbn zeta.
  destruct (drv_result drv t _ =? VK_SUCCESS).
  2:{ do 2 eexists. exists []. split; [reflexivity|]. split; [discriminate|reflexivity]. }
  destruct (drv_result drv (t ++ [_]) _ =? VK_SUCCESS).
  2:{ do 3 eexists. split; [reflexivity|]. split; [discriminate|reflexivity]. }
  destruct (drv_result drv (t ++ [_; _]) _ =? VK_SUCCESS).
  2:{ do 3 eexists. split; [reflexivity|]. split; [discriminate|reflexivity]. }
  do 3 eexists. split; [reflexivity|]. split; [|congruence].
  intros _. eexists [_; _]. split; reflexivity.
Qed.

(** X10: the destructor of a [VulkanPipeline] whose constructor returned
    normally does not throw and issues four calls on the device the pipeline
    was built for: it destroys the descriptor pool, the pipeline, the pipeline
    layout and the descriptor set layout, in this order, and the handles it
    passes are the ones the driver wrote when the constructor created these
    objects. *)
Theorem pipeline_teardown (drv : Driver) (params : VulkanPipeline.Params)
    (self0 self : VulkanPipeline.t) (t t' : Trace) :
  VulkanPipeline.ctor drv params self0 t = (Ok tt, self, t') ->
  let dev := VulkanDevice.device (VulkanPipeline.device params) in
  (exists evs set_layout_info layout_info n pipeline_infos pool_info,
     t' = t ++ evs
     /\ created_by drv t evs (vkCreateDescriptorSetLayout dev set_layout_info)
          (VulkanPipeline.descriptor_set_layout_ self)
     /\ created_by drv t evs (vkCreatePipelineLayout dev layout_info)
          (VulkanPipeline.pipeline_layout_ self)
     /\ created_by drv t evs (vkCreateComputePipelines dev VK_NULL_HANDLE n pipeline_infos)
          (VulkanPipeline.pipeline_ self)
     /\ created_by drv t evs (vkCreateDescriptorPool dev pool_info)
          (VulkanPipeline.descriptor_pool_ self))
  /\
  (forall t2 : Trace,
     VulkanPipeline.dtor self t2
     = (Ok tt, self,
        t2 ++ [ vkDestroyDescriptorPool dev (VulkanPipeline.descriptor_pool_ self);
                vkDestroyPipeline dev (VulkanPipeline.pipeline_ self);
                vkDestroyPipelineLayout dev (VulkanPipeline.pipeline_layout_ self);
                vkDestroyDescriptorSetLayout dev
                  (VulkanPipeline.descriptor_set_layout_ self) ])).
Proof.
  intros Hctor dev. unfold VulkanPipeline.ctor in Hctor.
  step Hctor. step Hctor.
  match type of E with
  | VulkanPipeline.create_descriptor_set_layout _ _ ?s ?tr = _ =>
      destruct (create_descriptor_set_layout_run drv params s tr) as (ci1 & E1)
  end.
  cbn zeta in E1. rewrite E1 in E. clear E1.
  cbn [VulkanPipeline.device_ VulkanPipeline.set_device_] in E. fold dev in E.
  set (c1 := vkCreateDescriptorSetLayout dev ci1) in *.
  set (layout := drv_handle drv t c1) in *.
  destruct (drv_result drv t c1 =? VK_SUCCESS); [|discriminate E]. injection E as <- <-.
  step Hctor. rewrite create_compute_pipeline_run in E. cbn zeta in E.
  cbn [VulkanPipeline.device_ VulkanPipeline.descriptor_set_layout_
       VulkanPipeline.set_descriptor_set_layout_ VulkanPipeline.set_device_] in E.
  set (c2 := vkCreateShaderModule dev _) in *.
  set (sm := drv_handle drv (t ++ [c1]) c2) in *.
  set (c3 := vkCreatePipelineLayout dev _) in *.
  set (pl := drv_handle drv ((t ++ [c1]) ++ [c2]) c3) in *.
  set (c4 := vkCreateComputePipelines dev VK_NULL_HANDLE 1 _) in *.
  set (p := drv_handle drv ((t ++ [c1]) ++ [c2; c3]) c4) in *.
  destruct (drv_result drv (t ++ [c1]) c2 =? VK_SUCCESS); [|discriminate E].
  destruct (drv_result drv ((t ++ [c1]) ++ [c2]) c3 =? VK_SUCCESS); [|discriminate E].
  destruct (drv_result drv ((t ++ [c1]) ++ [c2; c3]) c4 =? VK_SUCCESS); [|discriminate E].
  injection E as <- <-.
  step Hctor.
  match type of E with
  | VulkanPipeline.create_descriptor_pool _ _ ?s ?tr = _ =>
      destruct (create_descriptor_pool_run drv params s tr) as (ci5 & E5)
  end.
  cbn zeta in E5. rewrite E5 in E. clear E5.
  cbn [VulkanPipeline.device_ VulkanPipeline.set_pipeline_
       VulkanPipeline.set_pipeline_layout_
       VulkanPipeline.set_descriptor_set_layout_ VulkanPipeline.set_device_] in E.
  set (c5 := vkCreateDescriptorPool dev ci5) in *.
  set (pool := drv_handle drv ((t ++ [c1]) ++ [c2; c3; c4; vkDestroyShaderModule dev sm]) c5)
    in *.
  destruct (drv_result drv _ c5 =? VK_SUCCESS); [|discriminate E]. injection E as <- <-.
  apply create_descriptor_sets_Ok in Hctor as (ds & -> & ->).
  cbn [VulkanPipeline.device_ VulkanPipeline.descriptor_set_layout_
       VulkanPipeline.pipeline_layout_ VulkanPipeline.pipeline_
       VulkanPipeline.descriptor_pool_
       VulkanPipeline.set_descriptor_set_ VulkanPipeline.set_descriptor_pool_
       VulkanPipeline.set_pipeline_ VulkanPipeline.set_pipeline_layout_
       VulkanPipeline.set_descriptor_set_layout_ VulkanPipeline.set_device_].
  split.
  - eexists. exists ci1. do 4 eexists. split; [rewrite <- !app_assoc; reflexivity|].
    cbn [app]. split; [|split; [|split]].
    + exists []. eexists. split; [reflexivity|]. now rewrite app_nil_r.
    + exists [c1; c2]. eexists. split; [reflexivity|].
      subst pl. f_equal. now rewrite <- app_assoc.
    + exists [c1; c2; c3]. eexists. split; [reflexivity|].
      subst p. f_equal. now rewrite <- app_assoc.
    + exists [c1; c2; c3; c4; vkDestroyShaderModule dev sm]. eexists.
      split; [reflexivity|]. subst pool. f_equal. now rewrite <- app_assoc.
  - intros t2. rewrite pipeline_dtor_run. reflexivity.
Qed.

(* The pipeline that [demo_driver] builds for [demo_pipeline_params]. *)
Lemma pipeline_teardown_demo :
  (exists evs set_layout_info layout_info n pipeline_infos pool_info,
     snd (VulkanPipeline.ctor demo_driver demo_pipeline_params
            VulkanPipeline.uninitialized []) = [] ++ evs
     /\ created_by demo_driver [] evs (vkCreateDescriptorSetLayout 1 set_layout_info) 1000
     /\ created_by demo_driver [] evs (vkCreatePipelineLayout 1 layout_info) 1002
     /\ created_by demo_driver [] evs
          (vkCreateComputePipelines 1 VK_NULL_HANDLE n pipeline_infos) 1003
     /\ created_by demo_driver [] evs (vkCreateDescriptorPool 1 pool_info) 1005)
  /\
  (forall t2 : Trace,
     VulkanPipeline.dtor demo_pipeline t2
     = (Ok tt, demo_pipeline,
        t2 ++ [ vkDestroyDescriptorPool 1 1005; vkDestroyPipeline 1 1003;
                vkDestroyPipelineLayout 1 1002; vkDestroyDescriptorSetLayout 1 1000 ])).
Proof.
  apply (pipeline_teardown demo_driver demo_pipeline_params
           VulkanPipeline.uninitialized demo_pipeline []).
  vm_compute. reflexivity.
Defined.

(** X11: whatever the driver answers, the only object that the declaration
    of a [VulkanPipeline] object releases is the shader module: it destroys no
    descriptor set layout, pipeline layout, pipeline or descriptor pool,
    whether its constructor returns or throws.  So those of the four that the
    constructor had created when it throws (and no object, hence no
    destructor, exists) are released by nobody. *)
Theorem pipeline_constructor_keeps_its_objects {Outer : Type} (drv : Driver)
    (params : VulkanPipeline.Params) :
  emits_only (fun e => negb (is_pipeline_release e))
    (@construct Outer _ VulkanPipeline.uninitialized (VulkanPipeline.ctor drv params)).
Proof.
  apply emits_only_construct.
  unfold VulkanPipeline.ctor, VulkanPipeline.create_descriptor_set_layout,
    VulkanPipeline.create_compute_pipeline, VulkanPipeline.create_descriptor_pool,
    VulkanPipeline.create_descriptor_sets, create_shader_module.
  cbv beta iota zeta. confined.
Qed.

(** X12: the constructor of [VulkanPipeline] stops at the first call the
    driver refuses: every call it has issued whose status it reads, the last
    one apart, was answered with [VK_SUCCESS], and so was the last one when
    the constructor returns normally. *)
Theorem pipeline_construction_stops_at_first_refusal (drv : Driver)
    (params : VulkanPipeline.Params) (self : VulkanPipeline.t) (t : Trace) :
  exists r self' evs,
    VulkanPipeline.ctor drv params self t = (r, self', t ++ evs)
    /\ all_accepted drv t (removelast evs) = true
    /\ (r = Ok tt -> all_accepted drv t evs = true).
Proof.
  unfold VulkanPipeline.ctor. unfold bind at 1, assign at 1. cbn beta iota.
  set (dev := VulkanDevice.device (VulkanPipeline.device params)).
  unfold bind at 1.
  destruct (create_descriptor_set_layout_run drv params
              (VulkanPipeline.set_device_ dev self) t) as (ci1 & ->).
  cbn [VulkanPipeline.device_ VulkanPipeline.set_device_].
  set (c1 := vkCreateDescriptorSetLayout dev ci1).
  destruct (drv_result drv t c1 =? VK_SUCCESS) eqn:E1.
  2:{ do 2 eexists. exists [c1]. split; [reflexivity|]. split; [reflexivity|discriminate]. }
  unfold bind at 1. rewrite create_compute_pipeline_run. cbn zeta.
  cbn [VulkanPipeline.device_ VulkanPipeline.descriptor_set_layout_
       VulkanPipeline.set_descriptor_set_layout_ VulkanPipeline.set_device_].
  fold dev.
  set (c2 := vkCreateShaderModule dev _).
  set (sm := drv_handle drv (t ++ [c1]) c2).
  set (c3 := vkCreatePipelineLayout dev _).
  set (c4 := vkCreateComputePipelines dev VK_NULL_HANDLE 1 _).
  flatten_app.
  destruct (drv_result drv (t ++ [c1]) c2 =? VK_SUCCESS) eqn:E2.
  2:{ do 2 eexists. exists [c1; c2]. split; [reflexivity|].
      cbn [removelast all_accepted]. rewrite E1, orb_true_r.
      split; [reflexivity|discriminate]. }
  destruct (drv_result drv (t ++ [c1; c2]) c3 =? VK_SUCCESS) eqn:E3.
  2:{ do 2 eexists. exists [c1; c2; c3]. split; [reflexivity|].
      cbn [removelast all_accepted]. rewrite E1, E2, !orb_true_r.
      split; [reflexivity|discriminate]. }
  destruct (drv_result drv (t ++ [c1; c2; c3]) c4 =? VK_SUCCESS) eqn:E4.
  2:{ do 2 eexists. exists [c1; c2; c3; c4]. split; [reflexivity|].
      cbn [removelast all_accepted]. flatten_app. rewrite E1, E2, E3, !orb_true_r.
      split; [reflexivity|discriminate]. }
  set (c5 := vkDestroyShaderModule dev sm).
  assert (H5 : all_accepted drv t [c1; c2; c3; c4; c5] = true).
  { cbn [all_accepted]. flatten_app. now rewrite E1, E2, E3, E4, !orb_true_r. }
  unfold bind at 1.
  match goal with
  | |- context [VulkanPipeline.create_descriptor_pool drv params ?s ?tr] =>
      destruct (create_descriptor_pool_run drv params s tr) as (ci6 & ->)
  end.
  cbn [VulkanPipeline.device_ VulkanPipeline.set_pipeline_
       VulkanPipeline.set_pipeline_layout_
       VulkanPipeline.set_descriptor_set_layout_ VulkanPipeline.set_device_].
  fold dev. set (c6 := vkCreateDescriptorPool dev ci6).
  destruct (drv_result drv (t ++ [c1; c2; c3; c4; c5]) c6 =? VK_SUCCESS) eqn:E6.
  2:{ do 2 eexists. exists ([c1; c2; c3; c4; c5] ++ [c6]).
      split; [flatten_app; reflexivity|]. rewrite removelast_last.
      split; [exact H5|discriminate]. }
  match goal with
  | |- context [VulkanPipeline.create_descriptor_sets drv params ?s ?tr] =>
      destruct (create_descriptor_sets_run drv params s tr) as (n & writes & ->)
  end.
  cbn [VulkanPipeline.device_ VulkanPipeline.descriptor_pool_
       VulkanPipeline.descriptor_set_layout_ VulkanPipeline.set_descriptor_pool_
       VulkanPipeline.set_pipeline_ VulkanPipeline.set_pipeline_layout_
       VulkanPipeline.set_descriptor_set_layout_ VulkanPipeline.set_device_].
  fold dev. flatten_app. set (c7 := vkAllocateDescriptorSets dev _).
  assert (H6 : all_accepted drv t ([c1; c2; c3; c4; c5] ++ [c6]) = true).
  { rewrite all_accepted_app, H5. cbn [all_accepted]. now rewrite E6, orb_true_r. }
  destruct (drv_result drv (t ++ [c1; c2; c3; c4; c5; c6]) c7 =? VK_SUCCESS) eqn:E7.
  - do 2 eexists.
    exists (([c1; c2; c3; c4; c5] ++ [c6]) ++ [c7; vkUpdateDescriptorSets dev n writes 0]).
    split; [flatten_app; reflexivity|].
    assert (H7 : all_accepted drv t
                   (([c1; c2; c3; c4; c5] ++ [c6])
                    ++ [c7; vkUpdateDescriptorSets dev n writes 0]) = true).
    { rewrite all_accepted_app, H6. cbn [all_accepted]. flatten_app.
      now rewrite E7, orb_true_r. }
    split; [|intros _; exact H7].
    change [c7; vkUpdateDescriptorSets dev n writes 0]
      with ([c7] ++ [vkUpdateDescriptorSets dev n writes 0]).
    rewrite (app_assoc _ [c7]), removelast_last.
    rewrite all_accepted_app, H6. cbn [all_accepted]. flatten_app.
    now rewrite E7, orb_true_r.
  - do 2 eexists. exists (([c1; c2; c3; c4; c5] ++ [c6]) ++ [c7]).
    split; [flatten_app; reflexivity|]. rewrite removelast_last.
    split; [exact H6|discriminate].
Qed.

(** ** Builders after [build], and the copy command *)

Lemma spent_run_op (drv : Driver) (op : BuilderOp) (b : VulkanCommandBuilder.t) (t : Trace) :
  VulkanCommandBuilder.command_buffer_ b = VK_NULL_HANDLE ->
  exists r b' evs,
    run_op drv op b t = (r, b', t ++ evs)
    /\ VulkanCommandBuilder.command_buffer_ b' = VK_NULL_HANDLE
    /\ Forall (fun e => command_buffer_of e = Some VK_NULL_HANDLE) evs.
Proof.
  intros Hnull. destruct op as [pipeline n|src dst size direction|]; cbn [run_op].
  - rewrite append_run. cbn zeta. rewrite Hnull. do 3 eexists.
    split; [reflexivity|]. split; [exact Hnull|]. repeat constructor.
  - rewrite copy_run. rewrite Hnull. do 3 eexists.
    split; [reflexivity|]. split; [exact Hnull|].
    destruct direction; repeat constructor.
  - unfold bind. rewrite build_run. cbn zeta. rewrite Hnull.
    destruct (_ =? VK_SUCCESS); do 3 eexists;
      (split; [reflexivity|]); (split; [assumption || reflexivity|]); repeat constructor.
Qed.

Lemma spent_run_ops (drv : Driver) (ops : list BuilderOp) :
  forall (b : VulkanCommandBuilder.t) (t : Trace),
  VulkanCommandBuilder.command_buffer_ b = VK_NULL_HANDLE ->
  exists r b' evs,
    run_ops drv ops b t = (r, b', t ++ evs)
    /\ VulkanCommandBuilder.command_buffer_ b' = VK_NULL_HANDLE
    /\ Forall (fun e => command_buffer_of e = Some VK_NULL_HANDLE) evs.
Proof.
  induction ops as [|op ops IH]; intros b t Hnull.
  - exists (Ok tt), b, []. cbn [run_ops]. unfold ret. rewrite app_nil_r. auto.
  - cbn [run_ops]. unfold bind.
    destruct (spent_run_op drv op b t Hnull) as (r & b1 & evs & -> & Hb1 & Hevs).
    destruct r as [[]|w|].
    + destruct (IH b1 (t ++ evs) Hb1) as (r' & b2 & evs' & -> & Hb2 & Hevs').
      exists r', b2, (evs ++ evs'). rewrite app_assoc. split; [reflexivity|].
      split; [exact Hb2|]. apply Forall_app. auto.
    + exists (Throw w), b1, evs. auto.
    + exists Terminate, b1, evs. auto.
Qed.

(** X13: nothing stops the use of a builder after [build] has returned
    normally: whatever member functions are then called on it, in any order,
    every command that [append] and [copy] record and every
    [vkEndCommandBuffer] that [build] issues names the null handle as its
    command buffer, and the builder stays without a buffer. *)
Theorem spent_builder_addresses_null_handle (drv : Driver)
    (b b' : VulkanCommandBuilder.t) (t t' : Trace) (res : Handle) :
  VulkanCommandBuilder.build drv b t = (Ok res, b', t') ->
  forall (ops : list BuilderOp) (t2 : Trace),
  exists r b'' evs,
    run_ops drv ops b' t2 = (r, b'', t2 ++ evs)
    /\ Forall (fun e => command_buffer_of e = Some VK_NULL_HANDLE) evs
    /\ state_of b'' = Spent.
Proof.
  intros Hbuild ops t2. rewrite build_run in Hbuild. cbn zeta in Hbuild.
  destruct (_ =? VK_SUCCESS); [|discriminate Hbuild]. injection Hbuild as _ <- <-.
  destruct (spent_run_ops drv ops {| VulkanCommandBuilder.command_buffer_ := VK_NULL_HANDLE |}
              t2 eq_refl) as (r & b2 & evs & Hrun & Hb2 & Hevs).
  exists r, b2, evs. split; [exact Hrun|]. split; [exact Hevs|].
  unfold state_of. now rewrite Hb2.
Qed.

(* The builder of buffer 1000 on [demo_driver], built and then used for a
   copy and a second [build]. *)
Lemma spent_builder_demo :
  exists r b'' evs,
    run_ops demo_driver [op_copy 7 8 16 H2D; op_build]
      {| VulkanCommandBuilder.command_buffer_ := VK_NULL_HANDLE |} []
    = (r, b'', [] ++ evs)
    /\ Forall (fun e => command_buffer_of e = Some VK_NULL_HANDLE) evs
    /\ state_of b'' = Spent.
Proof.
  apply (spent_builder_addresses_null_handle demo_driver
           {| VulkanCommandBuilder.command_buffer_ := 1000 |}
           {| VulkanCommandBuilder.command_buffer_ := VK_NULL_HANDLE |}
           [] [vkEndCommandBuffer 1000] 1000).
  reflexivity.
Defined.

(** X14: what [record_copy_buffer_command] does, by the driver's answers.
    When the allocation, the begin and the end of the recording succeed, it
    returns the buffer that was allocated, after exactly: the allocation, the
    begin, the commands of the copy and one [vkEndCommandBuffer].  When the
    allocation or the begin fails it throws after that call.  When the end
    fails, the builder's destructor ends the recording of a non-null buffer a
    second time; the exception of [build] reaches the caller if that second
    call succeeds, and the program is terminated if it fails too. *)
Theorem record_copy_buffer_command_outcome {Outer : Type} (drv : Driver)
    (device : VulkanDevice.t) (src_buffer dst_buffer : Handle) (size : Z)
    (direction : VulkanCopyBufferDirection) (outer : Outer) (t : Trace) :
  let cb := drv_handle drv t (alloc_call device) in
  let finish := vkEndCommandBuffer cb in
  let recorded :=
    t ++ [alloc_call device; begin_call cb]
      ++ copy_commands cb src_buffer dst_buffer size direction in
  record_copy_buffer_command drv device src_buffer dst_buffer size direction outer t
  = if drv_result drv t (alloc_call device) =? VK_SUCCESS then
      if drv_result drv (t ++ [alloc_call device]) (begin_call cb) =? VK_SUCCESS then
        if drv_result drv recorded finish =? VK_SUCCESS then
          (Ok cb, outer, recorded ++ [finish])
        else if cb =? VK_NULL_HANDLE then
          (Throw "failed to record command buffer", outer, recorded ++ [finish])
        else
          (if drv_result drv (recorded ++ [finish]) finish =? VK_SUCCESS
           then Throw "failed to record command buffer" else Terminate,
           outer, recorded ++ [finish; finish])
      else
        (Throw "failed to begin recording command buffer", outer,
         t ++ [alloc_call device; begin_call cb])
    else (Throw "failed to allocate command buffer", outer, t ++ [alloc_call device]).
Proof.
  cbn zeta. unfold record_copy_buffer_command. unfold bind at 1. unfold construct.
  rewrite ctor_run. cbn zeta.
  destruct (drv_result drv t (alloc_call device) =? VK_SUCCESS); [|reflexivity].
  set (cb := drv_handle drv t (alloc_call device)).
  destruct (drv_result drv (t ++ [alloc_call device]) (begin_call cb) =? VK_SUCCESS);
    [|reflexivity].
  unfold scoped, bind. rewrite copy_run, build_run. cbn zeta.
  cbn [VulkanCommandBuilder.command_buffer_].
  rewrite <- !app_assoc. cbn [app].
  destruct (drv_result drv _ (vkEndCommandBuffer cb) =? VK_SUCCESS).
  - rewrite dtor_run. cbn zeta. cbn [VulkanCommandBuilder.command_buffer_].
    change (VK_NULL_HANDLE =? VK_NULL_HANDLE) with true. cbn iota.
    rewrite <- ?app_assoc. reflexivity.
  - rewrite dtor_run. cbn zeta. cbn [VulkanCommandBuilder.command_buffer_].
    destruct (cb =? VK_NULL_HANDLE).
    + rewrite <- ?app_assoc. reflexivity.
    + rewrite <- ?app_assoc. cbn [app].
      destruct (drv_result drv _ (vkEndCommandBuffer cb) =? VK_SUCCESS);
        rewrite <- ?app_assoc; reflexivity.
Qed.

(** ** The stream in use *)

Lemma launch_run (drv : Driver) (command : Handle) (stream : VulkanStream.t) (t : Trace) :
  VulkanStream.launch drv command stream t
  = (if drv_result drv t (submit_call stream command) =? VK_SUCCESS then Ok tt
     else Throw "failed to submit command buffer",
     stream, t ++ [submit_call stream command]).
Proof.
  unfold VulkanStream.launch, submit_call; unfold_m.
  destruct (_ =? VK_SUCCESS); reflexivity.
Qed.

Lemma launch_all_run (drv : Driver) (stream : VulkanStream.t) (commands : list Handle) :
  forall t,
  for_each commands (fun command _ => VulkanStream.launch drv command) tt stream t
  = (Ok tt, stream, t ++ map (submit_call stream) commands)
  \/
  exists pre command post,
    commands = pre ++ command :: post
    /\ drv_result drv (t ++ map (submit_call stream) pre) (submit_call stream command)
       <> VK_SUCCESS
    /\ for_each commands (fun command _ => VulkanStream.launch drv command) tt stream t
       = (Throw "failed to submit command buffer", stream,
          t ++ map (submit_call stream) (pre ++ [command])).
Proof.
  induction commands as [|command commands IH]; intros t.
  - left. cbn [for_each map]. unfold ret. now rewrite app_nil_r.
  - assert (Hstep :
      for_each (command :: commands)
        (fun command _ => VulkanStream.launch drv command) tt stream t
      = if drv_result drv t (submit_call stream command) =? VK_SUCCESS
        then for_each commands (fun command _ => VulkanStream.launch drv command) tt
               stream (t ++ [submit_call stream command])
        else (Throw "failed to submit command buffer", stream,
              t ++ [submit_call stream command])).
    { cbn [for_each]. unfold bind. rewrite launch_run.
      destruct (_ =? VK_SUCCESS); reflexivity. }
    rewrite Hstep. clear Hstep.
    destruct (Z.eqb_spec (drv_result drv t (submit_call stream command)) VK_SUCCESS)
      as [Hok|Hbad].
    + destruct (IH (t ++ [submit_call stream command]))
        as [Hrun|(pre & c & post & -> & Hc & Hrun)].
      * left. rewrite Hrun, <- app_assoc. reflexivity.
      * right. exists (command :: pre), c, post. split; [reflexivity|].
        cbn [map app]. rewrite <- app_assoc in Hc. split; [exact Hc|].
        rewrite Hrun, <- app_assoc. reflexivity.
    + right. exists [], command, commands. split; [reflexivity|].
      cbn [map app]. rewrite app_nil_r. split; [exact Hbad|]. reflexivity.
Qed.

(** X15: a caller that launches the commands of a list, one after the other,
    and then synchronizes, either has every command submitted, each in a
    submission of its own and in the order of the list, followed by one
    [vkQueueWaitIdle] on the same queue; or it gets the exception of the first
    submission the driver refuses, and then no later command has been
    submitted and the queue has not been waited for.  The stream is the same
    afterwards. *)
Theorem launches_then_synchronize (drv : Driver) (commands : list Handle)
    (stream : VulkanStream.t) (t : Trace) :
  let queue := VulkanDevice.compute_queue (VulkanStream.device_ stream) in
  launch_all_then_synchronize drv commands stream t
  = (Ok tt, stream,
     t ++ map (submit_call stream) commands ++ [vkQueueWaitIdle queue])
  \/
  exists pre command post,
    commands = pre ++ command :: post
    /\ drv_result drv (t ++ map (submit_call stream) pre) (submit_call stream command)
       <> VK_SUCCESS
    /\ launch_all_then_synchronize drv commands stream t
       = (Throw "failed to submit command buffer", stream,
          t ++ map (submit_call stream) (pre ++ [command])).
Proof.
  cbn zeta.
  destruct (launch_all_run drv stream commands t)
    as [Hrun|(pre & c & post & Hc & Hbad & Hrun)].
  - left. unfold launch_all_then_synchronize, bind. rewrite Hrun.
    unfold VulkanStream.synchronize. run_m. now rewrite <- app_assoc.
  - right. exists pre, c, post. split; [exact Hc|]. split; [exact Hbad|].
    unfold launch_all_then_synchronize, bind. now rewrite Hrun.
Qed.

(** ** The debug messenger *)

(** X16: the messenger that [populate_debug_messenger_create_info] describes
    is subscribed to every severity for which [vk_debug_callback] writes a log
    line, so no message the callback would log is withheld from it; the one
    subscribed severity the callback drops is [VERBOSE]. *)
Theorem logged_severities_are_subscribed {Self : Type}
    (message_severity : VkDebugUtilsMessageSeverityFlagBitsEXT) (message_type : Z)
    (p_callback_data : VkDebugUtilsMessengerCallbackDataEXT) (p_user_data : Z)
    (self : Self) (t : Trace) :
  issued (vk_debug_callback message_severity message_type p_callback_data p_user_data)
    self t <> []
  <-> subscribed message_severity = true
      /\ message_severity <> VK_DEBUG_UTILS_MESSAGE_SEVERITY_VERBOSE_BIT_EXT.
Proof.
  assert (Hrun : issued (vk_debug_callback message_severity message_type p_callback_data
                           p_user_data) self t
                 = if severity_value message_severity
                      >? severity_value VK_DEBUG_UTILS_MESSAGE_SEVERITY_INFO_BIT_EXT
                   then [TI_LOG WARN "validation layer: {}"
                           [ArgStr (pMessage p_callback_data)]]
                   else []).
  { eapply issued_app. unfold vk_debug_callback; unfold_m.
    destruct (_ >? _); cbn; rewrite ?app_nil_r; reflexivity. }
  rewrite Hrun. destruct message_severity; cbn; split;
    try discriminate; try (intros [? ?]; congruence); try (intros _; split; [reflexivity|discriminate]).
  all: intros H; exfalso; apply H; reflexivity.
Qed.
